(** * CanvasAI scene generator: a shallow embedding of [src/index.tsx]

    The page keeps one three.js scene with a group of generated meshes.
    [handleGenerateClick] sends the prompt (and an optional image) to the
    generative service, parses the JSON it answers and hands the value to
    [buildSceneFromData], which clears the group and rebuilds it.
    [handleImageUpload] stores an uploaded picture as a base64 payload.

    The payload has TypeScript type [any]: it is modelled as a JavaScript
    value ([JSValue]) with the property reads of the source written out,
    including the [TypeError] a read on [undefined] or [null] throws and
    the one a conversion to a number throws on a value that has none.
    JavaScript numbers are IEEE 754 doubles, here Rocq's primitive floats.
    Calls into three.js are kept as the constructor calls the source makes,
    with the arguments it computes.

    The handlers run one at a time, but two of them finish later: the
    handler of the Generate button is suspended at its [await] until the
    call settles, and the glTF exporter hands its result over in a later
    task. [step] and [run] take the click and the later half as two
    events, with whatever other events come in between. *)

From Stdlib Require Import List String Ascii Bool NArith Lia.
From Stdlib Require Import Floats Strings.Byte.
Import ListNotations.
Local Open Scope string_scope.
Local Open Scope list_scope.

Set Warnings "-register-all,-inexact-float".

(** ** JavaScript values *)

(** What [JSON.parse] can return, and [undefined] for an absent property. *)
Inductive JSValue : Type :=
| JUndefined
| JNull
| JBool (b : bool)
| JNum (n : float)
| JStr (s : string)
| JArr (items : list JSValue)
| JObj (fields : list (string * JSValue)).

Inductive JSError : Type :=
| TypeError
| SyntaxError
| ServiceError.

(** The completion of a statement: it returns or it throws. *)
Inductive Completion (A : Type) : Type :=
| Normal (a : A)
| Throw (e : JSError).
Arguments Normal {A} a.
Arguments Throw {A} e.

(** Own property of an object literal; [JSON.parse] keeps the last of two
    equal keys. *)
Fixpoint own_property (k : string) (fields : list (string * JSValue)) : JSValue :=
  match fields with
  | [] => JUndefined
  | (k', v) :: rest =>
      match own_property k rest with
      | JUndefined => if String.eqb k k' then v else JUndefined
      | later => later
      end
  end.

(** [v.k] for the data keys the source reads ([backgroundColor], [objects],
    [shape], [color], [position], [scale], [x], [y], [z]): a [TypeError] on
    [undefined] and [null], the own property of an object, and [undefined]
    on a boolean, number, string or array, which have none of these keys. *)
Definition getProp (v : JSValue) (k : string) : Completion JSValue :=
  match v with
  | JUndefined | JNull => Throw TypeError
  | JObj fields => Normal (own_property k fields)
  | _ => Normal JUndefined
  end.

(** [k] is an own key of the object. *)
Definition has_own_property (k : string) (fields : list (string * JSValue)) : bool :=
  existsb (fun kv => String.eqb k (fst kv)) fields.

(** ToPrimitive throws a [TypeError] on the value. A parsed object has the
    [valueOf] and [toString] of [Object.prototype] unless it owns a key of
    that name, whose value is data and cannot be called; so the conversion
    fails exactly on an object that owns a [toString] key. An array is
    converted by [join], which converts its elements to strings. *)
Fixpoint ToPrimitive_throws (v : JSValue) : bool :=
  match v with
  | JObj fields => has_own_property "toString" fields
  | JArr items => existsb ToPrimitive_throws items
  | _ => false
  end.

Definition is_pos_zero (f : float) : bool :=
  match classify f with PZero => true | _ => false end.

Definition is_neg_zero (f : float) : bool :=
  match classify f with NZero => true | _ => false end.

(** ToBoolean, as [||] applies it. *)
Definition truthy (v : JSValue) : bool :=
  match v with
  | JUndefined | JNull => false
  | JBool b => b
  | JNum n => negb (is_nan n || is_zero n)
  | JStr s => negb (String.eqb s EmptyString)
  | JArr _ | JObj _ => true
  end.

(** [a || b] *)
Definition js_or (a b : JSValue) : JSValue := if truthy a then a else b.

(** [Math.max] on numbers: [NaN] if any argument is, [+0] above [-0]. *)
Fixpoint Math_max_from (highest : float) (ns : list float) : float :=
  match ns with
  | [] => highest
  | n :: rest =>
      if is_nan n then nan
      else if is_pos_zero n && is_neg_zero highest then Math_max_from n rest
      else if PrimFloat.ltb highest n then Math_max_from n rest
      else Math_max_from highest rest
  end.

Definition Math_max (ns : list float) : float := Math_max_from neg_infinity ns.

(** ** three.js objects, as the source constructs them *)

(** A colour is kept as the value handed to three.js ([new THREE.Color(v)],
    or the [color] parameter of a material); reading CSS colour text is the
    library's business. *)
Inductive Color : Type :=
| THREE_Color (v : JSValue).

Definition color_value (c : Color) : JSValue :=
  match c with THREE_Color v => v end.

(** [0x111111] *)
Definition default_background : JSValue := JNum 1118481%float.

Inductive Geometry : Type :=
| BoxGeometry (width height depth : JSValue)
| SphereGeometry (radius : float) (widthSegments heightSegments : nat)
| ConeGeometry (radius : float) (height : JSValue) (radialSegments : nat)
| CylinderGeometry (radiusTop radiusBottom : float) (height : JSValue)
    (radialSegments : nat)
| TorusGeometry (radius tube : float) (radialSegments tubularSegments : nat).

Record MeshStandardMaterial : Type := {
  color : Color;
  roughness : float;
  metalness : float }.

(** [Object3D] starts at the origin with no rotation; [rotation] holds the
    Euler angles. *)
Record Mesh : Type := {
  geometry : Geometry;
  material : MeshStandardMaterial;
  position : JSValue * JSValue * JSValue;
  rotation : float * float * float }.

Definition THREE_Mesh (g : Geometry) (m : MeshStandardMaterial) : Mesh :=
  {| geometry := g; material := m;
     position := (JNum 0%float, JNum 0%float, JNum 0%float);
     rotation := (0%float, 0%float, 0%float) |}.

(** [mesh.position.set(x, y, z)]: [Vector3.set] stores the three values as
    they are given, but keeps the old [z] when [z] is [undefined]. *)
Definition position_set (x y z : JSValue) (m : Mesh) : Mesh :=
  {| geometry := geometry m; material := material m;
     position := (x, y, match z with
                        | JUndefined => snd (position m)
                        | _ => z
                        end);
     rotation := rotation m |}.

(** ** The page: module state and the DOM properties the handlers touch *)

Inductive Display : Type :=
| display_unset
| display_none
| display_block
| display_flex.

(** [uploadedImage]; [data] is [None] when the data URL had no comma and
    the destructured [base64Data] is [undefined]. *)
Record InlineData : Type := {
  mimeType : string;
  data : option string }.

Inductive Part : Type :=
| inlineData (img : InlineData)
| text (prompt : string).

Record App : Type := {
  ai : option string;
  uploadedImage : option InlineData;
  children : list Mesh;
  background : Color;
  promptInput_value : string;
  generateBtn_disabled : bool;
  spinner_display : Display;
  buttonText_display : Display;
  downloadToggleBtn_disabled : bool;
  errorMessage_textContent : string;
  errorMessage_display : Display;
  apiKeyModal_display : Display;
  previewImage_src : string;
  imagePreview_display : Display;
  imageUploadBtn_display : Display;
  requests : list (list Part) }.

Definition set_children (cs : list Mesh) (st : App) : App :=
  {| ai := ai st; uploadedImage := uploadedImage st; children := cs;
     background := background st; promptInput_value := promptInput_value st;
     generateBtn_disabled := generateBtn_disabled st;
     spinner_display := spinner_display st;
     buttonText_display := buttonText_display st;
     downloadToggleBtn_disabled := downloadToggleBtn_disabled st;
     errorMessage_textContent := errorMessage_textContent st;
     errorMessage_display := errorMessage_display st;
     apiKeyModal_display := apiKeyModal_display st;
     previewImage_src := previewImage_src st;
     imagePreview_display := imagePreview_display st;
     imageUploadBtn_display := imageUploadBtn_display st;
     requests := requests st |}.

Definition set_background (c : Color) (st : App) : App :=
  {| ai := ai st; uploadedImage := uploadedImage st; children := children st;
     background := c; promptInput_value := promptInput_value st;
     generateBtn_disabled := generateBtn_disabled st;
     spinner_display := spinner_display st;
     buttonText_display := buttonText_display st;
     downloadToggleBtn_disabled := downloadToggleBtn_disabled st;
     errorMessage_textContent := errorMessage_textContent st;
     errorMessage_display := errorMessage_display st;
     apiKeyModal_display := apiKeyModal_display st;
     previewImage_src := previewImage_src st;
     imagePreview_display := imagePreview_display st;
     imageUploadBtn_display := imageUploadBtn_display st;
     requests := requests st |}.

Definition set_downloadToggleBtn_disabled (b : bool) (st : App) : App :=
  {| ai := ai st; uploadedImage := uploadedImage st; children := children st;
     background := background st; promptInput_value := promptInput_value st;
     generateBtn_disabled := generateBtn_disabled st;
     spinner_display := spinner_display st;
     buttonText_display := buttonText_display st;
     downloadToggleBtn_disabled := b;
     errorMessage_textContent := errorMessage_textContent st;
     errorMessage_display := errorMessage_display st;
     apiKeyModal_display := apiKeyModal_display st;
     previewImage_src := previewImage_src st;
     imagePreview_display := imagePreview_display st;
     imageUploadBtn_display := imageUploadBtn_display st;
     requests := requests st |}.

Definition set_apiKeyModal_display (d : Display) (st : App) : App :=
  {| ai := ai st; uploadedImage := uploadedImage st; children := children st;
     background := background st; promptInput_value := promptInput_value st;
     generateBtn_disabled := generateBtn_disabled st;
     spinner_display := spinner_display st;
     buttonText_display := buttonText_display st;
     downloadToggleBtn_disabled := downloadToggleBtn_disabled st;
     errorMessage_textContent := errorMessage_textContent st;
     errorMessage_display := errorMessage_display st;
     apiKeyModal_display := d;
     previewImage_src := previewImage_src st;
     imagePreview_display := imagePreview_display st;
     imageUploadBtn_display := imageUploadBtn_display st;
     requests := requests st |}.

(** The call [ai.models.generateContent({..., contents})], logged. *)
Definition log_request (contents : list Part) (st : App) : App :=
  {| ai := ai st; uploadedImage := uploadedImage st; children := children st;
     background := background st; promptInput_value := promptInput_value st;
     generateBtn_disabled := generateBtn_disabled st;
     spinner_display := spinner_display st;
     buttonText_display := buttonText_display st;
     downloadToggleBtn_disabled := downloadToggleBtn_disabled st;
     errorMessage_textContent := errorMessage_textContent st;
     errorMessage_display := errorMessage_display st;
     apiKeyModal_display := apiKeyModal_display st;
     previewImage_src := previewImage_src st;
     imagePreview_display := imagePreview_display st;
     imageUploadBtn_display := imageUploadBtn_display st;
     requests := requests st ++ [contents] |}.

(** ** UI utility functions *)

Definition setLoading (isLoading : bool) (st : App) : App :=
  {| ai := ai st; uploadedImage := uploadedImage st; children := children st;
     background := background st; promptInput_value := promptInput_value st;
     generateBtn_disabled := isLoading;
     spinner_display := if isLoading then display_block else display_none;
     buttonText_display := if isLoading then display_none else display_block;
     downloadToggleBtn_disabled := downloadToggleBtn_disabled st;
     errorMessage_textContent := errorMessage_textContent st;
     errorMessage_display := errorMessage_display st;
     apiKeyModal_display := apiKeyModal_display st;
     previewImage_src := previewImage_src st;
     imagePreview_display := imagePreview_display st;
     imageUploadBtn_display := imageUploadBtn_display st;
     requests := requests st |}.

Definition showError (message : string) (st : App) : App :=
  {| ai := ai st; uploadedImage := uploadedImage st; children := children st;
     background := background st; promptInput_value := promptInput_value st;
     generateBtn_disabled := generateBtn_disabled st;
     spinner_display := spinner_display st;
     buttonText_display := buttonText_display st;
     downloadToggleBtn_disabled := downloadToggleBtn_disabled st;
     errorMessage_textContent := message;
     errorMessage_display := display_block;
     apiKeyModal_display := apiKeyModal_display st;
     previewImage_src := previewImage_src st;
     imagePreview_display := imagePreview_display st;
     imageUploadBtn_display := imageUploadBtn_display st;
     requests := requests st |}.

Definition hideError (st : App) : App :=
  {| ai := ai st; uploadedImage := uploadedImage st; children := children st;
     background := background st; promptInput_value := promptInput_value st;
     generateBtn_disabled := generateBtn_disabled st;
     spinner_display := spinner_display st;
     buttonText_display := buttonText_display st;
     downloadToggleBtn_disabled := downloadToggleBtn_disabled st;
     errorMessage_textContent := errorMessage_textContent st;
     errorMessage_display := display_none;
     apiKeyModal_display := apiKeyModal_display st;
     previewImage_src := previewImage_src st;
     imagePreview_display := imagePreview_display st;
     imageUploadBtn_display := imageUploadBtn_display st;
     requests := requests st |}.

(** ** Statements that change the page and may throw *)

Definition Stmt (A : Type) : Type := App -> Completion A * App.

Definition ret {A} (a : A) : Stmt A := fun st => (Normal a, st).

Definition throw {A} (e : JSError) : Stmt A := fun st => (Throw e, st).

Definition bind {A B} (c : Stmt A) (k : A -> Stmt B) : Stmt B :=
  fun st =>
    match c st with
    | (Normal a, st') => k a st'
    | (Throw e, st') => (Throw e, st')
    end.

Definition lift {A} (c : Completion A) : Stmt A := fun st => (c, st).

Definition modify (f : App -> App) : Stmt unit := fun st => (Normal tt, f st).

Declare Scope stmt_scope.
Delimit Scope stmt_scope with stmt.
Notation "x <- c ;; k" := (bind c (fun x => k))
  (at level 61, c at next level, right associativity) : stmt_scope.
Notation "c ;; k" := (bind c (fun _ => k))
  (at level 61, right associativity) : stmt_scope.

Definition bindC {A B} (c : Completion A) (k : A -> Completion B) : Completion B :=
  match c with
  | Normal a => k a
  | Throw e => Throw e
  end.

(** [v.k1.k2] *)
Definition getPath (v : JSValue) (k1 k2 : string) : Completion JSValue :=
  bindC (getProp v k1) (fun w => getProp w k2).

(** [switch] compares with [===]: only a string equals a [case] label. *)
Definition strict_equals_string (v : JSValue) (label : string) : bool :=
  match v with
  | JStr s => String.eqb s label
  | _ => false
  end.

(** [while (children.length > 0) remove(children[0])] *)
Fixpoint remove_all_children (cs : list Mesh) : list Mesh :=
  match cs with
  | [] => []
  | _ :: rest => remove_all_children rest
  end.

(** [generatedContentGroup.add(mesh)] *)
Definition add_child (m : Mesh) (st : App) : App :=
  set_children (children st ++ [m]) st.

(** [items.forEach(callback)]; a throwing callback ends the iteration. *)
Fixpoint forEach (items : list JSValue) (callback : JSValue -> Stmt unit) : Stmt unit :=
  match items with
  | [] => ret tt
  | item :: rest => bind (callback item) (fun _ => forEach rest callback)
  end.

(** [v.forEach(callback)]: only an array has the method. A JSON object may
    own a [forEach] key, but its value is data and calling it throws. *)
Definition call_forEach (v : JSValue) (callback : JSValue -> Stmt unit) : Stmt unit :=
  match v with
  | JArr items => forEach items callback
  | _ => throw TypeError
  end.

(** ** Image input *)

(** A picked file: the MIME type the browser reports and its bytes. *)
Record File : Type := {
  file_type : string;
  file_bytes : list byte }.

Definition includes (l : list string) (s : string) : bool :=
  existsb (String.eqb s) l.

Definition accepted_types : list string := ["image/jpeg"; "image/png"; "image/webp"].

Definition invalid_image_message : string :=
  "Please upload a valid image file (JPG, PNG, WebP).".

Definition base64_alphabet : string :=
  "ABCDEFGHIJKLMNOPQRSTUVWXYZabcdefghijklmnopqrstuvwxyz0123456789+/".

Definition base64_digit (n : N) : ascii :=
  match String.get (N.to_nat n) base64_alphabet with
  | Some c => c
  | None => "="%char
  end.

(** The four digits of a 24-bit group. *)
Definition sextet (group : N) (k : N) : ascii :=
  base64_digit (N.land (N.shiftr group (6 * k)) 63).

Definition group_of (a b c : byte) : N :=
  N.lor (N.shiftl (Byte.to_N a) 16) (N.lor (N.shiftl (Byte.to_N b) 8) (Byte.to_N c)).

(** Base64 of RFC 4648, with padding, as [readAsDataURL] emits it. *)
Fixpoint base64 (bs : list byte) : string :=
  match bs with
  | [] => EmptyString
  | [a] =>
      let g := group_of a x00 x00 in
      String (sextet g 3) (String (sextet g 2) "==")
  | [a; b] =>
      let g := group_of a b x00 in
      String (sextet g 3) (String (sextet g 2) (String (sextet g 1) "="))
  | a :: b :: c :: rest =>
      let g := group_of a b c in
      String (sextet g 3) (String (sextet g 2) (String (sextet g 1)
        (String (sextet g 0) (base64 rest))))
  end.

(** The media type of a data URL; browsers name a file of unknown type
    [application/octet-stream]. *)
Definition media_type (t : string) : string :=
  match t with
  | EmptyString => "application/octet-stream"
  | _ => t
  end.

(** [reader.readAsDataURL(file)]: the result handed to [onload]. *)
Definition readAsDataURL (f : File) : string :=
  "data:" ++ media_type (file_type f) ++ ";base64," ++ base64 (file_bytes f).

(** Whether character [c] occurs in [s]. *)
Fixpoint contains (c : ascii) (s : string) : bool :=
  match s with
  | EmptyString => false
  | String c' rest => Ascii.eqb c' c || contains c rest
  end.

(** [s.split(sep)] with a one-character separator. *)
Fixpoint split (sep : ascii) (s : string) : list string :=
  match s with
  | EmptyString => [EmptyString]
  | String c rest =>
      if Ascii.eqb c sep then EmptyString :: split sep rest
      else
        match split sep rest with
        | piece :: pieces => String c piece :: pieces
        | [] => [String c EmptyString]
        end
  end.

(** The assignments of the [onload] callback. *)
Definition set_uploaded (img : InlineData) (src : string) (st : App) : App :=
  {| ai := ai st; uploadedImage := Some img; children := children st;
     background := background st; promptInput_value := promptInput_value st;
     generateBtn_disabled := generateBtn_disabled st;
     spinner_display := spinner_display st;
     buttonText_display := buttonText_display st;
     downloadToggleBtn_disabled := downloadToggleBtn_disabled st;
     errorMessage_textContent := errorMessage_textContent st;
     errorMessage_display := errorMessage_display st;
     apiKeyModal_display := apiKeyModal_display st;
     previewImage_src := src;
     imagePreview_display := display_block;
     imageUploadBtn_display := display_none;
     requests := requests st |}.

(** [reader.onload]: [const [header, base64Data] = result.split(',')]. *)
Definition reader_onload (f : File) (st : App) : App :=
  let result := readAsDataURL f in
  let parts := split ","%char result in
  set_uploaded {| mimeType := file_type f; data := nth_error parts 1 |} result st.

(** [handleImageUpload] up to [reader.readAsDataURL(file)]: the file whose
    read was started, if any. [None] as input is an empty selection. *)
Definition handleImageUpload (file : option File) (st : App) : App * option File :=
  match file with
  | None => (st, None)
  | Some f =>
      if negb (includes accepted_types (file_type f))
      then (showError invalid_image_message st, None)
      else (st, Some f)
  end.

(** The upload with its read completed. *)
Definition upload (file : option File) (st : App) : App :=
  match handleImageUpload file st with
  | (st', Some f) => reader_onload f st'
  | (st', None) => st'
  end.

(** ** The Scene Description contract *)

(** The response schema: every field required, numbers in the vectors. *)
Module Schema.

Record Vec3 : Type := {
  x : float;
  y : float;
  z : float }.

Record ObjectDescriptor : Type := {
  shape : string;
  color : string;
  position : Vec3;
  scale : Vec3 }.

Record SceneDescription : Type := {
  backgroundColor : string;
  objects : list ObjectDescriptor }.

End Schema.

(** A description as the value [JSON.parse] returns for it. *)
Definition encode_vec (v : Schema.Vec3) : JSValue :=
  JObj [("x", JNum (Schema.x v)); ("y", JNum (Schema.y v)); ("z", JNum (Schema.z v))].

Definition encode_object (d : Schema.ObjectDescriptor) : JSValue :=
  JObj [("shape", JStr (Schema.shape d));
        ("color", JStr (Schema.color d));
        ("position", encode_vec (Schema.position d));
        ("scale", encode_vec (Schema.scale d))].

Definition encode (d : Schema.SceneDescription) : JSValue :=
  JObj [("backgroundColor", JStr (Schema.backgroundColor d));
        ("objects", JArr (map encode_object (Schema.objects d)))].

Definition shape_names : list string := ["box"; "sphere"; "cone"; "cylinder"; "torus"].

Definition recognized (d : Schema.ObjectDescriptor) : bool :=
  includes shape_names (Schema.shape d).

Section Engine.

(** StringToNumber on a string, and on the text [join] gives of an array
    whose conversion does not throw: left to the engine. *)
Variable ToNumber_text : JSValue -> float.

(** ToNumber, as [/], [>] and [Math.max] apply it to their operands and
    the three.js constructors to their dimensions: a [TypeError] where
    ToPrimitive throws; an object that converts does so to the text
    [[object Object]], which is not a number. *)
Definition ToNumber (v : JSValue) : Completion float :=
  if ToPrimitive_throws v then Throw TypeError
  else
    Normal match v with
           | JUndefined => nan
           | JNull => 0%float
           | JBool b => if b then 1%float else 0%float
           | JNum n => n
           | JStr _ | JArr _ => ToNumber_text v
           | JObj _ => nan
           end.

(** [a / d] with a numeric literal [d] *)
Definition js_div (a : JSValue) (d : float) : Completion float :=
  bindC (ToNumber a) (fun n => Normal (n / d)%float).

(** [Math.max(a, b, c)] *)
Definition js_Math_max (a b c : JSValue) : Completion float :=
  bindC (ToNumber a) (fun x =>
  bindC (ToNumber b) (fun y =>
  bindC (ToNumber c) (fun z =>
  Normal (Math_max [x; y; z])))).

(** [v.length > 0] *)
Definition length_positive (v : JSValue) : Completion bool :=
  match v with
  | JUndefined | JNull => Throw TypeError
  | JArr items => Normal (Nat.ltb 0 (List.length items))
  | JStr s => Normal (Nat.ltb 0 (String.length s))
  | JObj fields =>
      bindC (ToNumber (own_property "length" fields)) (fun n =>
      Normal (PrimFloat.ltb 0%float n))
  | JBool _ | JNum _ => Normal false
  end.

(** A dimension handed to a three.js geometry: the constructor computes
    with it, which converts it to a number, unless it is [undefined] and
    the default takes its place. *)
Definition dimension (v : JSValue) : Completion JSValue :=
  bindC (ToNumber v) (fun _ => Normal v).

(** [new THREE.BoxGeometry(width, height, depth)] *)
Definition THREE_BoxGeometry (width height depth : JSValue) : Completion Geometry :=
  bindC (dimension depth) (fun d =>
  bindC (dimension height) (fun h =>
  bindC (dimension width) (fun w =>
  Normal (BoxGeometry w h d)))).

(** [new THREE.ConeGeometry(radius, height, radialSegments)] *)
Definition THREE_ConeGeometry (radius : float) (height : JSValue) (radialSegments : nat)
  : Completion Geometry :=
  bindC (dimension height) (fun h => Normal (ConeGeometry radius h radialSegments)).

(** [new THREE.CylinderGeometry(radiusTop, radiusBottom, height, radialSegments)] *)
Definition THREE_CylinderGeometry (radiusTop radiusBottom : float) (height : JSValue)
    (radialSegments : nat) : Completion Geometry :=
  bindC (dimension height) (fun h =>
  Normal (CylinderGeometry radiusTop radiusBottom h radialSegments)).

(** The [switch (obj.shape)] of the callback; [None] is the [default]
    branch, which returns from the callback. *)
Definition switch_shape (shape s : JSValue) : Completion (option Geometry) :=
  if strict_equals_string shape "box" then
    bindC (getProp s "x") (fun sx =>
    bindC (getProp s "y") (fun sy =>
    bindC (getProp s "z") (fun sz =>
    bindC (THREE_BoxGeometry sx sy sz) (fun g =>
    Normal (Some g)))))
  else if strict_equals_string shape "sphere" then
    bindC (getProp s "x") (fun sx =>
    bindC (getProp s "y") (fun sy =>
    bindC (getProp s "z") (fun sz =>
    bindC (js_Math_max sx sy sz) (fun m =>
    Normal (Some (SphereGeometry (m / 2)%float 32 16))))))
  else if strict_equals_string shape "cone" then
    bindC (getProp s "x") (fun sx =>
    bindC (js_div sx 2%float) (fun r =>
    bindC (getProp s "y") (fun sy =>
    bindC (THREE_ConeGeometry r sy 32) (fun g =>
    Normal (Some g)))))
  else if strict_equals_string shape "cylinder" then
    bindC (getProp s "x") (fun sx =>
    bindC (js_div sx 2%float) (fun rt =>
    bindC (getProp s "z") (fun sz =>
    bindC (js_div sz 2%float) (fun rb =>
    bindC (getProp s "y") (fun sy =>
    bindC (THREE_CylinderGeometry rt rb sy 32) (fun g =>
    Normal (Some g)))))))
  else if strict_equals_string shape "torus" then
    bindC (getProp s "x") (fun sx =>
    bindC (js_div sx 2%float) (fun r =>
    bindC (getProp s "y") (fun sy =>
    bindC (js_div sy 4%float) (fun t =>
    Normal (Some (TorusGeometry r t 16 100))))))
  else Normal None.

(** The callback of [sceneData.objects.forEach]. *)
Definition addObject (obj : JSValue) : Stmt unit :=
  (s <- lift (getProp obj "scale") ;;
   shape <- lift (getProp obj "shape") ;;
   g <- lift (switch_shape shape s) ;;
   match g with
   | None => ret tt
   | Some geometry =>
       c <- lift (getProp obj "color") ;;
       let material :=
         {| color := THREE_Color c; roughness := 0.5%float; metalness := 0.1%float |} in
       let mesh := THREE_Mesh geometry material in
       px <- lift (getPath obj "position" "x") ;;
       py <- lift (getPath obj "position" "y") ;;
       pz <- lift (getPath obj "position" "z") ;;
       modify (add_child (position_set px py pz mesh))
   end)%stmt.

Definition buildSceneFromData (sceneData : JSValue) : Stmt unit :=
  (modify (fun st => set_children (remove_all_children (children st)) st) ;;
   bg <- lift (getProp sceneData "backgroundColor") ;;
   modify (set_background (THREE_Color (js_or bg default_background))) ;;
   objs <- lift (getProp sceneData "objects") ;;
   call_forEach objs addObject ;;
   positive <- lift (bindC (getProp sceneData "objects") length_positive) ;;
   if positive : bool then modify (set_downloadToggleBtn_disabled false) else ret tt)%stmt.

(** ** The generation request *)

(** What the awaited call and [JSON.parse(response.text)] come to: the call
    rejects (network, credential, quota), the text is not JSON, or the text
    parses to a value. *)
Inductive ServiceReply : Type :=
| ServiceFailure
| ResponseUnparsable
| ResponseJSON (sceneData : JSValue).

Definition missing_key_message : string :=
  "Please set your Gemini API key in the settings before generating.".

Definition missing_input_message : string :=
  "Please enter a prompt or upload an image to describe the scene.".

Definition generation_failed_message : string :=
  "Failed to generate the scene. The AI may be unavailable, your API key may be invalid, or the request could not be processed. Please check your key and try again.".

(** [contents] of the request: the image first when there is one. *)
Definition request_contents (st : App) : list Part :=
  match uploadedImage st with
  | Some img => [inlineData img; text (promptInput_value st)]
  | None => [text (promptInput_value st)]
  end.

(** [handleGenerateClick] up to its [await]: the two guards, then the
    loading state and the call. [None] when no call is made. *)
Definition handleGenerateClick_request (st : App) : App * option (list Part) :=
  match ai st with
  | None =>
      (set_apiKeyModal_display display_flex (showError missing_key_message st), None)
  | Some _ =>
      let prompt := promptInput_value st in
      match prompt, uploadedImage st with
      | EmptyString, None => (showError missing_input_message st, None)
      | _, _ =>
          let st1 := setLoading true st in
          let st2 := hideError st1 in
          let st3 := set_downloadToggleBtn_disabled true st2 in
          let contents := request_contents st3 in
          (log_request contents st3, Some contents)
      end
  end.

(** The page while the request is outstanding. *)
Definition requesting (st : App) : App :=
  log_request (request_contents st)
    (set_downloadToggleBtn_disabled true (hideError (setLoading true st))).

(** The rest of the [try] block once the call settles. *)
Definition try_block (reply : ServiceReply) : Stmt unit :=
  match reply with
  | ServiceFailure => throw ServiceError
  | ResponseUnparsable => throw SyntaxError
  | ResponseJSON sceneData => buildSceneFromData sceneData
  end.

(** [try { ... } catch { showError } finally { setLoading(false) }] *)
Definition handleGenerateClick_resume (reply : ServiceReply) (st : App) : App :=
  match try_block reply st with
  | (Normal _, st') => setLoading false st'
  | (Throw _, st') => setLoading false (showError generation_failed_message st')
  end.

(** The click with the call settling at once, the service answering
    [reply]. The handler is suspended at its [await], where other
    handlers may run: [step] below takes the two halves apart, and
    [generation] runs them with events in between. *)
Definition handleGenerateClick (reply : ServiceReply) (st : App) : App :=
  match handleGenerateClick_request st with
  | (st', None) => st'
  | (st', Some _) => handleGenerateClick_resume reply st'
  end.

(** ** What one descriptor and one list of descriptors contribute *)

(** The mesh the callback adds for [obj]: [Normal None] when the shape is
    skipped, [Throw] when a read fails before the mesh is added. *)
Definition object_mesh (obj : JSValue) : Completion (option Mesh) :=
  bindC (getProp obj "scale") (fun s =>
  bindC (getProp obj "shape") (fun shape =>
  bindC (switch_shape shape s) (fun g =>
  match g with
  | None => Normal None
  | Some geometry =>
      bindC (getProp obj "color") (fun c =>
      bindC (getPath obj "position" "x") (fun px =>
      bindC (getPath obj "position" "y") (fun py =>
      bindC (getPath obj "position" "z") (fun pz =>
      Normal (Some (position_set px py pz
        (THREE_Mesh geometry
           {| color := THREE_Color c; roughness := 0.5%float;
              metalness := 0.1%float |})))))))
  end))).

(** The meshes a [forEach] over [items] adds, up to the first throw. *)
Fixpoint objects_meshes (items : list JSValue) : Completion unit * list Mesh :=
  match items with
  | [] => (Normal tt, [])
  | obj :: rest =>
      match object_mesh obj with
      | Throw e => (Throw e, [])
      | Normal None => objects_meshes rest
      | Normal (Some m) =>
          let (c, ms) := objects_meshes rest in (c, m :: ms)
      end
  end.

(** The Geometry Builder as the specification words it, per shape, for a
    descriptor of the contract. *)
Definition spec_geometry (d : Schema.ObjectDescriptor) : option Geometry :=
  let sx := Schema.x (Schema.scale d) in
  let sy := Schema.y (Schema.scale d) in
  let sz := Schema.z (Schema.scale d) in
  if String.eqb (Schema.shape d) "box" then
    Some (BoxGeometry (JNum sx) (JNum sy) (JNum sz))
  else if String.eqb (Schema.shape d) "sphere" then
    Some (SphereGeometry (Math_max [sx; sy; sz] / 2)%float 32 16)
  else if String.eqb (Schema.shape d) "cone" then
    Some (ConeGeometry (sx / 2)%float (JNum sy) 32)
  else if String.eqb (Schema.shape d) "cylinder" then
    Some (CylinderGeometry (sx / 2)%float (sz / 2)%float (JNum sy) 32)
  else if String.eqb (Schema.shape d) "torus" then
    Some (TorusGeometry (sx / 2)%float (sy / 4)%float 16 100)
  else None.

(** The mesh the specification describes for a descriptor: translated to
    its position, not rotated, coloured as the descriptor says. *)
Definition spec_mesh (d : Schema.ObjectDescriptor) : option Mesh :=
  match spec_geometry d with
  | None => None
  | Some g =>
      Some {| geometry := g;
              material := {| color := THREE_Color (JStr (Schema.color d));
                             roughness := 0.5%float; metalness := 0.1%float |};
              position := (JNum (Schema.x (Schema.position d)),
                           JNum (Schema.y (Schema.position d)),
                           JNum (Schema.z (Schema.position d)));
              rotation := (0%float, 0%float, 0%float) |}
  end.

Fixpoint spec_meshes (ds : list Schema.ObjectDescriptor) : list Mesh :=
  match ds with
  | [] => []
  | d :: rest =>
      match spec_mesh d with
      | Some m => m :: spec_meshes rest
      | None => spec_meshes rest
      end
  end.

(** The page after a replacement that set the background from [bg] and
    left the meshes [ms] in the group. *)
Definition replaced (bg : JSValue) (ms : list Mesh) (st : App) : App :=
  set_children ms (set_background (THREE_Color (js_or bg default_background)) st).

(** [m] is the mesh of descriptor [obj]: moved to the descriptor's position
    (to z = 0, where a new mesh is, when the position has no [z]) and not
    rotated, coloured as the descriptor says, with the two fixed material
    constants. *)
Definition built_from (obj : JSValue) (m : Mesh) : Prop :=
  getPath obj "position" "x" = Normal (fst (fst (position m))) /\
  getPath obj "position" "y" = Normal (snd (fst (position m))) /\
  (exists pz, getPath obj "position" "z" = Normal pz /\
     snd (position m) = match pz with
                        | JUndefined => JNum 0%float
                        | _ => pz
                        end) /\
  getProp obj "color" = Normal (color_value (color (material m))) /\
  rotation m = (0%float, 0%float, 0%float) /\
  roughness (material m) = 0.5%float /\
  metalness (material m) = 0.1%float.

(** The same for a descriptor of the contract. *)
Definition carries (m : Mesh) (d : Schema.ObjectDescriptor) : Prop :=
  position m = (JNum (Schema.x (Schema.position d)),
                JNum (Schema.y (Schema.position d)),
                JNum (Schema.z (Schema.position d))) /\
  rotation m = (0%float, 0%float, 0%float) /\
  color (material m) = THREE_Color (JStr (Schema.color d)) /\
  roughness (material m) = 0.5%float /\
  metalness (material m) = 0.1%float.

(** ** States of the orchestrator, read off the page *)

(** A request would go out: a credential is set and there is a prompt or
    an image. *)
Definition ready (st : App) : Prop :=
  ai st <> None /\ (promptInput_value st <> EmptyString \/ uploadedImage st <> None).

(** The [catch] branch ran: the generic message shows and the button is
    released. *)
Definition Failed (st : App) : Prop :=
  errorMessage_display st = display_block /\
  errorMessage_textContent st = generation_failed_message /\
  generateBtn_disabled st = false.

(** ** Concrete pages and payloads *)

(** A stand-in for the engine's coercion in the concrete runs below; their
    payloads carry numbers in every numeric field, so it is never asked. *)
Definition engine_nan : JSValue -> float := fun _ => nan.

Definition vec (a b c : float) : Schema.Vec3 :=
  {| Schema.x := a; Schema.y := b; Schema.z := c |}.

Definition red_box : Schema.ObjectDescriptor :=
  {| Schema.shape := "box"; Schema.color := "#ff0000";
     Schema.position := vec 0 1 0; Schema.scale := vec 2 3 4 |}.

Definition pyramid : Schema.ObjectDescriptor :=
  {| Schema.shape := "pyramid"; Schema.color := "#00ff00";
     Schema.position := vec 1 0 1; Schema.scale := vec 1 1 1 |}.

Definition old_mesh : Mesh :=
  position_set (JNum 0%float) (JNum 1%float) (JNum 0%float)
    (THREE_Mesh (SphereGeometry 1 32 16)
       {| color := THREE_Color (JStr "#336699"); roughness := 0.5%float;
          metalness := 0.1%float |}).

(** The page after start-up with a saved key and a typed prompt. *)
Definition fresh_page : App :=
  {| ai := Some "key"; uploadedImage := None; children := [];
     background := THREE_Color default_background;
     promptInput_value := "a red box";
     generateBtn_disabled := false;
     spinner_display := display_none;
     buttonText_display := display_block;
     downloadToggleBtn_disabled := true;
     errorMessage_textContent := EmptyString;
     errorMessage_display := display_none;
     apiKeyModal_display := display_none;
     previewImage_src := "#";
     imagePreview_display := display_none;
     imageUploadBtn_display := display_block;
     requests := [] |}.

(** The page after an earlier generation left one mesh and enabled export. *)
Definition page_with_scene : App :=
  set_downloadToggleBtn_disabled false
    (set_background (THREE_Color (JStr "#202020")) (set_children [old_mesh] fresh_page)).

(** The same page with the prompt box emptied. *)
Definition page_without_input : App :=
  {| ai := Some "key"; uploadedImage := None; children := [old_mesh];
     background := THREE_Color (JStr "#202020");
     promptInput_value := EmptyString;
     generateBtn_disabled := false;
     spinner_display := display_none;
     buttonText_display := display_block;
     downloadToggleBtn_disabled := false;
     errorMessage_textContent := EmptyString;
     errorMessage_display := display_none;
     apiKeyModal_display := display_none;
     previewImage_src := "#";
     imagePreview_display := display_none;
     imageUploadBtn_display := display_block;
     requests := [] |}.

(** A payload without its [objects] field. *)
Definition payload_without_objects : JSValue :=
  JObj [("backgroundColor", JStr "#000000")].

(** A description whose only object has a shape outside the enum. *)
Definition only_pyramid : Schema.SceneDescription :=
  {| Schema.backgroundColor := "#101010"; Schema.objects := [pyramid] |}.

(** A description whose background is not a colour. *)
Definition banana_background : Schema.SceneDescription :=
  {| Schema.backgroundColor := "banana"; Schema.objects := [red_box] |}.

Definition box_and_pyramid : Schema.SceneDescription :=
  {| Schema.backgroundColor := "#101010"; Schema.objects := [red_box; pyramid] |}.

(** A description with the single object of the given shape and scale. *)
Definition single (shape : string) (c : string) (p : Schema.Vec3) (sx sy sz : float)
  : Schema.SceneDescription :=
  {| Schema.backgroundColor := "#101010";
     Schema.objects :=
       [{| Schema.shape := shape; Schema.color := c; Schema.position := p;
           Schema.scale := vec sx sy sz |}] |}.

(** An accepted payload that names no background. *)
Definition payload_without_background : JSValue :=
  JObj [("objects", JArr [encode_object red_box])].

(** Two picked files. *)
Definition png_file : File :=
  {| file_type := "image/png"; file_bytes := [x4d; x61; x6e; x01] |}.

Definition gif_file : File :=
  {| file_type := "image/gif"; file_bytes := [x47; x49; x46] |}.

(** * The rest of the page *)

(** ** Reading the payload *)

Definition nullish (v : JSValue) : bool :=
  match v with
  | JUndefined | JNull => true
  | _ => false
  end.

(** [v.k] where the read cannot throw; [undefined] stands in on a nullish
    [v], where the source never gets to use the value. *)
Definition prop (v : JSValue) (k : string) : JSValue :=
  match getProp v k with
  | Normal w => w
  | Throw _ => JUndefined
  end.

(** The [switch] has a [case] for the shape. *)
Definition has_case (shape : JSValue) : bool :=
  strict_equals_string shape "box" || strict_equals_string shape "sphere" ||
  strict_equals_string shape "cone" || strict_equals_string shape "cylinder" ||
  strict_equals_string shape "torus".

(** The components of the scale a shape computes with: all three for a
    box, a sphere and a cylinder, [x] and [y] for a cone and a torus. *)
Definition used_components (shape : JSValue) : list string :=
  if strict_equals_string shape "cone" || strict_equals_string shape "torus"
  then ["x"; "y"]
  else ["x"; "y"; "z"].

(** What makes the callback throw: a read on [undefined] or [null] (the
    object itself or, once the shape has a case, its scale or its
    position), or a component of the scale the shape computes with that
    ToPrimitive throws on. *)
Definition callback_throws (obj : JSValue) : bool :=
  nullish obj ||
  (has_case (prop obj "shape") &&
   (nullish (prop obj "scale") ||
    existsb (fun k => ToPrimitive_throws (prop (prop obj "scale") k))
      (used_components (prop obj "shape")) ||
    nullish (prop obj "position"))).

(** The payload with the given background and objects. *)
Definition scene_payload (bg : JSValue) (items : list JSValue) : JSValue :=
  JObj [("backgroundColor", bg); ("objects", JArr items)].

(** The replies the page accepts: a payload whose [objects] is an array
    none of whose elements makes the callback throw. *)
Definition accepts (reply : ServiceReply) : bool :=
  match reply with
  | ResponseJSON sceneData =>
      match getProp sceneData "objects" with
      | Normal (JArr items) => negb (existsb callback_throws items)
      | _ => false
      end
  | _ => false
  end.

(** ** The whole page

    [App] holds what the generation and the image upload touch. The other
    handlers also use the saved credential, two more inputs, the download
    menu, the alerts raised and the files handed to the browser. The work
    in progress completes the picture: the calls to the service that have
    not settled, the file reads that have not loaded, and the glTF texts
    the exporter has yet to hand over. *)

(** A file handed to the browser by [triggerDownload]: the name of the
    link, and the type and text of the blob. *)
Record Download : Type := {
  download : string;
  blob_type : string;
  blob_text : string }.

Record Page : Type := {
  app_state : App;
  localStorage_gemini_api_key : option string;
  apiKeyInput_value : string;
  imageUploadInput_value : string;
  downloadOptions_show : bool;
  alerts : list string;
  downloads : list Download;
  outstanding : nat;
  reading : list File;
  exporting : list string }.

Definition with_app (a : App) (p : Page) : Page :=
  {| app_state := a;
     localStorage_gemini_api_key := localStorage_gemini_api_key p;
     apiKeyInput_value := apiKeyInput_value p;
     imageUploadInput_value := imageUploadInput_value p;
     downloadOptions_show := downloadOptions_show p;
     alerts := alerts p; downloads := downloads p;
     outstanding := outstanding p; reading := reading p;
     exporting := exporting p |}.

Definition set_downloadOptions_show (b : bool) (p : Page) : Page :=
  {| app_state := app_state p;
     localStorage_gemini_api_key := localStorage_gemini_api_key p;
     apiKeyInput_value := apiKeyInput_value p;
     imageUploadInput_value := imageUploadInput_value p;
     downloadOptions_show := b;
     alerts := alerts p; downloads := downloads p;
     outstanding := outstanding p; reading := reading p;
     exporting := exporting p |}.

Definition set_apiKeyInput_value (s : string) (p : Page) : Page :=
  {| app_state := app_state p;
     localStorage_gemini_api_key := localStorage_gemini_api_key p;
     apiKeyInput_value := s;
     imageUploadInput_value := imageUploadInput_value p;
     downloadOptions_show := downloadOptions_show p;
     alerts := alerts p; downloads := downloads p;
     outstanding := outstanding p; reading := reading p;
     exporting := exporting p |}.

Definition set_imageUploadInput_value (s : string) (p : Page) : Page :=
  {| app_state := app_state p;
     localStorage_gemini_api_key := localStorage_gemini_api_key p;
     apiKeyInput_value := apiKeyInput_value p;
     imageUploadInput_value := s;
     downloadOptions_show := downloadOptions_show p;
     alerts := alerts p; downloads := downloads p;
     outstanding := outstanding p; reading := reading p;
     exporting := exporting p |}.

Definition set_outstanding (n : nat) (p : Page) : Page :=
  {| app_state := app_state p;
     localStorage_gemini_api_key := localStorage_gemini_api_key p;
     apiKeyInput_value := apiKeyInput_value p;
     imageUploadInput_value := imageUploadInput_value p;
     downloadOptions_show := downloadOptions_show p;
     alerts := alerts p; downloads := downloads p;
     outstanding := n; reading := reading p;
     exporting := exporting p |}.

Definition set_reading (fs : list File) (p : Page) : Page :=
  {| app_state := app_state p;
     localStorage_gemini_api_key := localStorage_gemini_api_key p;
     apiKeyInput_value := apiKeyInput_value p;
     imageUploadInput_value := imageUploadInput_value p;
     downloadOptions_show := downloadOptions_show p;
     alerts := alerts p; downloads := downloads p;
     outstanding := outstanding p; reading := fs;
     exporting := exporting p |}.

(** [alert(message)] *)
Definition alert (message : string) (p : Page) : Page :=
  {| app_state := app_state p;
     localStorage_gemini_api_key := localStorage_gemini_api_key p;
     apiKeyInput_value := apiKeyInput_value p;
     imageUploadInput_value := imageUploadInput_value p;
     downloadOptions_show := downloadOptions_show p;
     alerts := alerts p ++ [message]; downloads := downloads p;
     outstanding := outstanding p; reading := reading p;
     exporting := exporting p |}.

(** ** The credential *)

(** [ai = new GoogleGenAI({ apiKey: key })] and the hiding of the modal. *)
Definition set_ai (key : string) (st : App) : App :=
  {| ai := Some key; uploadedImage := uploadedImage st; children := children st;
     background := background st; promptInput_value := promptInput_value st;
     generateBtn_disabled := generateBtn_disabled st;
     spinner_display := spinner_display st;
     buttonText_display := buttonText_display st;
     downloadToggleBtn_disabled := downloadToggleBtn_disabled st;
     errorMessage_textContent := errorMessage_textContent st;
     errorMessage_display := errorMessage_display st;
     apiKeyModal_display := apiKeyModal_display st;
     previewImage_src := previewImage_src st;
     imagePreview_display := imagePreview_display st;
     imageUploadBtn_display := imageUploadBtn_display st;
     requests := requests st |}.

Definition initializeAi (key : string) (p : Page) : Page :=
  {| app_state := set_apiKeyModal_display display_none (set_ai key (app_state p));
     localStorage_gemini_api_key := Some key;
     apiKeyInput_value := apiKeyInput_value p;
     imageUploadInput_value := imageUploadInput_value p;
     downloadOptions_show := downloadOptions_show p;
     alerts := alerts p; downloads := downloads p;
     outstanding := outstanding p; reading := reading p;
     exporting := exporting p |}.

(** [if (savedKey)]: [null] and the empty string are falsy. *)
Definition checkApiKey (p : Page) : Page :=
  match localStorage_gemini_api_key p with
  | Some (String c rest) => initializeAi (String c rest) p
  | Some EmptyString | None =>
      with_app (set_apiKeyModal_display display_flex (app_state p)) p
  end.

Definition invalid_key_message : string := "Please enter a valid API key.".

(** [String.prototype.trim], the engine's. *)
Variable trim : string -> string.

Definition handleSaveApiKey (p : Page) : Page :=
  match trim (apiKeyInput_value p) with
  | EmptyString => alert invalid_key_message p
  | key => initializeAi key p
  end.

(** The listener of the settings button:
    [apiKeyInput.value = localStorage.getItem('gemini_api_key') || ''] and
    the showing of the modal. *)
Definition settings_click (p : Page) : Page :=
  let saved :=
    match localStorage_gemini_api_key p with
    | Some key => key
    | None => EmptyString
    end in
  with_app (set_apiKeyModal_display display_flex (app_state p))
    (set_apiKeyInput_value saved p).

(** ** Removing the image *)

Definition clear_uploaded (st : App) : App :=
  {| ai := ai st; uploadedImage := None; children := children st;
     background := background st; promptInput_value := promptInput_value st;
     generateBtn_disabled := generateBtn_disabled st;
     spinner_display := spinner_display st;
     buttonText_display := buttonText_display st;
     downloadToggleBtn_disabled := downloadToggleBtn_disabled st;
     errorMessage_textContent := errorMessage_textContent st;
     errorMessage_display := errorMessage_display st;
     apiKeyModal_display := apiKeyModal_display st;
     previewImage_src := "#";
     imagePreview_display := display_none;
     imageUploadBtn_display := display_block;
     requests := requests st |}.

Definition handleRemoveImage (p : Page) : Page :=
  with_app (clear_uploaded (app_state p)) (set_imageUploadInput_value EmptyString p).

(** ** The download menu and the exporters *)

(** [downloadOptions.classList.toggle('show')], unless export is disabled. *)
Definition toggleDownloadOptions (p : Page) : Page :=
  if negb (downloadToggleBtn_disabled (app_state p))
  then set_downloadOptions_show (negb (downloadOptions_show p)) p
  else p.

(** The click listener of the window; [inside] says whether the target is
    the toggle button or within it. *)
Definition window_click_listener (inside : bool) (p : Page) : Page :=
  if negb inside then set_downloadOptions_show false p else p.

Definition triggerDownload (type content filename : string) (p : Page) : Page :=
  {| app_state := app_state p;
     localStorage_gemini_api_key := localStorage_gemini_api_key p;
     apiKeyInput_value := apiKeyInput_value p;
     imageUploadInput_value := imageUploadInput_value p;
     downloadOptions_show := false;
     alerts := alerts p;
     downloads := downloads p ++
       [{| download := filename; blob_type := type; blob_text := content |}];
     outstanding := outstanding p; reading := reading p;
     exporting := exporting p |}.

(** The three exporters of three.js, each taking the group's meshes to the
    text of a file or throwing; for glTF the text is what
    [JSON.stringify(gltf, null, 2)] gives of the exporter's result. *)
Variable GLTFExporter_parse : list Mesh -> Completion string.
Variable OBJExporter_parse : list Mesh -> Completion string.
Variable STLExporter_parse : list Mesh -> Completion string.

Definition gltf_failed_message : string := "Failed to export the scene as GLTF.".
Definition obj_failed_message : string := "Failed to export the scene as OBJ.".
Definition stl_failed_message : string := "Failed to export the scene as STL.".

Definition set_exporting (texts : list string) (p : Page) : Page :=
  {| app_state := app_state p;
     localStorage_gemini_api_key := localStorage_gemini_api_key p;
     apiKeyInput_value := apiKeyInput_value p;
     imageUploadInput_value := imageUploadInput_value p;
     downloadOptions_show := downloadOptions_show p;
     alerts := alerts p; downloads := downloads p;
     outstanding := outstanding p; reading := reading p;
     exporting := texts |}.

(** [handleDownloadGLTF] up to the return of [exporter.parse]: the
    exporter walks the group at once and calls [onError] on a failure; on
    success it calls [onDone] only later, after it has encoded the buffers,
    so the text waits in [exporting]. *)
Definition handleDownloadGLTF (p : Page) : Page :=
  match GLTFExporter_parse (children (app_state p)) with
  | Normal output => set_exporting (exporting p ++ [output]) p
  | Throw _ => with_app (showError gltf_failed_message (app_state p)) p
  end.

(** The [onDone] callback of [handleDownloadGLTF]. *)
Definition gltf_onDone (output : string) (p : Page) : Page :=
  triggerDownload "application/gltf-buffer" output "CanvasAI-Scene.gltf" p.

Definition handleDownloadOBJ (p : Page) : Page :=
  match OBJExporter_parse (children (app_state p)) with
  | Normal result => triggerDownload "text/plain" result "CanvasAI-Scene.obj" p
  | Throw _ => with_app (showError obj_failed_message (app_state p)) p
  end.

Definition handleDownloadSTL (p : Page) : Page :=
  match STLExporter_parse (children (app_state p)) with
  | Normal result =>
      triggerDownload "application/vnd.ms-pki.stl" result "CanvasAI-Scene.stl" p
  | Throw _ => with_app (showError stl_failed_message (app_state p)) p
  end.

(** ** Start-up *)

(** [initScene], as far as the page state goes: a scene with the dark
    background [0x111111] and an empty group. The camera, the lights, the
    controls and the renderer it also sets up are read by the render loop
    only. *)
Definition initScene (st : App) : App :=
  set_children [] (set_background (THREE_Color (JNum 1118481%float)) st).

(** [main]: [initEventListeners] registers the listeners [step] below
    dispatches to, and [animate] only draws. *)
Definition main (p : Page) : Page :=
  checkApiKey (with_app (initScene (app_state p)) p).

(** ** Events *)

Definition set_promptInput_value (s : string) (st : App) : App :=
  {| ai := ai st; uploadedImage := uploadedImage st; children := children st;
     background := background st; promptInput_value := s;
     generateBtn_disabled := generateBtn_disabled st;
     spinner_display := spinner_display st;
     buttonText_display := buttonText_display st;
     downloadToggleBtn_disabled := downloadToggleBtn_disabled st;
     errorMessage_textContent := errorMessage_textContent st;
     errorMessage_display := errorMessage_display st;
     apiKeyModal_display := apiKeyModal_display st;
     previewImage_src := previewImage_src st;
     imagePreview_display := imagePreview_display st;
     imageUploadBtn_display := imageUploadBtn_display st;
     requests := requests st |}.

(** What can happen to the page: the user types or picks a file, a
    registered listener runs, the awaited call settles, a file read loads,
    the glTF exporter hands over a text.
    Every click also reaches the window's listener, which is an event of
    its own here: a click on a button is that button's event followed by
    [window_click]. *)
Inductive Event : Type :=
| prompt_input (value : string)
| apiKey_input (value : string)
| generate_click
| service_settles (reply : ServiceReply)
| image_change (value : string) (file : option File)
| reader_load (k : nat)
| remove_image_click
| save_key_click
| settings_button_click
| download_toggle_click
| window_click (inside : bool)
| download_gltf_click
| download_obj_click
| download_stl_click
| gltf_done (k : nat).

Fixpoint remove_nth {A} (k : nat) (l : list A) : list A :=
  match l, k with
  | [], _ => []
  | _ :: rest, 0 => rest
  | a :: rest, S k' => a :: remove_nth k' rest
  end.

(** One event. A disabled button receives no click, so [generate_click]
    does nothing while the button is disabled; the call settles, a read
    loads and a glTF text is handed over only if one is under way. *)
Definition step (e : Event) (p : Page) : Page :=
  match e with
  | prompt_input value => with_app (set_promptInput_value value (app_state p)) p
  | apiKey_input value => set_apiKeyInput_value value p
  | generate_click =>
      if generateBtn_disabled (app_state p) then p
      else
        match handleGenerateClick_request (app_state p) with
        | (st', Some _) => set_outstanding (S (outstanding p)) (with_app st' p)
        | (st', None) => with_app st' p
        end
  | service_settles reply =>
      match outstanding p with
      | 0 => p
      | S n =>
          set_outstanding n
            (with_app (handleGenerateClick_resume reply (app_state p)) p)
      end
  | image_change value file =>
      let p1 := set_imageUploadInput_value value p in
      match handleImageUpload file (app_state p1) with
      | (st', Some f) => set_reading (reading p1 ++ [f]) (with_app st' p1)
      | (st', None) => with_app st' p1
      end
  | reader_load k =>
      match nth_error (reading p) k with
      | Some f =>
          set_reading (remove_nth k (reading p))
            (with_app (reader_onload f (app_state p)) p)
      | None => p
      end
  | remove_image_click => handleRemoveImage p
  | save_key_click => handleSaveApiKey p
  | settings_button_click => settings_click p
  | download_toggle_click => toggleDownloadOptions p
  | window_click inside => window_click_listener inside p
  | download_gltf_click => handleDownloadGLTF p
  | download_obj_click => handleDownloadOBJ p
  | download_stl_click => handleDownloadSTL p
  | gltf_done k =>
      match nth_error (exporting p) k with
      | Some output => gltf_onDone output (set_exporting (remove_nth k (exporting p)) p)
      | None => p
      end
  end.

Fixpoint run (events : list Event) (p : Page) : Page :=
  match events with
  | [] => p
  | e :: rest => run rest (step e p)
  end.

(** ** What stays true of the page *)

(** One call is outstanding exactly while the Generate button is
    disabled. *)
Definition in_flight_ok (p : Page) : Prop :=
  outstanding p = if generateBtn_disabled (app_state p) then 1 else 0.

(** What the [onload] callback stores for a picked file. *)
Definition image_of (f : File) : InlineData :=
  {| mimeType := file_type f; data := Some (base64 (file_bytes f)) |}.

(** The files picked in the course of the events. *)
Fixpoint picked (events : list Event) : list File :=
  match events with
  | [] => []
  | image_change _ (Some f) :: rest => f :: picked rest
  | _ :: rest => picked rest
  end.

(** The image is that of one of the files, of an accepted type. *)
Definition from_files (files : list File) (img : InlineData) : Prop :=
  exists f, In f files /\ In (file_type f) accepted_types /\ img = image_of f.

(** A request is a non-empty prompt alone, or the image of one of the
    files followed by the prompt. *)
Definition request_ok (files : list File) (contents : list Part) : Prop :=
  (exists s, s <> EmptyString /\ contents = [text s]) \/
  (exists img s, from_files files img /\ contents = [inlineData img; text s]).

(** The stored image and the reads under way come from the files. *)
Definition images_ok (files : list File) (p : Page) : Prop :=
  (forall img, uploadedImage (app_state p) = Some img -> from_files files img) /\
  Forall (fun f => In f files /\ In (file_type f) accepted_types) (reading p).

(** The credential in use is the one saved, and is not empty. *)
Definition credential_ok (p : Page) : Prop :=
  forall key, ai (app_state p) = Some key ->
    localStorage_gemini_api_key p = Some key /\ key <> EmptyString.

(** The one event that writes the scene. *)
Definition settles (e : Event) : bool :=
  match e with
  | service_settles _ => true
  | _ => false
  end.

(** The file a click on a download link leads to, the group holding [ms]
    at the click; [None] when the exporter throws or the event is no such
    click. *)
Definition export_of (e : Event) (ms : list Mesh) : option Download :=
  match e with
  | download_gltf_click =>
      match GLTFExporter_parse ms with
      | Normal output =>
          Some {| download := "CanvasAI-Scene.gltf";
                  blob_type := "application/gltf-buffer"; blob_text := output |}
      | Throw _ => None
      end
  | download_obj_click =>
      match OBJExporter_parse ms with
      | Normal result =>
          Some {| download := "CanvasAI-Scene.obj";
                  blob_type := "text/plain"; blob_text := result |}
      | Throw _ => None
      end
  | download_stl_click =>
      match STLExporter_parse ms with
      | Normal result =>
          Some {| download := "CanvasAI-Scene.stl";
                  blob_type := "application/vnd.ms-pki.stl"; blob_text := result |}
      | Throw _ => None
      end
  | _ => None
  end.

(** [d] is the file of a click made in the course of [events] from [p], on
    the meshes the group held at that click. *)
Definition exported_during (p : Page) (events : list Event) (d : Download) : Prop :=
  exists before e after,
    events = before ++ e :: after /\
    export_of e (children (app_state (run before p))) = Some d.

(** The page a call settles on: after the click and the events that came
    while the call was outstanding. *)
Definition awaiting (between : list Event) (p : Page) : Page :=
  run (generate_click :: between) p.

(** A generation: the click, the events that happen while the call is
    outstanding, and the call settling with [reply]. *)
Definition generation (between : list Event) (reply : ServiceReply) (p : Page) : Page :=
  run (generate_click :: between ++ [service_settles reply]) p.

(** No image is stored or shown, and no read is under way. *)
Definition no_image (p : Page) : Prop :=
  uploadedImage (app_state p) = None /\
  previewImage_src (app_state p) = "#" /\
  imagePreview_display (app_state p) = display_none /\
  imageUploadBtn_display (app_state p) = display_block /\
  imageUploadInput_value p = EmptyString /\
  reading p = [].

(** ** The response schema *)

(** The part of the schema language [schema] uses: strings, with or
    without an enumeration, numbers, arrays, and objects with their
    properties and required keys. *)
Inductive SchemaType : Type :=
| Type_STRING (enum : option (list string))
| Type_NUMBER
| Type_ARRAY (items : SchemaType)
| Type_OBJECT (properties : list (string * SchemaType)) (required : list string).

Definition vector_schema : SchemaType :=
  Type_OBJECT [("x", Type_NUMBER); ("y", Type_NUMBER); ("z", Type_NUMBER)]
    ["x"; "y"; "z"].

(** The [items] of [schema.properties.objects]. *)
Definition object_schema : SchemaType :=
  Type_OBJECT
    [("shape", Type_STRING (Some ["box"; "sphere"; "cone"; "cylinder"; "torus"]));
     ("color", Type_STRING None);
     ("position", vector_schema);
     ("scale", vector_schema)]
    ["shape"; "color"; "position"; "scale"].

(** [schema], without its descriptions. *)
Definition schema : SchemaType :=
  Type_OBJECT
    [("backgroundColor", Type_STRING None);
     ("objects", Type_ARRAY object_schema)]
    ["backgroundColor"; "objects"].

Definition is_undefined (v : JSValue) : bool :=
  match v with
  | JUndefined => true
  | _ => false
  end.

(** A value matches a schema: it has the type, a string is in the
    enumeration if there is one, every item of an array matches, every
    required key of an object is present and every listed property that is
    present matches. *)
Fixpoint conforms (t : SchemaType) (v : JSValue) {struct t} : bool :=
  match t, v with
  | Type_STRING None, JStr _ => true
  | Type_STRING (Some enum), JStr s => includes enum s
  | Type_NUMBER, JNum _ => true
  | Type_ARRAY items, JArr l => forallb (conforms items) l
  | Type_OBJECT properties required, JObj fields =>
      forallb (fun k => negb (is_undefined (own_property k fields))) required &&
      forallb (fun kt =>
                 match own_property (fst kt) fields with
                 | JUndefined => true
                 | w => conforms (snd kt) w
                 end) properties
  | _, _ => false
  end.

(** The replies that enable export: an accepted payload that lists at
    least one object. *)
Definition enables_export (reply : ServiceReply) : bool :=
  match reply with
  | ResponseJSON sceneData =>
      match getProp sceneData "objects" with
      | Normal (JArr (obj :: rest)) => negb (existsb callback_throws (obj :: rest))
      | _ => false
      end
  | _ => false
  end.

(** Export is disabled and the download menu is closed. *)
Definition export_closed (p : Page) : Prop :=
  downloadToggleBtn_disabled (app_state p) = true /\
  downloadOptions_show p = false.

(** ** Stand-ins and pages for the concrete runs *)

Definition is_space (c : ascii) : bool :=
  match N_of_ascii c with
  | 9%N | 10%N | 11%N | 12%N | 13%N | 32%N => true
  | _ => false
  end.

Fixpoint trim_start (s : string) : string :=
  match s with
  | EmptyString => EmptyString
  | String c rest => if is_space c then trim_start rest else s
  end.

Fixpoint trim_end (s : string) : string :=
  match s with
  | EmptyString => EmptyString
  | String c rest =>
      match trim_end rest with
      | EmptyString => if is_space c then EmptyString else String c EmptyString
      | kept => String c kept
      end
  end.

(** [trim] on ASCII text, for the concrete runs. *)
Definition trim_ascii (s : string) : string := trim_end (trim_start s).

(** A stand-in for an exporter in the concrete runs: it writes one line
    per mesh and throws on an empty group. *)
Definition exporter_lines (line : string) (ms : list Mesh) : Completion string :=
  match ms with
  | [] => Throw TypeError
  | _ => Normal (String.concat "" (map (fun _ => line) ms))
  end.

(** The page as it loads: nothing saved, nothing typed, export disabled. *)
Definition loaded_page : Page :=
  {| app_state :=
       {| ai := None; uploadedImage := None; children := [];
          background := THREE_Color JUndefined;
          promptInput_value := EmptyString;
          generateBtn_disabled := false;
          spinner_display := display_none;
          buttonText_display := display_block;
          downloadToggleBtn_disabled := true;
          errorMessage_textContent := EmptyString;
          errorMessage_display := display_none;
          apiKeyModal_display := display_none;
          previewImage_src := "#";
          imagePreview_display := display_none;
          imageUploadBtn_display := display_block;
          requests := [] |};
     localStorage_gemini_api_key := None;
     apiKeyInput_value := EmptyString;
     imageUploadInput_value := EmptyString;
     downloadOptions_show := false;
     alerts := []; downloads := [];
     outstanding := 0; reading := []; exporting := [] |}.

(** [fresh_page] and [page_with_scene] as whole pages, the key saved and
    nothing under way. *)
Definition page_around (st : App) : Page :=
  {| app_state := st;
     localStorage_gemini_api_key := Some "key";
     apiKeyInput_value := EmptyString;
     imageUploadInput_value := EmptyString;
     downloadOptions_show := false;
     alerts := []; downloads := [];
     outstanding := 0; reading := []; exporting := [] |}.

(** While the call is outstanding, a file of a type that is not accepted
    is picked. *)
Definition rejected_upload : list Event :=
  [image_change "C:\fakepath\anim.gif" (Some gif_file); window_click false].

Definition two_boxes : Schema.SceneDescription :=
  {| Schema.backgroundColor := "#101010"; Schema.objects := [red_box; red_box] |}.

(** A glTF export is asked for, and before the exporter hands its text
    over a generation replaces the scene. *)
Definition late_gltf : list Event :=
  [download_gltf_click; generate_click;
   service_settles (ResponseJSON (encode two_boxes)); gltf_done 0].

(** A visit: the key is typed and saved, a picture is picked and read, a
    prompt is typed, Generate is clicked twice, the call settles with a
    red box, and the scene is exported twice. *)
Definition a_visit : list Event :=
  [apiKey_input "  key-123  "; save_key_click; window_click false;
   image_change "C:\fakepath\cat.png" (Some png_file); reader_load 0;
   prompt_input "a red box";
   generate_click; window_click false; generate_click;
   download_toggle_click;
   service_settles (ResponseJSON (encode box_and_pyramid));
   download_toggle_click; window_click true;
   download_obj_click; window_click false;
   download_stl_click].

(** Typing, uploading and asking for exports, with no call settling. *)
Definition no_settling : list Event :=
  [apiKey_input "key"; save_key_click; prompt_input "a tree";
   image_change "C:\fakepath\cat.png" (Some png_file); reader_load 0;
   generate_click; remove_image_click; download_obj_click;
   download_toggle_click; window_click false].

(** A box whose scale has, as its [y], an object that owns a [toString]
    key: the engine cannot convert it to a number. *)
Definition box_with_toString_scale : JSValue :=
  JObj [("shape", JStr "box"); ("color", JStr "#ffffff");
        ("position", encode_vec (vec 0 0 0));
        ("scale", JObj [("x", JNum 1%float);
                        ("y", JObj [("toString", JNum 1%float)]);
                        ("z", JNum 1%float)])].

(** A box whose position has no [z]. *)
Definition box_without_z : JSValue :=
  JObj [("shape", JStr "box"); ("color", JStr "#ffffff");
        ("position", JObj [("x", JNum 1%float); ("y", JNum 2%float)]);
        ("scale", encode_vec (vec 1 1 1))].

(** A list whose third object has a recognised shape and no position. *)
Definition box_without_position : JSValue :=
  JObj [("shape", JStr "box"); ("color", JStr "#ffffff");
        ("scale", encode_vec (vec 1 1 1))].

(** * Properties *)

(** ** Small runs of the helpers *)

Example Math_max_examples :
  Math_max [2%float; 4%float; 6%float] = 6%float /\
  Math_max [(-0)%float; 0%float] = 0%float /\
  Math_max [0%float; (-0)%float] = 0%float /\
  Math_max [1%float; nan; 3%float] = nan /\
  Math_max [] = neg_infinity.
Proof. repeat split; reflexivity. Qed.

Example own_property_examples :
  own_property "a" [("a", JNull); ("b", JBool true); ("a", JStr "last")] = JStr "last" /\
  own_property "c" [("a", JNull); ("b", JBool true)] = JUndefined /\
  getProp JNull "objects" = Throw TypeError /\
  getProp (JStr "text") "objects" = Normal JUndefined.
Proof. repeat split; reflexivity. Qed.

Example truthy_examples :
  truthy (JStr EmptyString) = false /\ truthy (JNum (-0)%float) = false /\
  truthy (JNum nan) = false /\ truthy (JStr "banana") = true /\
  truthy (JArr []) = true.
Proof. repeat split; reflexivity. Qed.

Example base64_examples :
  base64 [] = EmptyString /\
  base64 [x66] = "Zg==" /\
  base64 [x66; x6f] = "Zm8=" /\
  base64 [x66; x6f; x6f] = "Zm9v" /\
  base64 [x66; x6f; x6f; x62; x61; x72] = "Zm9vYmFy" /\
  base64 [xfb; xff] = "+/8=".
Proof. repeat split; reflexivity. Qed.

Example split_examples :
  split ","%char "a,b,,c" = ["a"; "b"; EmptyString; "c"] /\
  split ","%char EmptyString = [EmptyString] /\
  split ","%char "data:image/png;base64,TWFu" = ["data:image/png;base64"; "TWFu"].
Proof. repeat split; reflexivity. Qed.

(** ** The pieces of [buildSceneFromData] *)

Lemma remove_all_children_nil (cs : list Mesh) : remove_all_children cs = [].
Proof. induction cs as [|m cs IH]; simpl; auto. Qed.

Lemma set_children_same (st : App) : set_children (children st) st = st.
Proof. destruct st; reflexivity. Qed.

(** The callback adds the mesh [object_mesh] computes, or nothing. *)
Lemma addObject_eq (obj : JSValue) (st : App) :
  addObject obj st =
  match object_mesh obj with
  | Throw e => (Throw e, st)
  | Normal None => (Normal tt, st)
  | Normal (Some m) => (Normal tt, add_child m st)
  end.
Proof.
  unfold addObject, object_mesh, bind, lift, ret, modify.
  destruct (getProp obj "scale") as [s|e]; simpl; [|reflexivity].
  destruct (getProp obj "shape") as [shape|e]; simpl; [|reflexivity].
  destruct (switch_shape shape s) as [[g|]|e]; simpl; try reflexivity.
  destruct (getProp obj "color") as [c|e]; simpl; [|reflexivity].
  destruct (getPath obj "position" "x") as [px|e]; simpl; [|reflexivity].
  destruct (getPath obj "position" "y") as [py|e]; simpl; [|reflexivity].
  destruct (getPath obj "position" "z") as [pz|e]; simpl; reflexivity.
Qed.

(** A [forEach] appends the meshes of its items, in order, and touches
    nothing else; a throw keeps the meshes added before it. *)
Lemma forEach_addObject_eq (items : list JSValue) (st : App) :
  forEach items addObject st =
  (fst (objects_meshes items),
   set_children (children st ++ snd (objects_meshes items)) st).
Proof.
  revert st; induction items as [|obj rest IH]; intro st; simpl.
  - unfold ret. now rewrite app_nil_r, set_children_same.
  - unfold bind. rewrite addObject_eq.
    destruct (object_mesh obj) as [[m|]|e]; simpl.
    + rewrite IH. destruct (objects_meshes rest) as [c ms]; simpl.
      unfold add_child. simpl. now rewrite <- app_assoc.
    + apply IH.
    + now rewrite app_nil_r, set_children_same.
Qed.


Lemma buildSceneFromData_eq (sceneData : JSValue) (st : App) :
  buildSceneFromData sceneData st =
  match getProp sceneData "backgroundColor", getProp sceneData "objects" with
  | Normal bg, Normal (JArr items) =>
      match objects_meshes items with
      | (Throw e, ms) => (Throw e, replaced bg ms st)
      | (Normal _, ms) =>
          (Normal tt,
           if Nat.ltb 0 (List.length items)
           then set_downloadToggleBtn_disabled false (replaced bg ms st)
           else replaced bg ms st)
      end
  | Normal bg, Normal _ => (Throw TypeError, replaced bg [] st)
  | Normal bg, Throw e => (Throw e, replaced bg [] st)
  | Throw e, _ => (Throw e, set_children [] st)
  end.
Proof.
  unfold buildSceneFromData, bind, lift, modify, ret.
  rewrite remove_all_children_nil.
  destruct (getProp sceneData "backgroundColor") as [bg|e]; [|reflexivity].
  destruct (getProp sceneData "objects") as [objs|e]; [|reflexivity].
  destruct objs as [| |b|n|s|items|fields]; try reflexivity.
  unfold call_forEach. rewrite forEach_addObject_eq. simpl.
  destruct (objects_meshes items) as [[[]|e] ms]; simpl; [|reflexivity].
  destruct items; reflexivity.
Qed.

(** ** Descriptions of the contract *)

Lemma recognized_spec_geometry (d : Schema.ObjectDescriptor) :
  recognized d = match spec_geometry d with Some _ => true | None => false end.
Proof.
  unfold recognized, spec_geometry, includes, shape_names; simpl.
  destruct (String.eqb (Schema.shape d) "box"); [reflexivity|].
  destruct (String.eqb (Schema.shape d) "sphere"); [reflexivity|].
  destruct (String.eqb (Schema.shape d) "cone"); [reflexivity|].
  destruct (String.eqb (Schema.shape d) "cylinder"); [reflexivity|].
  destruct (String.eqb (Schema.shape d) "torus"); reflexivity.
Qed.

Lemma recognized_spec_mesh (d : Schema.ObjectDescriptor) :
  recognized d = match spec_mesh d with Some _ => true | None => false end.
Proof.
  rewrite recognized_spec_geometry. unfold spec_mesh.
  destruct (spec_geometry d); reflexivity.
Qed.

(** On a descriptor of the contract the switch computes the geometry the
    specification words. *)
Lemma switch_shape_encode (d : Schema.ObjectDescriptor) :
  switch_shape (JStr (Schema.shape d)) (encode_vec (Schema.scale d)) =
  Normal (spec_geometry d).
Proof.
  unfold switch_shape, spec_geometry, strict_equals_string.
  destruct (String.eqb (Schema.shape d) "box"); [reflexivity|].
  destruct (String.eqb (Schema.shape d) "sphere"); [reflexivity|].
  destruct (String.eqb (Schema.shape d) "cone"); [reflexivity|].
  destruct (String.eqb (Schema.shape d) "cylinder"); [reflexivity|].
  destruct (String.eqb (Schema.shape d) "torus"); reflexivity.
Qed.

Lemma object_mesh_encode (d : Schema.ObjectDescriptor) :
  object_mesh (encode_object d) = Normal (spec_mesh d).
Proof.
  unfold object_mesh.
  change (getProp (encode_object d) "scale") with (Normal (encode_vec (Schema.scale d))).
  change (getProp (encode_object d) "shape") with (Normal (JStr (Schema.shape d))).
  cbn [bindC]. rewrite switch_shape_encode. cbn [bindC].
  unfold spec_mesh. destruct (spec_geometry d) as [g|]; reflexivity.
Qed.

Lemma objects_meshes_encode (ds : list Schema.ObjectDescriptor) :
  objects_meshes (map encode_object ds) = (Normal tt, spec_meshes ds).
Proof.
  induction ds as [|d ds IH]; [reflexivity|].
  cbn [map objects_meshes spec_meshes]. rewrite object_mesh_encode, IH.
  destruct (spec_mesh d); reflexivity.
Qed.

Lemma spec_meshes_length (ds : list Schema.ObjectDescriptor) :
  List.length (spec_meshes ds) = List.length (filter recognized ds).
Proof.
  induction ds as [|d ds IH]; [reflexivity|].
  cbn [spec_meshes filter]. rewrite recognized_spec_mesh.
  destruct (spec_mesh d); simpl; congruence.
Qed.

(** Replacing with a description of the contract never throws. *)
Lemma buildSceneFromData_encode (d : Schema.SceneDescription) (st : App) :
  buildSceneFromData (encode d) st =
  (Normal tt,
   let st' := replaced (JStr (Schema.backgroundColor d))
                (spec_meshes (Schema.objects d)) st in
   match Schema.objects d with
   | [] => st'
   | _ :: _ => set_downloadToggleBtn_disabled false st'
   end).
Proof.
  rewrite buildSceneFromData_eq.
  change (getProp (encode d) "backgroundColor")
    with (Normal (JStr (Schema.backgroundColor d))).
  change (getProp (encode d) "objects")
    with (Normal (JArr (map encode_object (Schema.objects d)))).
  cbn iota beta. rewrite objects_meshes_encode, length_map.
  destruct (Schema.objects d); reflexivity.
Qed.

(** ** Mesh count *)

(** C2. For a description of the contract with N descriptors of a shape in
    box, sphere, cone, cylinder, torus and K descriptors of any other shape,
    [buildSceneFromData] returns normally and leaves exactly N meshes in the
    generated content group, whatever the group held before. *)
Theorem buildSceneFromData_mesh_count (d : Schema.SceneDescription) (st : App) :
  let result := buildSceneFromData (encode d) st in
  let N := List.length (filter recognized (Schema.objects d)) in
  let K := List.length (filter (fun o => negb (recognized o)) (Schema.objects d)) in
  fst result = Normal tt /\
  List.length (children (snd result)) = N /\
  N + K = List.length (Schema.objects d).
Proof.
  cbv zeta. rewrite buildSceneFromData_encode. cbn [fst snd].
  split; [reflexivity|]. split.
  - rewrite <- spec_meshes_length. destruct (Schema.objects d); reflexivity.
  - induction (Schema.objects d) as [|o os IH]; [reflexivity|].
    cbn [filter]. destruct (recognized o); cbn [negb List.length]; lia.
Qed.

(** ** Shape mapping *)

Lemma single_geometry (shape c : string) (p : Schema.Vec3) (sx sy sz : float) (st : App) :
  map geometry (children (snd (buildSceneFromData (encode (single shape c p sx sy sz)) st))) =
  match spec_geometry
          {| Schema.shape := shape; Schema.color := c; Schema.position := p;
             Schema.scale := vec sx sy sz |} with
  | Some g => [g]
  | None => []
  end.
Proof.
  rewrite buildSceneFromData_encode. cbn [snd single Schema.objects].
  cbn [children set_downloadToggleBtn_disabled replaced set_children spec_meshes].
  unfold spec_mesh. destruct (spec_geometry _); reflexivity.
Qed.

(** C3. The geometry built for a descriptor with scale (x, y, z): a box of
    dimensions x, y, z; a sphere of radius max(x, y, z) / 2; a cone of base
    radius x / 2 and height y; a cylinder of top radius x / 2, bottom radius
    z / 2 and height y; a torus of radius x / 2 and tube radius y / 4; z
    plays no part in a cone or a torus. A box of scale (2, 3, 4) is 2 by 3
    by 4, a sphere of scale (2, 4, 6) has radius 3, a cylinder of scale
    (2, 5, 8) has radii 1 and 4 and height 5. *)
Theorem shape_mapping (c : string) (p : Schema.Vec3) (sx sy sz : float) (st : App) :
  let built shape a b c' :=
    map geometry
      (children (snd (buildSceneFromData (encode (single shape c p a b c')) st))) in
  built "box" sx sy sz = [BoxGeometry (JNum sx) (JNum sy) (JNum sz)] /\
  built "sphere" sx sy sz = [SphereGeometry (Math_max [sx; sy; sz] / 2)%float 32 16] /\
  built "cone" sx sy sz = [ConeGeometry (sx / 2)%float (JNum sy) 32] /\
  built "cylinder" sx sy sz =
    [CylinderGeometry (sx / 2)%float (sz / 2)%float (JNum sy) 32] /\
  built "torus" sx sy sz = [TorusGeometry (sx / 2)%float (sy / 4)%float 16 100] /\
  (forall sz', built "cone" sx sy sz' = built "cone" sx sy sz) /\
  (forall sz', built "torus" sx sy sz' = built "torus" sx sy sz) /\
  built "box" 2%float 3%float 4%float =
    [BoxGeometry (JNum 2%float) (JNum 3%float) (JNum 4%float)] /\
  built "sphere" 2%float 4%float 6%float = [SphereGeometry 3%float 32 16] /\
  built "cylinder" 2%float 5%float 8%float =
    [CylinderGeometry 1%float 4%float (JNum 5%float) 32].
Proof.
  cbv beta zeta. rewrite !single_geometry.
  repeat split; intros; rewrite ?single_geometry; reflexivity.
Qed.

(** ** Idempotence *)

Lemma buildSceneFromData_idempotent (sceneData : JSValue) (st : App) :
  buildSceneFromData sceneData (snd (buildSceneFromData sceneData st)) =
  buildSceneFromData sceneData st.
Proof.
  rewrite !buildSceneFromData_eq.
  destruct (getProp sceneData "backgroundColor") as [bg|e]; [|reflexivity].
  destruct (getProp sceneData "objects") as [objs|e]; [|reflexivity].
  destruct objs as [| |b|n|s|items|fields]; try reflexivity.
  destruct (objects_meshes items) as [[[]|e] ms]; [|reflexivity].
  destruct (Nat.ltb 0 (List.length items)); reflexivity.
Qed.

(** C6. Scene replacement is idempotent: applying [buildSceneFromData]
    twice with the same description leaves the page that applying it once
    leaves, so the same meshes in the same order (count, colours,
    positions) and the same background. *)
Theorem replacement_idempotent (d : Schema.SceneDescription) (st : App) :
  let once := snd (buildSceneFromData (encode d) st) in
  let twice := snd (buildSceneFromData (encode d) once) in
  twice = once /\
  List.length (children twice) = List.length (children once) /\
  map (fun m => color (material m)) (children twice) =
    map (fun m => color (material m)) (children once) /\
  map position (children twice) = map position (children once) /\
  background twice = background once.
Proof.
  cbv zeta. rewrite buildSceneFromData_idempotent. repeat split; reflexivity.
Qed.

(** ** Transform and material of every mesh *)

Lemma object_mesh_built_from (obj : JSValue) (m : Mesh) :
  object_mesh obj = Normal (Some m) -> built_from obj m.
Proof.
  unfold object_mesh.
  destruct (getProp obj "scale") as [s|e]; cbn [bindC]; [|discriminate].
  destruct (getProp obj "shape") as [shape|e]; cbn [bindC]; [|discriminate].
  destruct (switch_shape shape s) as [[g|]|e]; cbn [bindC]; try discriminate.
  destruct (getProp obj "color") as [c|e] eqn:Hc; cbn [bindC]; [|discriminate].
  destruct (getPath obj "position" "x") as [px|e] eqn:Hx; cbn [bindC]; [|discriminate].
  destruct (getPath obj "position" "y") as [py|e] eqn:Hy; cbn [bindC]; [|discriminate].
  destruct (getPath obj "position" "z") as [pz|e] eqn:Hz; cbn [bindC]; [|discriminate].
  intro H. injection H as <-. unfold built_from.
  cbn [position_set THREE_Mesh position material color rotation roughness
       metalness fst snd color_value].
  split; [exact Hx|]. split; [exact Hy|].
  split; [exists pz; split; [exact Hz|destruct pz; reflexivity]|].
  split; [exact Hc|]. repeat split.
Qed.

Lemma objects_meshes_built_from (items : list JSValue) :
  Forall (fun m => exists obj, In obj items /\ built_from obj m)
    (snd (objects_meshes items)).
Proof.
  induction items as [|obj rest IH]; [constructor|].
  cbn [objects_meshes].
  assert (Hrest : Forall (fun m => exists o, In o (obj :: rest) /\ built_from o m)
                    (snd (objects_meshes rest))).
  { eapply Forall_impl; [|exact IH].
    intros m (o & Hin & Hb). exists o. split; [now right|exact Hb]. }
  destruct (object_mesh obj) as [[m|]|e] eqn:Hobj.
  - destruct (objects_meshes rest) as [c ms]. cbn [snd] in *.
    constructor; [|exact Hrest].
    exists obj. split; [now left|]. now apply object_mesh_built_from.
  - exact Hrest.
  - constructor.
Qed.

Lemma spec_meshes_carry (ds : list Schema.ObjectDescriptor) :
  Forall2 carries (spec_meshes ds) (filter recognized ds).
Proof.
  induction ds as [|d ds IH]; [constructor|].
  cbn [spec_meshes filter]. rewrite recognized_spec_mesh.
  destruct (spec_mesh d) as [m|] eqn:Hm; [|exact IH].
  constructor; [|exact IH].
  unfold spec_mesh in Hm. destruct (spec_geometry d); [|discriminate].
  injection Hm as <-. unfold carries. cbn. repeat split; reflexivity.
Qed.

(** C9. After every replacement, also one that throws part-way, every mesh
    in the group is the mesh of one of the payload's descriptors: it sits
    at that descriptor's position (at z = 0, where a new mesh is, when the
    position carries no [z]), is not rotated, has the descriptor's colour
    and roughness 0.5 and metalness 0.1. For a description of the contract
    the meshes are, in order, those of its descriptors of a recognised
    shape, each at its descriptor's three coordinates. *)
Theorem mesh_transform_and_material :
  (forall (sceneData : JSValue) (st : App),
     Forall (fun m => exists items obj,
                 getProp sceneData "objects" = Normal (JArr items) /\
                 In obj items /\ built_from obj m)
       (children (snd (buildSceneFromData sceneData st)))) /\
  (forall (d : Schema.SceneDescription) (st : App),
     Forall2 carries
       (children (snd (buildSceneFromData (encode d) st)))
       (filter recognized (Schema.objects d))).
Proof.
  split.
  - intros sceneData st. rewrite buildSceneFromData_eq.
    destruct (getProp sceneData "backgroundColor") as [bg|e]; [|constructor].
    destruct (getProp sceneData "objects") as [objs|e]; [|constructor].
    destruct objs as [| |b|n|s|items|fields]; try constructor.
    pose proof (objects_meshes_built_from items) as H.
    assert (H' : Forall (fun m => exists items0 obj,
                   Normal (JArr items) = Normal (JArr items0) /\
                   In obj items0 /\ built_from obj m) (snd (objects_meshes items))).
    { eapply Forall_impl; [|exact H].
      intros m (obj & Hin & Hb). exists items, obj. auto. }
    destruct (objects_meshes items) as [[[]|e] ms]; cbn [snd] in *; [|exact H'].
    destruct (Nat.ltb 0 (List.length items)); exact H'.
  - intros d st. rewrite buildSceneFromData_encode. cbn [snd].
    pose proof (spec_meshes_carry (Schema.objects d)) as H.
    destruct (Schema.objects d); exact H.
Qed.

(** ** The generation request *)

Lemma handleGenerateClick_request_ready (st : App) :
  ready st ->
  handleGenerateClick_request st = (requesting st, Some (request_contents st)).
Proof.
  intros [Hai Hin]. unfold handleGenerateClick_request.
  destruct (ai st) as [key|]; [|congruence].
  unfold requesting, request_contents.
  destruct (promptInput_value st) eqn:Hp, (uploadedImage st) eqn:Hu;
    cbn; rewrite ?Hu, ?Hp; try reflexivity.
  destruct Hin; congruence.
Qed.

Lemma handleGenerateClick_ready (reply : ServiceReply) (st : App) :
  ready st ->
  handleGenerateClick reply st = handleGenerateClick_resume reply (requesting st).
Proof.
  intro H. unfold handleGenerateClick.
  now rewrite handleGenerateClick_request_ready.
Qed.

(** A replacement that throws leaves the export control as it was. *)
Lemma buildSceneFromData_throw_keeps_export (sceneData : JSValue) (st st' : App) (e : JSError) :
  buildSceneFromData sceneData st = (Throw e, st') ->
  downloadToggleBtn_disabled st' = downloadToggleBtn_disabled st.
Proof.
  rewrite buildSceneFromData_eq.
  destruct (getProp sceneData "backgroundColor") as [bg|e0];
    [|intro H; injection H as _ <-; reflexivity].
  destruct (getProp sceneData "objects") as [objs|e0];
    [|intro H; injection H as _ <-; reflexivity].
  destruct objs as [| |b|n|s|items|fields];
    try (intro H; injection H as _ <-; reflexivity).
  destruct (objects_meshes items) as [[[]|e0] ms]; [discriminate|].
  intro H; injection H as _ <-; reflexivity.
Qed.

(** A replacement that returns has walked a list of objects, and enables
    the export control exactly when that list is not empty. *)
Lemma buildSceneFromData_normal_export (sceneData : JSValue) (st st' : App) :
  buildSceneFromData sceneData st = (Normal tt, st') ->
  exists items,
    getProp sceneData "objects" = Normal (JArr items) /\
    downloadToggleBtn_disabled st' =
      match items with
      | [] => downloadToggleBtn_disabled st
      | _ :: _ => false
      end.
Proof.
  rewrite buildSceneFromData_eq.
  destruct (getProp sceneData "backgroundColor") as [bg|e0]; [|discriminate].
  destruct (getProp sceneData "objects") as [objs|e0]; [|discriminate].
  destruct objs as [| |b|n|s|items|fields]; try discriminate.
  destruct (objects_meshes items) as [[[]|e0] ms]; [|discriminate].
  intro H; injection H as <-. exists items. split; [reflexivity|].
  destruct items; reflexivity.
Qed.

(** ** Export availability *)

(** C4, as the code has it. After a generation that accepted a description
    of the contract, the export control is enabled if and only if the
    description lists at least one object, of a recognised shape or not;
    so it is enabled whenever at least one mesh was added. *)
Theorem export_enabled_iff_objects_listed (d : Schema.SceneDescription) (st : App) :
  ready st ->
  let st' := handleGenerateClick (ResponseJSON (encode d)) st in
  (downloadToggleBtn_disabled st' = false <-> Schema.objects d <> []) /\
  (1 <= List.length (children st') -> downloadToggleBtn_disabled st' = false).
Proof.
  intro Hready. cbv zeta. rewrite (handleGenerateClick_ready _ st Hready).
  unfold handleGenerateClick_resume. cbn [try_block].
  rewrite buildSceneFromData_encode.
  destruct (Schema.objects d) as [|o os]; cbn.
  - split; [split; [discriminate|congruence]|lia].
  - split; [split; [discriminate|reflexivity]|reflexivity].
Qed.

(** ** Background *)

(** C5, as the code has it. When a payload is accepted the background is
    set from its [backgroundColor] field, and falls back to the fixed dark
    default exactly when the field is missing or otherwise falsy (null,
    the empty string, zero, false); any other value, a valid colour or
    not, is handed to the colour constructor as it is. *)
Theorem background_from_payload (sceneData : JSValue) (st st' : App) :
  buildSceneFromData sceneData st = (Normal tt, st') ->
  exists bg,
    getProp sceneData "backgroundColor" = Normal bg /\
    background st' = THREE_Color (js_or bg default_background) /\
    (truthy bg = false -> background st' = THREE_Color default_background) /\
    (truthy bg = true -> background st' = THREE_Color bg).
Proof.
  rewrite buildSceneFromData_eq.
  destruct (getProp sceneData "backgroundColor") as [bg|e0]; [|discriminate].
  destruct (getProp sceneData "objects") as [objs|e0]; [|discriminate].
  destruct objs as [| |b|n|s|items|fields]; try discriminate.
  destruct (objects_meshes items) as [[[]|e0] ms]; [|discriminate].
  intro H; injection H as <-. exists bg. split; [reflexivity|].
  assert (Hbg : forall st0,
            background (if Nat.ltb 0 (List.length items)
                        then set_downloadToggleBtn_disabled false (replaced bg ms st0)
                        else replaced bg ms st0)
            = THREE_Color (js_or bg default_background)).
  { intro st0. destruct (Nat.ltb 0 (List.length items)); reflexivity. }
  rewrite Hbg. unfold js_or.
  split; [reflexivity|]. split; intros ->; reflexivity.
Qed.

(** ** Local rejection *)

(** C7. With an empty prompt and no uploaded image, a click on Generate is
    rejected on the page: an error message shows, no call to the service
    is made, and the Scene Graph is as it was. *)
Theorem empty_input_rejected_locally (reply : ServiceReply) (st : App) :
  promptInput_value st = EmptyString ->
  uploadedImage st = None ->
  let st' := handleGenerateClick reply st in
  snd (handleGenerateClick_request st) = None /\
  requests st' = requests st /\
  errorMessage_display st' = display_block /\
  (ai st <> None -> errorMessage_textContent st' = missing_input_message) /\
  (ai st = None -> errorMessage_textContent st' = missing_key_message) /\
  children st' = children st /\
  background st' = background st.
Proof.
  intros Hp Hu. unfold handleGenerateClick, handleGenerateClick_request.
  rewrite Hp, Hu. destruct (ai st) as [key|]; cbn;
    repeat split; try reflexivity; congruence.
Qed.

(** ** Image input *)

Lemma includes_In (l : list string) (s : string) :
  includes l s = true <-> In s l.
Proof.
  unfold includes. rewrite existsb_exists. split.
  - intros (t & Hin & Heq). apply String.eqb_eq in Heq. now subst.
  - intro Hin. exists s. split; [exact Hin|apply String.eqb_refl].
Qed.

Lemma split_without_separator (sep : ascii) (s : string) :
  contains sep s = false -> split sep s = [s].
Proof.
  induction s as [|c rest IH]; [reflexivity|].
  cbn [contains split]. intro H. apply orb_false_iff in H as [Hc Hrest].
  rewrite Hc, (IH Hrest). reflexivity.
Qed.

Lemma split_at_separator (sep : ascii) (before after : string) :
  contains sep before = false ->
  split sep (before ++ String sep after) = before :: split sep after.
Proof.
  induction before as [|c rest IH]; cbn [contains split append]; intro H.
  - now rewrite Ascii.eqb_refl.
  - apply orb_false_iff in H as [Hc Hrest]. now rewrite Hc, (IH Hrest).
Qed.

Lemma base64_digit_no_comma (n : N) :
  Ascii.eqb (base64_digit n) ","%char = false.
Proof.
  unfold base64_digit. generalize (N.to_nat n) as k. intro k.
  do 64 (destruct k as [|k]; [reflexivity|]). reflexivity.
Qed.

Lemma base64_no_comma_step (bs : list byte) :
  contains ","%char (base64 bs) = false /\
  (forall a, contains ","%char (base64 (a :: bs)) = false) /\
  (forall a b, contains ","%char (base64 (a :: b :: bs)) = false).
Proof.
  induction bs as [|c bs (IH0 & IH1 & IH2)].
  - split; [reflexivity|].
    split; intros; cbn [base64 contains]; unfold sextet;
      rewrite !base64_digit_no_comma; reflexivity.
  - split; [exact (IH1 c)|]. split; [intro a; exact (IH2 a c)|].
    intros a b. cbn [base64 contains]. unfold sextet.
    rewrite !base64_digit_no_comma. exact IH0.
Qed.

Lemma base64_no_comma (bs : list byte) : contains ","%char (base64 bs) = false.
Proof. apply base64_no_comma_step. Qed.

(** The second piece of the data URL of an accepted file is its base64. *)
Lemma data_url_pieces (t payload : string) :
  In t accepted_types ->
  contains ","%char payload = false ->
  split ","%char
    ("data:" ++ media_type t ++ ";base64," ++ payload)%string
  = [("data:" ++ t ++ ";base64")%string; payload].
Proof.
  intros Hin Hfree.
  pose proof (split_without_separator ","%char payload Hfree) as Hlast.
  destruct Hin as [<- | [<- | [<- | []]]].
  - change (split ","%char ("data:image/jpeg;base64" ++ String ","%char payload)%string
            = ["data:image/jpeg;base64"; payload]).
    rewrite split_at_separator by reflexivity. now rewrite Hlast.
  - change (split ","%char ("data:image/png;base64" ++ String ","%char payload)%string
            = ["data:image/png;base64"; payload]).
    rewrite split_at_separator by reflexivity. now rewrite Hlast.
  - change (split ","%char ("data:image/webp;base64" ++ String ","%char payload)%string
            = ["data:image/webp;base64"; payload]).
    rewrite split_at_separator by reflexivity. now rewrite Hlast.
Qed.

Lemma data_url_payload (f : File) :
  In (file_type f) accepted_types ->
  nth_error (split ","%char (readAsDataURL f)) 1 = Some (base64 (file_bytes f)).
Proof.
  intro Hin. unfold readAsDataURL.
  rewrite (data_url_pieces _ _ Hin (base64_no_comma (file_bytes f))).
  reflexivity.
Qed.


(** * The rest of the page *)

(** ** When the callback throws, skips or adds *)

Lemma getProp_not_nullish (v : JSValue) (k : string) :
  nullish v = false -> getProp v k = Normal (prop v k).
Proof. unfold prop. destruct v; try discriminate; reflexivity. Qed.

Lemma getProp_nullish (v : JSValue) (k : string) :
  nullish v = true -> getProp v k = Throw TypeError.
Proof. destruct v; try discriminate; reflexivity. Qed.

Lemma strict_equals_string_other (s label : string) :
  s <> label -> strict_equals_string (JStr s) label = false.
Proof. intro H. cbn. now apply String.eqb_neq. Qed.

(** The switch on a scale that can be read. *)
Lemma switch_shape_cases (shape s : JSValue) :
  nullish s = false ->
  match switch_shape shape s with
  | Normal (Some _) =>
      has_case shape = true /\
      existsb (fun k => ToPrimitive_throws (prop s k)) (used_components shape) = false
  | Normal None => has_case shape = false
  | Throw e =>
      e = TypeError /\ has_case shape = true /\
      existsb (fun k => ToPrimitive_throws (prop s k)) (used_components shape) = true
  end.
Proof.
  intro Hs.
  assert (Hget : forall k, getProp s k = Normal (prop s k))
    by (intro k; now apply getProp_not_nullish).
  destruct shape as [| |b|n|name|items|fields]; try reflexivity.
  unfold switch_shape, has_case, used_components.
  destruct (String.eqb_spec name "box") as [->|Hbox].
  { cbn [strict_equals_string String.eqb Ascii.eqb Bool.eqb orb andb].
    rewrite !Hget. cbn [bindC existsb].
    unfold THREE_BoxGeometry, dimension, ToNumber.
    destruct (ToPrimitive_throws (prop s "x")), (ToPrimitive_throws (prop s "y")),
      (ToPrimitive_throws (prop s "z")); cbn; repeat split; reflexivity. }
  rewrite (strict_equals_string_other name "box" Hbox).
  destruct (String.eqb_spec name "sphere") as [->|Hsphere].
  { cbn [strict_equals_string String.eqb Ascii.eqb Bool.eqb orb andb].
    rewrite !Hget. cbn [bindC existsb].
    unfold js_Math_max, ToNumber.
    destruct (ToPrimitive_throws (prop s "x")), (ToPrimitive_throws (prop s "y")),
      (ToPrimitive_throws (prop s "z")); cbn; repeat split; reflexivity. }
  rewrite (strict_equals_string_other name "sphere" Hsphere).
  destruct (String.eqb_spec name "cone") as [->|Hcone].
  { cbn [strict_equals_string String.eqb Ascii.eqb Bool.eqb orb andb].
    rewrite !Hget. cbn [bindC existsb].
    unfold js_div, THREE_ConeGeometry, dimension, ToNumber.
    destruct (ToPrimitive_throws (prop s "x")), (ToPrimitive_throws (prop s "y"));
      cbn; repeat split; reflexivity. }
  rewrite (strict_equals_string_other name "cone" Hcone).
  destruct (String.eqb_spec name "cylinder") as [->|Hcylinder].
  { cbn [strict_equals_string String.eqb Ascii.eqb Bool.eqb orb andb].
    rewrite !Hget. cbn [bindC existsb].
    unfold js_div, THREE_CylinderGeometry, dimension, ToNumber.
    destruct (ToPrimitive_throws (prop s "x")), (ToPrimitive_throws (prop s "y")),
      (ToPrimitive_throws (prop s "z")); cbn; repeat split; reflexivity. }
  rewrite (strict_equals_string_other name "cylinder" Hcylinder).
  destruct (String.eqb_spec name "torus") as [->|Htorus].
  { cbn [strict_equals_string String.eqb Ascii.eqb Bool.eqb orb andb].
    rewrite !Hget. cbn [bindC existsb].
    unfold js_div, ToNumber.
    destruct (ToPrimitive_throws (prop s "x")), (ToPrimitive_throws (prop s "y"));
      cbn; repeat split; reflexivity. }
  rewrite (strict_equals_string_other name "torus" Htorus). reflexivity.
Qed.

Lemma switch_shape_nullish_scale (shape s : JSValue) :
  nullish s = true ->
  switch_shape shape s =
  if has_case shape then Throw TypeError else Normal None.
Proof.
  intro Hs. unfold switch_shape, has_case.
  rewrite !(getProp_nullish s) by exact Hs. cbn [bindC].
  destruct (strict_equals_string shape "box"); [reflexivity|].
  destruct (strict_equals_string shape "sphere"); [reflexivity|].
  destruct (strict_equals_string shape "cone"); [reflexivity|].
  destruct (strict_equals_string shape "cylinder"); [reflexivity|].
  destruct (strict_equals_string shape "torus"); reflexivity.
Qed.

Lemma object_mesh_cases (obj : JSValue) :
  match object_mesh obj with
  | Throw e => e = TypeError /\ callback_throws obj = true
  | Normal None =>
      callback_throws obj = false /\ has_case (prop obj "shape") = false
  | Normal (Some _) =>
      callback_throws obj = false /\ has_case (prop obj "shape") = true
  end.
Proof.
  unfold object_mesh, callback_throws.
  destruct (nullish obj) eqn:Hobj.
  { rewrite (getProp_nullish obj "scale") by exact Hobj. now split. }
  unfold getPath.
  rewrite !(getProp_not_nullish obj) by exact Hobj. cbn [bindC orb].
  destruct (nullish (prop obj "scale")) eqn:Hs.
  - rewrite switch_shape_nullish_scale by exact Hs.
    destruct (has_case (prop obj "shape")); cbn [bindC]; now split.
  - pose proof (switch_shape_cases (prop obj "shape") _ Hs) as Hsw.
    destruct (switch_shape (prop obj "shape") (prop obj "scale")) as [[g|]|e];
      cbn [bindC].
    + destruct Hsw as [-> ->]. cbn [andb orb].
      destruct (nullish (prop obj "position")) eqn:Hp.
      * rewrite !(getProp_nullish (prop obj "position")) by exact Hp. now split.
      * rewrite !(getProp_not_nullish (prop obj "position")) by exact Hp.
        cbn [bindC]. now split.
    + now rewrite Hsw.
    + destruct Hsw as (-> & -> & ->). now split.
Qed.

(** X2. The callback of the [forEach] throws, always a [TypeError] and
    before adding anything, exactly when the object is [null], or, its
    shape being one the switch has a case for, its scale or its position
    is missing or [null] or a component of the scale that the shape
    computes with cannot be converted to a number (an object that owns a
    [toString] key). Otherwise it returns: it adds one mesh when the shape
    has a case, and nothing, whatever the other fields, when it has not. *)
Theorem callback_outcome (obj : JSValue) (st : App) :
  if callback_throws obj then addObject obj st = (Throw TypeError, st)
  else if has_case (prop obj "shape")
       then exists m, addObject obj st = (Normal tt, add_child m st)
       else addObject obj st = (Normal tt, st).
Proof.
  rewrite addObject_eq. pose proof (object_mesh_cases obj) as H.
  destruct (object_mesh obj) as [[m|]|e].
  - destruct H as [-> ->]. now exists m.
  - now destruct H as [-> ->].
  - now destruct H as [-> ->].
Qed.

(** ** What a replacement keeps and what it forgets *)

Lemma objects_meshes_normal_iff (items : list JSValue) :
  match fst (objects_meshes items) with
  | Normal _ => existsb callback_throws items = false
  | Throw e => e = TypeError /\ existsb callback_throws items = true
  end.
Proof.
  induction items as [|obj rest IH]; [reflexivity|].
  cbn [objects_meshes existsb]. pose proof (object_mesh_cases obj) as H.
  destruct (object_mesh obj) as [[m|]|e].
  - destruct H as [-> _]. destruct (objects_meshes rest) as [c ms]. exact IH.
  - destruct H as [-> _]. exact IH.
  - destruct H as [-> ->]. now split.
Qed.

Lemma objects_meshes_stop (pre post : list JSValue) (bad : JSValue) :
  existsb callback_throws pre = false ->
  callback_throws bad = true ->
  objects_meshes (pre ++ bad :: post) = (Throw TypeError, snd (objects_meshes pre)).
Proof.
  intros Hpre Hbad. induction pre as [|obj pre IH]; cbn [app objects_meshes].
  - pose proof (object_mesh_cases bad) as H.
    destruct (object_mesh bad) as [[m|]|e].
    + destruct H; congruence.
    + destruct H; congruence.
    + now destruct H as [-> _].
  - cbn [existsb] in Hpre. apply orb_false_iff in Hpre as [Hobj Hpre].
    specialize (IH Hpre).
    destruct (object_mesh obj) as [[m|]|e] eqn:Hm.
    + rewrite IH. destruct (objects_meshes pre) as [c ms]. reflexivity.
    + exact IH.
    + pose proof (object_mesh_cases obj) as H. rewrite Hm in H.
      destruct H; congruence.
Qed.

(** A replacement writes the group, the background and the export control,
    and nothing else on the page. *)
Lemma buildSceneFromData_frame (sceneData : JSValue) (st : App) :
  exists cs c b,
    snd (buildSceneFromData sceneData st) =
    set_downloadToggleBtn_disabled b (set_background c (set_children cs st)).
Proof.
  rewrite buildSceneFromData_eq.
  assert (Hid : forall s : App,
            s = set_downloadToggleBtn_disabled (downloadToggleBtn_disabled s)
                  (set_background (background s) (set_children (children s) s))).
  { intros []; reflexivity. }
  destruct (getProp sceneData "backgroundColor") as [bg|e].
  2:{ exists [], (background st), (downloadToggleBtn_disabled st).
      cbn [snd]. now rewrite (Hid (set_children [] st)). }
  assert (Hrep : forall ms, exists cs c b,
            replaced bg ms st =
            set_downloadToggleBtn_disabled b (set_background c (set_children cs st))).
  { intro ms. exists ms, (THREE_Color (js_or bg default_background)),
      (downloadToggleBtn_disabled st). reflexivity. }
  destruct (getProp sceneData "objects") as [objs|e]; [|apply Hrep].
  destruct objs as [| |b|n|s|items|fields]; try apply Hrep.
  destruct (objects_meshes items) as [[[]|e] ms]; cbn [snd]; [|apply Hrep].
  destruct (Nat.ltb 0 (List.length items)); [|apply Hrep].
  exists ms, (THREE_Color (js_or bg default_background)), false. reflexivity.
Qed.

(** X1. A replacement forgets the earlier scene: whether it returns or
    throws, and the meshes it leaves, depend on the payload alone, never on
    what the group or the page held before; so does the background, unless
    the payload is [null] and the replacement throws before setting it. *)
Theorem replacement_forgets_previous_scene (sceneData : JSValue) (st1 st2 : App) :
  fst (buildSceneFromData sceneData st1) = fst (buildSceneFromData sceneData st2) /\
  children (snd (buildSceneFromData sceneData st1)) =
    children (snd (buildSceneFromData sceneData st2)) /\
  (nullish sceneData = false ->
     background (snd (buildSceneFromData sceneData st1)) =
       background (snd (buildSceneFromData sceneData st2))) /\
  (nullish sceneData = true ->
     background (snd (buildSceneFromData sceneData st1)) = background st1).
Proof.
  rewrite !buildSceneFromData_eq.
  destruct (nullish sceneData) eqn:Hn.
  - rewrite !(getProp_nullish sceneData) by exact Hn. cbn.
    repeat split; congruence.
  - rewrite !(getProp_not_nullish sceneData) by exact Hn. cbn iota beta.
    destruct (prop sceneData "objects") as [| |b|n|s|items|fields];
      try (cbn; repeat split; congruence).
    destruct (objects_meshes items) as [[[]|e] ms];
      [|cbn; repeat split; congruence].
    destruct (Nat.ltb 0 (List.length items)); cbn; repeat split; congruence.
Qed.

(** X3. The batch stops at the first object that makes the callback throw:
    the replacement throws a [TypeError], the group holds what the objects
    before it gave, as if the list had ended there, the objects after it are
    never looked at, the background has been set and the export control is
    left as it was. *)
Theorem batch_stops_at_first_throw
    (bg bad : JSValue) (pre post : list JSValue) (st : App) :
  existsb callback_throws pre = false ->
  callback_throws bad = true ->
  let result := buildSceneFromData (scene_payload bg (pre ++ bad :: post)) st in
  fst result = Throw TypeError /\
  children (snd result) =
    children (snd (buildSceneFromData (scene_payload bg pre) st)) /\
  background (snd result) = THREE_Color (js_or bg default_background) /\
  downloadToggleBtn_disabled (snd result) = downloadToggleBtn_disabled st.
Proof.
  intros Hpre Hbad. cbv zeta. rewrite !buildSceneFromData_eq.
  change (getProp (scene_payload bg (pre ++ bad :: post)) "backgroundColor")
    with (Normal bg).
  change (getProp (scene_payload bg (pre ++ bad :: post)) "objects")
    with (Normal (JArr (pre ++ bad :: post))).
  change (getProp (scene_payload bg pre) "backgroundColor") with (Normal bg).
  change (getProp (scene_payload bg pre) "objects") with (Normal (JArr pre)).
  cbn iota beta. rewrite (objects_meshes_stop pre post bad Hpre Hbad).
  pose proof (objects_meshes_normal_iff pre) as Hn.
  destruct (objects_meshes pre) as [[[]|e] ms]; cbn [fst snd] in *.
  - destruct (Nat.ltb 0 (List.length pre)); repeat split; reflexivity.
  - destruct Hn; congruence.
Qed.

(** ** The outcome of a generation *)

Lemma buildSceneFromData_accepts (sceneData : JSValue) (st : App) :
  match fst (buildSceneFromData sceneData st) with
  | Normal _ => accepts (ResponseJSON sceneData) = true
  | Throw _ => accepts (ResponseJSON sceneData) = false
  end.
Proof.
  rewrite buildSceneFromData_eq. unfold accepts.
  destruct (nullish sceneData) eqn:Hn.
  - rewrite !(getProp_nullish sceneData) by exact Hn. reflexivity.
  - rewrite !(getProp_not_nullish sceneData) by exact Hn. cbn iota beta.
    destruct (prop sceneData "objects") as [| |b|n|s|items|fields];
      try reflexivity.
    pose proof (objects_meshes_normal_iff items) as H.
    destruct (objects_meshes items) as [[[]|e] ms]; cbn [fst] in *.
    + now rewrite H.
    + destruct H as [_ ->]. reflexivity.
Qed.

Lemma buildSceneFromData_keeps_error (sceneData : JSValue) (st : App) :
  errorMessage_display (snd (buildSceneFromData sceneData st)) = errorMessage_display st /\
  generateBtn_disabled (snd (buildSceneFromData sceneData st)) = generateBtn_disabled st /\
  requests (snd (buildSceneFromData sceneData st)) = requests st /\
  uploadedImage (snd (buildSceneFromData sceneData st)) = uploadedImage st.
Proof.
  destruct (buildSceneFromData_frame sceneData st) as (cs & c & b & ->).
  repeat split; reflexivity.
Qed.

(** X5. No click leaves the page loading: once the call has settled,
    whatever it answered, the Generate button is enabled again, the spinner
    is hidden and the label shows; a click turned away by a guard does not
    touch the three. *)
Theorem click_never_leaves_loading (reply : ServiceReply) (st : App) :
  let st' := handleGenerateClick reply st in
  (ready st ->
     generateBtn_disabled st' = false /\
     spinner_display st' = display_none /\
     buttonText_display st' = display_block) /\
  (ai st = None \/ (promptInput_value st = EmptyString /\ uploadedImage st = None) ->
     generateBtn_disabled st' = generateBtn_disabled st /\
     spinner_display st' = spinner_display st /\
     buttonText_display st' = buttonText_display st).
Proof.
  cbv zeta. split.
  - intro Hready. rewrite (handleGenerateClick_ready reply st Hready).
    unfold handleGenerateClick_resume.
    destruct (try_block reply (requesting st)) as [[[]|e] st1];
      repeat split; reflexivity.
  - unfold handleGenerateClick, handleGenerateClick_request.
    intros [Hai | [Hp Hu]].
    + rewrite Hai. repeat split; reflexivity.
    + rewrite Hp, Hu. destruct (ai st); repeat split; reflexivity.
Qed.

(** ** What is sent *)

Lemma try_block_keeps_requests (reply : ServiceReply) (st : App) :
  requests (snd (try_block reply st)) = requests st.
Proof.
  destruct reply as [| |sceneData]; try reflexivity.
  apply buildSceneFromData_keeps_error.
Qed.

Lemma upload_accepted (f : File) (st : App) :
  In (file_type f) accepted_types ->
  upload (Some f) st = reader_onload f st /\
  uploadedImage (upload (Some f) st) =
    Some {| mimeType := file_type f; data := Some (base64 (file_bytes f)) |}.
Proof.
  intro Hin. unfold upload, handleImageUpload.
  rewrite (proj2 (includes_In accepted_types (file_type f)) Hin). cbn [negb].
  split; [reflexivity|].
  unfold reader_onload. cbn [uploadedImage set_uploaded].
  now rewrite (data_url_payload f Hin).
Qed.


(** X6. After a picture of an accepted type was uploaded, a click with a
    credential set sends exactly one request, whatever the prompt, also an
    empty one: the picture's MIME type with the base64 of its bytes first,
    then the prompt text. *)
Theorem request_carries_image_then_prompt
    (reply : ServiceReply) (f : File) (st : App) :
  In (file_type f) accepted_types ->
  ai st <> None ->
  requests (handleGenerateClick reply (upload (Some f) st)) =
  requests st ++
    [[inlineData {| mimeType := file_type f; data := Some (base64 (file_bytes f)) |};
      text (promptInput_value st)]].
Proof.
  intros Hin Hai.
  pose proof (upload_accepted f st Hin) as (Hupload & Himg).
  assert (Hup : ready (upload (Some f) st)).
  { split.
    - unfold upload, handleImageUpload.
      destruct (negb (includes accepted_types (file_type f))); exact Hai.
    - right. rewrite Himg. discriminate. }
  rewrite (handleGenerateClick_ready reply _ Hup).
  unfold handleGenerateClick_resume.
  pose proof (try_block_keeps_requests reply (requesting (upload (Some f) st))) as Hreq.
  assert (Hrequesting :
            requests (requesting (upload (Some f) st)) =
            requests st ++
              [[inlineData {| mimeType := file_type f;
                              data := Some (base64 (file_bytes f)) |};
                text (promptInput_value st)]]).
  { unfold requesting, request_contents. cbn [requests log_request].
    cbn [uploadedImage set_downloadToggleBtn_disabled hideError setLoading
         promptInput_value].
    rewrite Himg. unfold upload, handleImageUpload.
    destruct (negb (includes accepted_types (file_type f))); reflexivity. }
  destruct (try_block reply (requesting (upload (Some f) st))) as [[[]|e] st1];
    cbn [snd] in Hreq; cbn [requests setLoading showError]; congruence.
Qed.

(** ** One request at a time *)

Lemma try_block_frame (reply : ServiceReply) (st : App) :
  exists cs c b,
    snd (try_block reply st) =
    set_downloadToggleBtn_disabled b (set_background c (set_children cs st)).
Proof.
  destruct reply as [| |sceneData]; [| |apply buildSceneFromData_frame];
    exists (children st), (background st), (downloadToggleBtn_disabled st);
    destruct st; reflexivity.
Qed.

(** Settling the call writes the scene, the export control, the error box
    and the loading state, and leaves the rest of the page. *)
Lemma handleGenerateClick_resume_keeps (reply : ServiceReply) (st : App) :
  let st' := handleGenerateClick_resume reply st in
  ai st' = ai st /\ uploadedImage st' = uploadedImage st /\
  requests st' = requests st /\ promptInput_value st' = promptInput_value st /\
  generateBtn_disabled st' = false.
Proof.
  cbv zeta. unfold handleGenerateClick_resume.
  destruct (try_block_frame reply st) as (cs & c & b & H).
  destruct (try_block reply st) as [[[]|e] st1]; cbn [snd] in H; subst st1;
    repeat split; reflexivity.
Qed.

Lemma step_in_flight (e : Event) (p : Page) :
  in_flight_ok p -> in_flight_ok (step e p).
Proof.
  unfold in_flight_ok. intro H. destruct e; cbn [step]; try exact H.
  - destruct (generateBtn_disabled (app_state p)) eqn:Hd; [now rewrite Hd|].
    unfold handleGenerateClick_request.
    destruct (ai (app_state p)); [|cbn; now rewrite Hd].
    destruct (promptInput_value (app_state p)), (uploadedImage (app_state p));
      cbn; rewrite ?Hd; congruence.
  - destruct (outstanding p) as [|n] eqn:Hn; [now rewrite Hn|].
    cbn [outstanding set_outstanding app_state with_app].
    destruct (handleGenerateClick_resume_keeps reply (app_state p))
      as (_ & _ & _ & _ & ->).
    destruct (generateBtn_disabled (app_state p)); lia.
  - unfold handleImageUpload. destruct file as [f|]; [|exact H].
    destruct (negb (includes accepted_types (file_type f))); exact H.
  - destruct (nth_error (reading p) k); exact H.
  - unfold handleSaveApiKey. destruct (trim (apiKeyInput_value p)); exact H.
  - unfold toggleDownloadOptions.
    destruct (negb (downloadToggleBtn_disabled (app_state p))); exact H.
  - unfold window_click_listener. destruct (negb inside); exact H.
  - unfold handleDownloadGLTF.
    destruct (GLTFExporter_parse (children (app_state p))); exact H.
  - unfold handleDownloadOBJ.
    destruct (OBJExporter_parse (children (app_state p))); exact H.
  - unfold handleDownloadSTL.
    destruct (STLExporter_parse (children (app_state p))); exact H.
  - unfold gltf_onDone. destruct (nth_error (exporting p) k); exact H.
Qed.

(** X7. At most one call to the service is ever outstanding: on a page
    where a call is outstanding exactly while the Generate button is
    disabled, this stays so through every sequence of events, however the
    clicks, the uploads and the settling of the call interleave. *)
Theorem single_request_in_flight (events : list Event) (p : Page) :
  in_flight_ok p ->
  in_flight_ok (run events p) /\ outstanding (run events p) <= 1.
Proof.
  revert p. induction events as [|e rest IH]; intros p H; cbn [run].
  - split; [exact H|]. unfold in_flight_ok in H. rewrite H.
    destruct (generateBtn_disabled (app_state p)); lia.
  - apply IH. now apply step_in_flight.
Qed.

(** ** What is ever sent *)

Lemma Forall_remove_nth {A} (P : A -> Prop) (k : nat) (l : list A) :
  Forall P l -> Forall P (remove_nth k l).
Proof.
  intro H. revert k. induction H as [|a l Ha Hl IH]; intro k; [destruct k; constructor|].
  destruct k as [|k]; cbn [remove_nth]; [exact Hl|]. constructor; [exact Ha|apply IH].
Qed.

Lemma reader_onload_image_of (f : File) (st : App) :
  In (file_type f) accepted_types ->
  uploadedImage (reader_onload f st) = Some (image_of f).
Proof.
  intro Hin. unfold reader_onload, image_of. cbn [uploadedImage set_uploaded].
  now rewrite (data_url_payload f Hin).
Qed.

Lemma from_files_incl (files files' : list File) (img : InlineData) :
  incl files files' -> from_files files img -> from_files files' img.
Proof. intros Hincl (f & Hf & Ht & ->). exists f. auto. Qed.

Lemma request_ok_incl (files files' : list File) (contents : list Part) :
  incl files files' -> request_ok files contents -> request_ok files' contents.
Proof.
  intros Hincl [H | (img & s & Himg & ->)]; [now left|].
  right. exists img, s. split; [now apply (from_files_incl files)|reflexivity].
Qed.

Lemma images_ok_incl (files files' : list File) (p : Page) :
  incl files files' -> images_ok files p -> images_ok files' p.
Proof.
  intros Hincl [Himg Hread]. split.
  - intros img Hi. apply (from_files_incl files); auto.
  - eapply Forall_impl; [|exact Hread]. intros f [Hf Ht]. split; auto.
Qed.

Lemma picked_app (events events' : list Event) :
  picked (events ++ events') = picked events ++ picked events'.
Proof.
  induction events as [|e rest IH]; [reflexivity|].
  destruct e; cbn [app picked]; try exact IH.
  destruct file as [f|]; [|exact IH]. cbn [app]. now rewrite IH.
Qed.

Lemma step_images_ok (e : Event) (files : list File) (p : Page) :
  images_ok files p -> images_ok (files ++ picked [e]) (step e p).
Proof.
  intro H.
  assert (Hincl : incl files (files ++ picked [e])) by (apply incl_appl, incl_refl).
  pose proof (images_ok_incl _ _ p Hincl H) as [Himg Hread].
  unfold images_ok. destruct e; cbn [step]; try (split; assumption).
  - destruct (generateBtn_disabled (app_state p)); [split; assumption|].
    unfold handleGenerateClick_request.
    destruct (ai (app_state p)); [|split; assumption].
    destruct (promptInput_value (app_state p)), (uploadedImage (app_state p)) eqn:Hu;
      cbn; rewrite ?Hu; split; assumption.
  - destruct (outstanding p) as [|n]; [split; assumption|].
    cbn [app_state with_app set_outstanding reading].
    destruct (handleGenerateClick_resume_keeps reply (app_state p))
      as (_ & -> & _). split; assumption.
  - unfold handleImageUpload. destruct file as [f|]; [|split; assumption].
    destruct (includes accepted_types (file_type f)) eqn:Hinc; cbn [negb].
    + split; [exact Himg|].
      cbn [reading set_reading set_imageUploadInput_value with_app].
      apply Forall_app. split; [exact Hread|].
      constructor; [|constructor]. split; [|now apply includes_In].
      apply in_or_app. right. now left.
    + split; assumption.
  - destruct (nth_error (reading p) k) as [f|] eqn:Hk; [|split; assumption].
    assert (Hf : In f (files ++ picked [reader_load k]) /\
                 In (file_type f) accepted_types).
    { apply nth_error_In in Hk. rewrite Forall_forall in Hread. now apply Hread. }
    split.
    + cbn [app_state with_app set_reading].
      rewrite (reader_onload_image_of f (app_state p) (proj2 Hf)).
      intros img Hi. injection Hi as <-. exists f.
      split; [exact (proj1 Hf)|]. split; [exact (proj2 Hf)|reflexivity].
    + cbn [reading set_reading]. now apply Forall_remove_nth.
  - split; [discriminate|exact Hread].
  - unfold handleSaveApiKey. destruct (trim (apiKeyInput_value p)); split; assumption.
  - unfold toggleDownloadOptions.
    destruct (negb (downloadToggleBtn_disabled (app_state p))); split; assumption.
  - unfold window_click_listener. destruct (negb inside); split; assumption.
  - unfold handleDownloadGLTF.
    destruct (GLTFExporter_parse (children (app_state p))); split; assumption.
  - unfold handleDownloadOBJ.
    destruct (OBJExporter_parse (children (app_state p))); split; assumption.
  - unfold handleDownloadSTL.
    destruct (STLExporter_parse (children (app_state p))); split; assumption.
  - destruct (nth_error (exporting p) k); split; assumption.
Qed.

Lemma step_requests_ok (e : Event) (files : list File) (p : Page) :
  images_ok files p ->
  Forall (request_ok files) (requests (app_state p)) ->
  Forall (request_ok (files ++ picked [e])) (requests (app_state (step e p))).
Proof.
  intros [Himg _] H0.
  assert (Hincl : incl files (files ++ picked [e])) by (apply incl_appl, incl_refl).
  assert (H : Forall (request_ok (files ++ picked [e])) (requests (app_state p))).
  { eapply Forall_impl; [|exact H0]. intro c. now apply request_ok_incl. }
  assert (Himg' : forall img, uploadedImage (app_state p) = Some img ->
                    from_files (files ++ picked [e]) img).
  { intros img Hi. apply (from_files_incl files); auto. }
  clear H0 Himg. destruct e; cbn [step]; try exact H.
  - destruct (generateBtn_disabled (app_state p)); [exact H|].
    unfold handleGenerateClick_request.
    destruct (ai (app_state p)); [|exact H].
    destruct (promptInput_value (app_state p)) eqn:Hp,
             (uploadedImage (app_state p)) eqn:Hu;
      cbn; unfold request_contents; cbn; rewrite ?Hu, ?Hp;
      try exact H; apply Forall_app; (split; [exact H|]);
      (constructor; [|constructor]).
    + right. eexists _, _. split; [now apply Himg'|reflexivity].
    + right. eexists _, _. split; [now apply Himg'|reflexivity].
    + left. eexists. split; [|reflexivity]. discriminate.
  - destruct (outstanding p) as [|n]; [exact H|].
    cbn [app_state with_app set_outstanding].
    destruct (handleGenerateClick_resume_keeps reply (app_state p))
      as (_ & _ & -> & _). exact H.
  - unfold handleImageUpload. destruct file as [f|]; [|exact H].
    destruct (negb (includes accepted_types (file_type f))); exact H.
  - destruct (nth_error (reading p) k); exact H.
  - unfold handleSaveApiKey. destruct (trim (apiKeyInput_value p)); exact H.
  - unfold toggleDownloadOptions.
    destruct (negb (downloadToggleBtn_disabled (app_state p))); exact H.
  - unfold window_click_listener. destruct (negb inside); exact H.
  - unfold handleDownloadGLTF.
    destruct (GLTFExporter_parse (children (app_state p))); exact H.
  - unfold handleDownloadOBJ.
    destruct (OBJExporter_parse (children (app_state p))); exact H.
  - unfold handleDownloadSTL.
    destruct (STLExporter_parse (children (app_state p))); exact H.
  - destruct (nth_error (exporting p) k); exact H.
Qed.

(** X8. Every request the page ever sends is either a non-empty prompt
    alone or one image followed by the prompt, and the image is that of a
    file the user picked: it pairs the MIME type of that file, one of the
    three accepted, with the base64 of that file's bytes. This holds
    through every sequence of events, also when uploads, removals and
    late file reads interleave with the clicks. *)
Theorem every_request_is_well_formed
    (events : list Event) (files : list File) (p : Page) :
  images_ok files p ->
  Forall (request_ok files) (requests (app_state p)) ->
  images_ok (files ++ picked events) (run events p) /\
  Forall (request_ok (files ++ picked events)) (requests (app_state (run events p))).
Proof.
  revert files p. induction events as [|e rest IH]; intros files p Hi Hr; cbn [run].
  - cbn [picked]. rewrite app_nil_r. split; assumption.
  - change (e :: rest) with ([e] ++ rest). rewrite picked_app, app_assoc.
    apply IH; [now apply step_images_ok|now apply step_requests_ok].
Qed.

(** ** The credential *)

(** No event takes the credential away, and only a click on Generate with
    a credential set adds a request. *)
Lemma step_ai_none (e : Event) (p : Page) :
  ai (app_state (step e p)) = None ->
  ai (app_state p) = None /\
  requests (app_state (step e p)) = requests (app_state p).
Proof.
  destruct e; cbn [step]; try (intro H; split; [exact H|reflexivity]).
  - destruct (generateBtn_disabled (app_state p)); [now split|].
    unfold handleGenerateClick_request.
    destruct (ai (app_state p)) eqn:Hai; [|cbn; now split].
    destruct (promptInput_value (app_state p)), (uploadedImage (app_state p));
      cbn; rewrite ?Hai; discriminate.
  - destruct (outstanding p) as [|n]; [now split|].
    cbn [app_state with_app set_outstanding].
    destruct (handleGenerateClick_resume_keeps reply (app_state p))
      as (-> & _ & -> & _). now split.
  - unfold handleImageUpload. destruct file as [f|]; [|now split].
    destruct (negb (includes accepted_types (file_type f))); now split.
  - destruct (nth_error (reading p) k); now split.
  - unfold handleSaveApiKey. destruct (trim (apiKeyInput_value p));
      [now split|discriminate].
  - unfold toggleDownloadOptions.
    destruct (negb (downloadToggleBtn_disabled (app_state p))); now split.
  - unfold window_click_listener. destruct (negb inside); now split.
  - unfold handleDownloadGLTF.
    destruct (GLTFExporter_parse (children (app_state p))); now split.
  - unfold handleDownloadOBJ.
    destruct (OBJExporter_parse (children (app_state p))); now split.
  - unfold handleDownloadSTL.
    destruct (STLExporter_parse (children (app_state p))); now split.
  - destruct (nth_error (exporting p) k); now split.
Qed.

Lemma step_credential_ok (e : Event) (p : Page) :
  credential_ok p -> credential_ok (step e p).
Proof.
  unfold credential_ok. intro H. destruct e; cbn [step]; try exact H.
  - destruct (generateBtn_disabled (app_state p)); [exact H|].
    unfold handleGenerateClick_request.
    destruct (ai (app_state p)) eqn:Hai; [|cbn; rewrite Hai; discriminate].
    destruct (promptInput_value (app_state p)), (uploadedImage (app_state p));
      cbn; rewrite ?Hai; exact H.
  - destruct (outstanding p) as [|n]; [exact H|].
    cbn [app_state with_app set_outstanding localStorage_gemini_api_key].
    destruct (handleGenerateClick_resume_keeps reply (app_state p)) as (-> & _).
    exact H.
  - unfold handleImageUpload. destruct file as [f|]; [|exact H].
    destruct (negb (includes accepted_types (file_type f))); exact H.
  - destruct (nth_error (reading p) k); exact H.
  - unfold handleSaveApiKey.
    destruct (trim (apiKeyInput_value p)) as [|c rest]; [exact H|].
    cbn. intros key Hkey. injection Hkey as <-. split; [reflexivity|discriminate].
  - unfold toggleDownloadOptions.
    destruct (negb (downloadToggleBtn_disabled (app_state p))); exact H.
  - unfold window_click_listener. destruct (negb inside); exact H.
  - unfold handleDownloadGLTF.
    destruct (GLTFExporter_parse (children (app_state p))); exact H.
  - unfold handleDownloadOBJ.
    destruct (OBJExporter_parse (children (app_state p))); exact H.
  - unfold handleDownloadSTL.
    destruct (STLExporter_parse (children (app_state p))); exact H.
  - destruct (nth_error (exporting p) k); exact H.
Qed.

(** X9. Through every sequence of events the credential in use is the one
    saved in local storage and is never empty, and no request is sent
    without one: a run that ends with no credential set has sent
    nothing. *)
Theorem no_request_without_credential (events : list Event) (p : Page) :
  credential_ok p ->
  credential_ok (run events p) /\
  (ai (app_state (run events p)) = None ->
     ai (app_state p) = None /\
     requests (app_state (run events p)) = requests (app_state p)).
Proof.
  revert p. induction events as [|e rest IH]; intros p H; cbn [run].
  - split; [exact H|]. intro Hai. now split.
  - destruct (IH (step e p) (step_credential_ok e p H)) as [Hc Hn].
    split; [exact Hc|]. intro Hai. destruct (Hn Hai) as [Hai' Hreq].
    destruct (step_ai_none e p Hai') as [Hp Hreq']. split; congruence.
Qed.

(** ** Who writes the scene *)

Lemma step_scene (e : Event) (p : Page) :
  settles e = false ->
  children (app_state (step e p)) = children (app_state p) /\
  background (app_state (step e p)) = background (app_state p).
Proof.
  destruct e; cbn [step settles]; try discriminate; intros _;
    try (split; reflexivity).
  - destruct (generateBtn_disabled (app_state p)); [now split|].
    unfold handleGenerateClick_request.
    destruct (ai (app_state p)); [|now split].
    destruct (promptInput_value (app_state p)), (uploadedImage (app_state p));
      now split.
  - unfold handleImageUpload. destruct file as [f|]; [|now split].
    destruct (negb (includes accepted_types (file_type f))); now split.
  - destruct (nth_error (reading p) k); now split.
  - unfold handleSaveApiKey. destruct (trim (apiKeyInput_value p)); now split.
  - unfold toggleDownloadOptions.
    destruct (negb (downloadToggleBtn_disabled (app_state p))); now split.
  - unfold window_click_listener. destruct (negb inside); now split.
  - unfold handleDownloadGLTF.
    destruct (GLTFExporter_parse (children (app_state p))); now split.
  - unfold handleDownloadOBJ.
    destruct (OBJExporter_parse (children (app_state p))); now split.
  - unfold handleDownloadSTL.
    destruct (STLExporter_parse (children (app_state p))); now split.
  - destruct (nth_error (exporting p) k); now split.
Qed.

(** X10. Only the settling of a generation writes the scene: through any
    sequence of other events (clicks on Generate included, uploads, key
    changes, menu clicks and the three exports) the meshes of the group
    and the background stay exactly as they were. *)
Theorem scene_written_only_when_call_settles (events : list Event) (p : Page) :
  forallb (fun e => negb (settles e)) events = true ->
  children (app_state (run events p)) = children (app_state p) /\
  background (app_state (run events p)) = background (app_state p).
Proof.
  revert p. induction events as [|e rest IH]; intros p H; cbn [run].
  - now split.
  - cbn [forallb] in H. apply andb_true_iff in H as [He Hrest].
    apply negb_true_iff in He.
    destruct (IH (step e p) Hrest) as [Hc Hb].
    destruct (step_scene e p He) as [Hc' Hb']. split; congruence.
Qed.

(** ** Saving the key *)

(** X11. A key saved through the modal survives a reload: when the typed
    key is not blank, [handleSaveApiKey] stores its trimmed text, uses it
    and hides the modal, and a later start-up over the same local storage
    picks the same key up without showing the modal. A blank key raises an
    alert and changes neither the credential in use nor the stored one. *)
Theorem saved_key_survives_reload (p reloaded : Page) :
  let key := trim (apiKeyInput_value p) in
  let saved := handleSaveApiKey p in
  (key <> EmptyString ->
     ai (app_state saved) = Some key /\
     localStorage_gemini_api_key saved = Some key /\
     apiKeyModal_display (app_state saved) = display_none /\
     alerts saved = alerts p /\
     (localStorage_gemini_api_key reloaded = localStorage_gemini_api_key saved ->
        ai (app_state (main reloaded)) = Some key /\
        apiKeyModal_display (app_state (main reloaded)) = display_none)) /\
  (key = EmptyString ->
     alerts saved = alerts p ++ [invalid_key_message] /\
     ai (app_state saved) = ai (app_state p) /\
     localStorage_gemini_api_key saved = localStorage_gemini_api_key p /\
     apiKeyModal_display (app_state saved) = apiKeyModal_display (app_state p)).
Proof.
  cbv zeta. unfold handleSaveApiKey.
  destruct (trim (apiKeyInput_value p)) as [|c rest] eqn:Hkey.
  - split; [congruence|]. intros _. repeat split; reflexivity.
  - split; [|discriminate]. intros _.
    split; [reflexivity|]. split; [reflexivity|]. split; [reflexivity|].
    split; [reflexivity|].
    cbn [localStorage_gemini_api_key initializeAi]. intro Hsame.
    unfold main, checkApiKey.
    cbn [localStorage_gemini_api_key with_app]. rewrite Hsame.
    split; reflexivity.
Qed.

(** ** Uploading and removing an image *)

(** X12. Removing the image undoes an upload: on a page with no image, an
    accepted file picked, read and then removed leaves the page exactly as
    it was. The order matters: when the removal comes before the read has
    loaded, the read still stores the image afterwards. *)
Theorem remove_undoes_upload (value : string) (f : File) (p : Page) :
  In (file_type f) accepted_types ->
  no_image p ->
  run [image_change value (Some f); reader_load 0; remove_image_click] p = p /\
  uploadedImage (app_state
    (run [image_change value (Some f); remove_image_click; reader_load 0] p)) =
    Some {| mimeType := file_type f; data := Some (base64 (file_bytes f)) |}.
Proof.
  intros Hin (Hu & Hsrc & Hprev & Hbtn & Hval & Hread).
  pose proof (proj2 (includes_In accepted_types (file_type f)) Hin) as Hinc.
  destruct p as [a ls ak iv shown al dl out rd]. destruct a.
  cbn in Hu, Hsrc, Hprev, Hbtn, Hval, Hread. subst.
  cbn [run step]. unfold handleImageUpload.
  cbn [app_state set_imageUploadInput_value]. rewrite Hinc. cbn [negb].
  split.
  - reflexivity.
  - unfold handleRemoveImage. cbn [reading set_reading with_app
      set_imageUploadInput_value nth_error app_state app].
    unfold reader_onload. cbn [uploadedImage set_uploaded].
    now rewrite (data_url_payload f Hin).
Qed.


(** ** Start-up *)

(** X14. A payload that names no background (or a falsy one) and lists no
    object returns the Scene Graph to its start-up state: the replacement
    returns, and the group and the background are those [initScene]
    sets up; the export control is left as it was. *)
Theorem empty_payload_restores_startup_scene
    (fields : list (string * JSValue)) (st st0 : App) :
  truthy (own_property "backgroundColor" fields) = false ->
  own_property "objects" fields = JArr [] ->
  let result := buildSceneFromData (JObj fields) st in
  fst result = Normal tt /\
  children (snd result) = children (initScene st0) /\
  background (snd result) = background (initScene st0) /\
  downloadToggleBtn_disabled (snd result) = downloadToggleBtn_disabled st.
Proof.
  intros Hbg Hobjs. cbv zeta. rewrite buildSceneFromData_eq.
  cbn [getProp]. rewrite Hobjs. cbn. unfold js_or. rewrite Hbg.
  repeat split; reflexivity.
Qed.

(** ** Exports *)

Lemma run_app (events events' : list Event) (p : Page) :
  run (events ++ events') p = run events' (run events p).
Proof.
  revert p. induction events as [|e rest IH]; intro p; [reflexivity|].
  cbn [app run]. apply IH.
Qed.

Lemma exported_during_later (p0 : Page) (done : list Event) (e : Event) (d : Download) :
  exported_during p0 done d -> exported_during p0 (done ++ [e]) d.
Proof.
  intros (before & e0 & after & -> & H).
  exists before, e0, (after ++ [e]). split; [|exact H].
  now rewrite <- app_assoc.
Qed.

Lemma exported_during_now (p0 : Page) (done : list Event) (e : Event) (d : Download) :
  export_of e (children (app_state (run done p0))) = Some d ->
  exported_during p0 (done ++ [e]) d.
Proof. intro H. now exists done, e, []. Qed.

(** The files downloaded since [p0] and the texts awaited were exported in
    the course of the events so far. *)
Lemma step_exported (p0 : Page) (done : list Event) (e : Event) (new : list Download) :
  downloads (run done p0) = downloads p0 ++ new ->
  Forall (exported_during p0 done) new ->
  Forall (fun output =>
            exported_during p0 done
              {| download := "CanvasAI-Scene.gltf";
                 blob_type := "application/gltf-buffer"; blob_text := output |})
    (exporting (run done p0)) ->
  exists new',
    downloads (step e (run done p0)) = downloads p0 ++ new' /\
    Forall (exported_during p0 (done ++ [e])) new' /\
    Forall (fun output =>
              exported_during p0 (done ++ [e])
                {| download := "CanvasAI-Scene.gltf";
                   blob_type := "application/gltf-buffer"; blob_text := output |})
      (exporting (step e (run done p0))).
Proof.
  intros Hd Hnew Hexp. set (q := run done p0) in *.
  assert (Hnew' : Forall (exported_during p0 (done ++ [e])) new).
  { eapply Forall_impl; [|exact Hnew]. intro d. apply exported_during_later. }
  assert (Hexp' : Forall (fun output =>
            exported_during p0 (done ++ [e])
              {| download := "CanvasAI-Scene.gltf";
                 blob_type := "application/gltf-buffer"; blob_text := output |})
            (exporting q)).
  { eapply Forall_impl; [|exact Hexp]. intro t. apply exported_during_later. }
  assert (Hsame : forall q', downloads q' = downloads q -> exporting q' = exporting q ->
            exists new',
              downloads q' = downloads p0 ++ new' /\
              Forall (exported_during p0 (done ++ [e])) new' /\
              Forall (fun output =>
                        exported_during p0 (done ++ [e])
                          {| download := "CanvasAI-Scene.gltf";
                             blob_type := "application/gltf-buffer";
                             blob_text := output |}) (exporting q')).
  { intros q' H1 H2. exists new. rewrite H1, H2. auto. }
  destruct e; cbn [step]; try (apply Hsame; reflexivity).
  - destruct (generateBtn_disabled (app_state q)); [now apply Hsame|].
    destruct (handleGenerateClick_request (app_state q)) as [st' [c|]];
      now apply Hsame.
  - destruct (outstanding q); now apply Hsame.
  - destruct (handleImageUpload file _) as [st' [f|]]; now apply Hsame.
  - destruct (nth_error (reading q) k); now apply Hsame.
  - unfold handleSaveApiKey. destruct (trim (apiKeyInput_value q)); now apply Hsame.
  - unfold toggleDownloadOptions.
    destruct (negb (downloadToggleBtn_disabled (app_state q))); now apply Hsame.
  - unfold window_click_listener. destruct (negb inside); now apply Hsame.
  - unfold handleDownloadGLTF.
    destruct (GLTFExporter_parse (children (app_state q))) as [output|err] eqn:Hx;
      [|now apply Hsame].
    exists new. split; [exact Hd|]. split; [exact Hnew'|].
    cbn [exporting set_exporting]. apply Forall_app. split; [exact Hexp'|].
    constructor; [|constructor]. apply exported_during_now.
    fold q. cbn [export_of]. now rewrite Hx.
  - unfold handleDownloadOBJ.
    destruct (OBJExporter_parse (children (app_state q))) as [output|err] eqn:Hx;
      [|now apply Hsame].
    eexists. cbn [downloads triggerDownload exporting]. rewrite Hd, <- app_assoc.
    split; [reflexivity|]. split; [|exact Hexp'].
    apply Forall_app. split; [exact Hnew'|].
    constructor; [|constructor]. apply exported_during_now.
    fold q. cbn [export_of]. now rewrite Hx.
  - unfold handleDownloadSTL.
    destruct (STLExporter_parse (children (app_state q))) as [output|err] eqn:Hx;
      [|now apply Hsame].
    eexists. cbn [downloads triggerDownload exporting]. rewrite Hd, <- app_assoc.
    split; [reflexivity|]. split; [|exact Hexp'].
    apply Forall_app. split; [exact Hnew'|].
    constructor; [|constructor]. apply exported_during_now.
    fold q. cbn [export_of]. now rewrite Hx.
  - destruct (nth_error (exporting q) k) as [output|] eqn:Hk; [|now apply Hsame].
    unfold gltf_onDone.
    eexists. cbn [downloads triggerDownload exporting set_exporting].
    rewrite Hd, <- app_assoc. split; [reflexivity|]. split.
    + apply Forall_app. split; [exact Hnew'|].
      constructor; [|constructor].
      apply nth_error_In in Hk. rewrite Forall_forall in Hexp'. now apply Hexp'.
    + now apply Forall_remove_nth.
Qed.

Lemma run_exported (p0 : Page) (rest done : list Event) (new : list Download) :
  downloads (run done p0) = downloads p0 ++ new ->
  Forall (exported_during p0 done) new ->
  Forall (fun output =>
            exported_during p0 done
              {| download := "CanvasAI-Scene.gltf";
                 blob_type := "application/gltf-buffer"; blob_text := output |})
    (exporting (run done p0)) ->
  exists new',
    downloads (run (done ++ rest) p0) = downloads p0 ++ new' /\
    Forall (exported_during p0 (done ++ rest)) new'.
Proof.
  revert done new. induction rest as [|e rest IH]; intros done new Hd Hnew Hexp.
  - rewrite app_nil_r. now exists new.
  - destruct (step_exported p0 done e new Hd Hnew Hexp) as (new' & Hd' & Hnew' & Hexp').
    change (e :: rest) with ([e] ++ rest). rewrite app_assoc.
    apply (IH (done ++ [e]) new'); rewrite ?run_app; assumption.
Qed.

(** X15. Every file the page hands to the browser in the course of a run
    is the file of a click on one of the three download links made during
    that run: the text that format's exporter gave for the meshes the
    group held at the click, under that format's fixed name and blob type
    (for glTF the file follows later, still with the text of the click).
    An export whose exporter throws downloads nothing and shows the
    message of its format. *)
Theorem downloads_are_exports (events : list Event) (p : Page) :
  exporting p = [] ->
  (exists new,
     downloads (run events p) = downloads p ++ new /\
     Forall (exported_during p events) new) /\
  (forall q e, GLTFExporter_parse (children (app_state q)) = Throw e ->
     downloads (step download_gltf_click q) = downloads q /\
     exporting (step download_gltf_click q) = exporting q /\
     errorMessage_textContent (app_state (step download_gltf_click q)) =
       gltf_failed_message) /\
  (forall q e, OBJExporter_parse (children (app_state q)) = Throw e ->
     downloads (step download_obj_click q) = downloads q /\
     errorMessage_textContent (app_state (step download_obj_click q)) =
       obj_failed_message) /\
  (forall q e, STLExporter_parse (children (app_state q)) = Throw e ->
     downloads (step download_stl_click q) = downloads q /\
     errorMessage_textContent (app_state (step download_stl_click q)) =
       stl_failed_message).
Proof.
  intro H. split.
  - apply (run_exported p events [] []); cbn [run app].
    + now rewrite app_nil_r.
    + constructor.
    + rewrite H. constructor.
  - split; [|split]; intros q e Hthrow; cbn [step].
    + unfold handleDownloadGLTF. rewrite Hthrow. repeat split; reflexivity.
    + unfold handleDownloadOBJ. rewrite Hthrow. split; reflexivity.
    + unfold handleDownloadSTL. rewrite Hthrow. split; reflexivity.
Qed.

(** ** A generation, with what happens while the call is outstanding *)

Lemma buildSceneFromData_keeps_message (sceneData : JSValue) (st : App) :
  errorMessage_textContent (snd (buildSceneFromData sceneData st)) =
    errorMessage_textContent st.
Proof.
  destruct (buildSceneFromData_frame sceneData st) as (cs & c & b & ->).
  reflexivity.
Qed.

(** Whether a replacement throws and the scene it leaves depend on the
    payload, not on the page it starts from. *)
Lemma buildSceneFromData_scene (sceneData : JSValue) (st1 st2 : App) :
  fst (buildSceneFromData sceneData st1) = fst (buildSceneFromData sceneData st2) /\
  children (snd (buildSceneFromData sceneData st1)) =
    children (snd (buildSceneFromData sceneData st2)) /\
  (background st1 = background st2 ->
   background (snd (buildSceneFromData sceneData st1)) =
     background (snd (buildSceneFromData sceneData st2))).
Proof.
  rewrite !buildSceneFromData_eq.
  destruct (getProp sceneData "backgroundColor") as [bg|e];
    [|cbn; repeat split; congruence].
  destruct (getProp sceneData "objects") as [objs|e];
    [|cbn; repeat split; congruence].
  destruct objs as [| |b|n|s|items|fields]; try (cbn; repeat split; congruence).
  destruct (objects_meshes items) as [[[]|e] ms];
    [|cbn; repeat split; congruence].
  destruct (Nat.ltb 0 (List.length items)); cbn; repeat split; congruence.
Qed.

(** What the settling of the call writes, by the reply. *)
Lemma handleGenerateClick_resume_outcome (reply : ServiceReply) (st : App) :
  let st' := handleGenerateClick_resume reply st in
  generateBtn_disabled st' = false /\
  (accepts reply = false ->
     errorMessage_display st' = display_block /\
     errorMessage_textContent st' = generation_failed_message /\
     downloadToggleBtn_disabled st' = downloadToggleBtn_disabled st) /\
  (accepts reply = true ->
     errorMessage_display st' = errorMessage_display st /\
     errorMessage_textContent st' = errorMessage_textContent st) /\
  (reply = ServiceFailure \/ reply = ResponseUnparsable ->
     children st' = children st /\ background st' = background st) /\
  (forall sceneData, reply = ResponseJSON sceneData ->
     children st' = children (snd (buildSceneFromData sceneData st)) /\
     background st' = background (snd (buildSceneFromData sceneData st)) /\
     downloadToggleBtn_disabled st' =
       downloadToggleBtn_disabled (snd (buildSceneFromData sceneData st))).
Proof.
  cbv zeta. unfold handleGenerateClick_resume.
  destruct reply as [| |sceneData]; cbn [try_block].
  - split; [reflexivity|]. split; [intros _; repeat split; reflexivity|].
    split; [discriminate|]. split; [intros _; split; reflexivity|].
    intros sceneData H. discriminate.
  - split; [reflexivity|]. split; [intros _; repeat split; reflexivity|].
    split; [discriminate|]. split; [intros _; split; reflexivity|].
    intros sceneData H. discriminate.
  - pose proof (buildSceneFromData_accepts sceneData st) as Hacc.
    pose proof (buildSceneFromData_keeps_error sceneData st) as (Herr & _).
    pose proof (buildSceneFromData_keeps_message sceneData st) as Hmsg.
    destruct (buildSceneFromData sceneData st) as [[[]|e] st1] eqn:Hb;
      cbn [fst snd] in *.
    + split; [reflexivity|]. split; [congruence|].
      split; [intros _; split; [exact Herr|exact Hmsg]|].
      split; [intros [H|H]; discriminate|].
      intros v Hv. injection Hv as <-. rewrite Hb. repeat split; reflexivity.
    + split; [reflexivity|].
      split; [intros _; split; [reflexivity|split; [reflexivity|]];
              exact (buildSceneFromData_throw_keeps_export _ _ _ _ Hb)|].
      split; [congruence|].
      split; [intros [H|H]; discriminate|].
      intros v Hv. injection Hv as <-. rewrite Hb. repeat split; reflexivity.
Qed.

(** The replacement of an accepted payload enables export exactly when the
    payload lists an object; one that throws leaves the control. *)
Lemma buildSceneFromData_export (sceneData : JSValue) (st : App) :
  downloadToggleBtn_disabled st = true ->
  (downloadToggleBtn_disabled (snd (buildSceneFromData sceneData st)) = false <->
   exists items,
     fst (buildSceneFromData sceneData st) = Normal tt /\
     getProp sceneData "objects" = Normal (JArr items) /\ items <> []).
Proof.
  intro Hd.
  destruct (buildSceneFromData sceneData st) as [[[]|e] st1] eqn:Hb; cbn [fst snd].
  - destruct (buildSceneFromData_normal_export _ _ _ Hb) as (items & Hobjs & Hexp).
    rewrite Hexp. split.
    + intro H. exists items. split; [reflexivity|]. split; [exact Hobjs|].
      intros ->. congruence.
    + intros (items' & _ & Hobjs' & Hne).
      rewrite Hobjs in Hobjs'. injection Hobjs' as <-.
      destruct items; [congruence|reflexivity].
  - rewrite (buildSceneFromData_throw_keeps_export _ _ _ _ Hb), Hd.
    split; [discriminate|]. intros (items & H & _). discriminate.
Qed.

(** While a call is outstanding, an event other than its settling leaves
    the loading state, the export control and the count of calls; if it
    shows an error, the message is not that of a failed generation. *)
Lemma step_while_outstanding (e : Event) (p : Page) :
  settles e = false ->
  generateBtn_disabled (app_state p) = true ->
  generateBtn_disabled (app_state (step e p)) = true /\
  downloadToggleBtn_disabled (app_state (step e p)) =
    downloadToggleBtn_disabled (app_state p) /\
  outstanding (step e p) = outstanding p /\
  ((errorMessage_display (app_state p) = display_block ->
    errorMessage_textContent (app_state p) <> generation_failed_message) ->
   errorMessage_display (app_state (step e p)) = display_block ->
   errorMessage_textContent (app_state (step e p)) <> generation_failed_message).
Proof.
  intros He Hd.
  assert (Hsame : forall q,
            generateBtn_disabled (app_state q) = generateBtn_disabled (app_state p) ->
            downloadToggleBtn_disabled (app_state q) =
              downloadToggleBtn_disabled (app_state p) ->
            outstanding q = outstanding p ->
            errorMessage_display (app_state q) = errorMessage_display (app_state p) ->
            errorMessage_textContent (app_state q) =
              errorMessage_textContent (app_state p) ->
            generateBtn_disabled (app_state q) = true /\
            downloadToggleBtn_disabled (app_state q) =
              downloadToggleBtn_disabled (app_state p) /\
            outstanding q = outstanding p /\
            ((errorMessage_display (app_state p) = display_block ->
              errorMessage_textContent (app_state p) <> generation_failed_message) ->
             errorMessage_display (app_state q) = display_block ->
             errorMessage_textContent (app_state q) <> generation_failed_message)).
  { intros q H1 H2 H3 H4 H5. rewrite H1, H4, H5. auto. }
  assert (Hshown : forall q message,
            message <> generation_failed_message ->
            app_state q = showError message (app_state p) ->
            outstanding q = outstanding p ->
            generateBtn_disabled (app_state q) = true /\
            downloadToggleBtn_disabled (app_state q) =
              downloadToggleBtn_disabled (app_state p) /\
            outstanding q = outstanding p /\
            ((errorMessage_display (app_state p) = display_block ->
              errorMessage_textContent (app_state p) <> generation_failed_message) ->
             errorMessage_display (app_state q) = display_block ->
             errorMessage_textContent (app_state q) <> generation_failed_message)).
  { intros q message Hm Hq Ho. rewrite Hq. cbn. auto. }
  destruct e; cbn [step settles] in *; try discriminate;
    try (apply Hsame; reflexivity).
  - rewrite Hd. now apply Hsame.
  - destruct file as [f|]; cbn [handleImageUpload]; [|now apply Hsame].
    destruct (negb (includes accepted_types (file_type f))); [|now apply Hsame].
    apply (Hshown _ invalid_image_message); [discriminate|reflexivity|reflexivity].
  - destruct (nth_error (reading p) k); now apply Hsame.
  - unfold handleSaveApiKey. destruct (trim (apiKeyInput_value p)); now apply Hsame.
  - unfold toggleDownloadOptions.
    destruct (negb (downloadToggleBtn_disabled (app_state p))); now apply Hsame.
  - unfold window_click_listener. destruct (negb inside); now apply Hsame.
  - unfold handleDownloadGLTF.
    destruct (GLTFExporter_parse (children (app_state p))); [now apply Hsame|].
    apply (Hshown _ gltf_failed_message); [discriminate|reflexivity|reflexivity].
  - unfold handleDownloadOBJ.
    destruct (OBJExporter_parse (children (app_state p))); [now apply Hsame|].
    apply (Hshown _ obj_failed_message); [discriminate|reflexivity|reflexivity].
  - unfold handleDownloadSTL.
    destruct (STLExporter_parse (children (app_state p))); [now apply Hsame|].
    apply (Hshown _ stl_failed_message); [discriminate|reflexivity|reflexivity].
  - destruct (nth_error (exporting p) k); now apply Hsame.
Qed.

Lemma run_while_outstanding (events : list Event) (p : Page) :
  forallb (fun e => negb (settles e)) events = true ->
  generateBtn_disabled (app_state p) = true ->
  (errorMessage_display (app_state p) = display_block ->
   errorMessage_textContent (app_state p) <> generation_failed_message) ->
  generateBtn_disabled (app_state (run events p)) = true /\
  downloadToggleBtn_disabled (app_state (run events p)) =
    downloadToggleBtn_disabled (app_state p) /\
  outstanding (run events p) = outstanding p /\
  children (app_state (run events p)) = children (app_state p) /\
  background (app_state (run events p)) = background (app_state p) /\
  (errorMessage_display (app_state (run events p)) = display_block ->
   errorMessage_textContent (app_state (run events p)) <> generation_failed_message).
Proof.
  revert p. induction events as [|e rest IH]; intros p H Hd Herr; cbn [run].
  - repeat split; try reflexivity; assumption.
  - cbn [forallb] in H. apply andb_true_iff in H as [He Hrest].
    apply negb_true_iff in He.
    destruct (step_while_outstanding e p He Hd) as (Hd' & Hx & Ho & Herr').
    destruct (step_scene e p He) as [Hc Hb].
    destruct (IH (step e p) Hrest Hd' (Herr' Herr))
      as (IHd & IHx & IHo & IHc & IHb & IHerr).
    split; [exact IHd|]. split; [congruence|]. split; [congruence|].
    split; [congruence|]. split; [congruence|exact IHerr].
Qed.

(** The page the call settles on: still loading, export disabled, the
    scene as before the click, and no message of a failed generation. *)
Lemma awaiting_page (between : list Event) (p : Page) :
  ready (app_state p) ->
  generateBtn_disabled (app_state p) = false ->
  forallb (fun e => negb (settles e)) between = true ->
  generateBtn_disabled (app_state (awaiting between p)) = true /\
  downloadToggleBtn_disabled (app_state (awaiting between p)) = true /\
  outstanding (awaiting between p) = S (outstanding p) /\
  children (app_state (awaiting between p)) = children (app_state p) /\
  background (app_state (awaiting between p)) = background (app_state p) /\
  (errorMessage_display (app_state (awaiting between p)) = display_block ->
   errorMessage_textContent (app_state (awaiting between p)) <>
     generation_failed_message) /\
  (between = [] ->
   errorMessage_display (app_state (awaiting between p)) = display_none).
Proof.
  intros Hready Hd Hbetween. unfold awaiting. cbn [run step]. rewrite Hd.
  rewrite (handleGenerateClick_request_ready _ Hready).
  set (q := set_outstanding (S (outstanding p))
              (with_app (requesting (app_state p)) p)).
  assert (Hq : errorMessage_display (app_state q) = display_none) by reflexivity.
  destruct (run_while_outstanding between q Hbetween eq_refl)
    as (Hd' & Hx & Ho & Hc & Hb & Herr).
  { rewrite Hq. discriminate. }
  split; [exact Hd'|]. split; [exact Hx|]. split; [exact Ho|].
  split; [exact Hc|]. split; [exact Hb|]. split; [exact Herr|].
  intros ->. exact Hq.
Qed.

Lemma generation_settles (between : list Event) (reply : ServiceReply) (p : Page) :
  ready (app_state p) ->
  generateBtn_disabled (app_state p) = false ->
  forallb (fun e => negb (settles e)) between = true ->
  app_state (generation between reply p) =
    handleGenerateClick_resume reply (app_state (awaiting between p)).
Proof.
  intros Hready Hd Hbetween.
  destruct (awaiting_page between p Hready Hd Hbetween) as (_ & _ & Ho & _).
  unfold generation.
  change (generate_click :: between ++ [service_settles reply])
    with ((generate_click :: between) ++ [service_settles reply]).
  rewrite run_app. fold (awaiting between p). cbn [run step].
  rewrite Ho. reflexivity.
Qed.

(** A generation ends in Failed exactly when the reply is not accepted. *)
Lemma generation_failed_iff (between : list Event) (reply : ServiceReply) (p : Page) :
  ready (app_state p) ->
  generateBtn_disabled (app_state p) = false ->
  forallb (fun e => negb (settles e)) between = true ->
  Failed (app_state (generation between reply p)) <-> accepts reply = false.
Proof.
  intros Hready Hd Hbetween.
  rewrite (generation_settles between reply p Hready Hd Hbetween).
  destruct (awaiting_page between p Hready Hd Hbetween)
    as (_ & _ & _ & _ & _ & Herr & _).
  destruct (handleGenerateClick_resume_outcome reply (app_state (awaiting between p)))
    as (Hbtn & Hfail & Hok & _).
  unfold Failed. destruct (accepts reply).
  - destruct (Hok eq_refl) as [Hdisp Hmsg]. rewrite Hdisp, Hmsg.
    split; [|discriminate]. intros (H1 & H2 & _). now destruct (Herr H1).
  - destruct (Hfail eq_refl) as (H1 & H2 & _). split; [reflexivity|].
    intros _. split; [exact H1|]. split; [exact H2|exact Hbtn].
Qed.

Lemma accepts_iff_returns (sceneData : JSValue) (st : App) :
  accepts (ResponseJSON sceneData) = false <->
  exists e, fst (buildSceneFromData sceneData st) = Throw e.
Proof.
  pose proof (buildSceneFromData_accepts sceneData st) as H.
  destruct (fst (buildSceneFromData sceneData st)) as [[]|e].
  - rewrite H. split; [discriminate|]. intros (e & He). discriminate.
  - rewrite H. split; [|reflexivity]. intros _. now exists e.
Qed.

(** C1, as the code has it. A generation whose service call fails or whose
    response text is not JSON ends in Failed with the Scene Graph, meshes
    and background, as it was before the request, whatever happens on the
    page while the call is outstanding. A payload that parses is checked
    against nothing: the generation ends in Failed exactly when
    [buildSceneFromData] throws on it, and in either case the Scene Graph
    is the one the replacement leaves, not the earlier one. With the
    [objects] field missing it throws after the group has been emptied and
    the background set from the payload; on a description whose shapes lie
    outside the enum it does not throw at all, and the generation ends
    with the scene replaced, holding the meshes of the recognised shapes
    only. *)
Theorem failed_generation_scene
    (between : list Event) (reply : ServiceReply) (p : Page) :
  ready (app_state p) ->
  generateBtn_disabled (app_state p) = false ->
  forallb (fun e => negb (settles e)) between = true ->
  let st := app_state p in
  let st' := app_state (generation between reply p) in
  (reply = ServiceFailure \/ reply = ResponseUnparsable ->
     Failed st' /\ children st' = children st /\ background st' = background st) /\
  (forall sceneData,
     reply = ResponseJSON sceneData ->
     (Failed st' <-> exists e, fst (buildSceneFromData sceneData st) = Throw e) /\
     children st' = children (snd (buildSceneFromData sceneData st)) /\
     background st' = background (snd (buildSceneFromData sceneData st))) /\
  (forall fields,
     reply = ResponseJSON (JObj fields) ->
     own_property "objects" fields = JUndefined ->
     Failed st' /\ children st' = [] /\
     background st' =
       THREE_Color (js_or (own_property "backgroundColor" fields) default_background)) /\
  (forall d,
     reply = ResponseJSON (encode d) ->
     ~ Failed st' /\
     List.length (children st') =
       List.length (filter recognized (Schema.objects d)) /\
     background st' =
       THREE_Color (js_or (JStr (Schema.backgroundColor d)) default_background)).
Proof.
  intros Hready Hd Hbetween. cbv zeta.
  pose proof (generation_failed_iff between reply p Hready Hd Hbetween) as Hfailed.
  rewrite (generation_settles between reply p Hready Hd Hbetween) in *.
  destruct (awaiting_page between p Hready Hd Hbetween)
    as (_ & _ & _ & Hc & Hb & _).
  destruct (handleGenerateClick_resume_outcome reply (app_state (awaiting between p)))
    as (_ & _ & _ & Hkeep & Hscene).
  assert (Hjson : forall sceneData,
            reply = ResponseJSON sceneData ->
            children (handleGenerateClick_resume reply (app_state (awaiting between p))) =
              children (snd (buildSceneFromData sceneData (app_state p))) /\
            background (handleGenerateClick_resume reply (app_state (awaiting between p))) =
              background (snd (buildSceneFromData sceneData (app_state p)))).
  { intros sceneData Hreply. destruct (Hscene sceneData Hreply) as (Hc' & Hb' & _).
    destruct (buildSceneFromData_scene sceneData (app_state (awaiting between p))
                (app_state p)) as (_ & Hcs & Hbs).
    split; [now rewrite Hc', Hcs|now rewrite Hb', (Hbs Hb)]. }
  split; [|split; [|split]].
  - intro Hreply. destruct (Hkeep Hreply) as [Hc' Hb'].
    split; [|split; congruence].
    apply Hfailed. destruct Hreply as [-> | ->]; reflexivity.
  - intros sceneData Hreply. destruct (Hjson sceneData Hreply) as [Hc' Hb'].
    split; [|split; assumption].
    rewrite Hfailed, Hreply. apply accepts_iff_returns.
  - intros fields Hreply Hmissing. destruct (Hjson _ Hreply) as [Hc' Hb'].
    rewrite Hc', Hb', buildSceneFromData_eq. cbn [getProp]. rewrite Hmissing.
    split; [|split; reflexivity].
    apply Hfailed. rewrite Hreply. unfold accepts. cbn [getProp].
    now rewrite Hmissing.
  - intros d Hreply. destruct (Hjson _ Hreply) as [Hc' Hb'].
    rewrite Hc', Hb', buildSceneFromData_encode. cbn [snd].
    split; [|split].
    + rewrite Hfailed, Hreply.
      pose proof (buildSceneFromData_accepts (encode d) (app_state p)) as Hacc.
      rewrite buildSceneFromData_encode in Hacc. cbn [fst] in Hacc.
      rewrite Hacc. discriminate.
    + rewrite <- spec_meshes_length. destruct (Schema.objects d); reflexivity.
    + destruct (Schema.objects d); reflexivity.
Qed.

(** C10. A generation that reaches the service and fails (the call fails,
    the text is not JSON, or the replacement throws on the payload) leaves
    export disabled, whatever meshes are in the group and whatever happens
    on the page while the call is outstanding; so a page that ends in
    Failed has export disabled. A generation leaves export enabled exactly
    when the replacement returned on a payload whose [objects] list is not
    empty. *)
Theorem export_disabled_after_failure
    (between : list Event) (reply : ServiceReply) (p : Page) :
  ready (app_state p) ->
  generateBtn_disabled (app_state p) = false ->
  forallb (fun e => negb (settles e)) between = true ->
  let st := app_state p in
  let st' := app_state (generation between reply p) in
  (reply = ServiceFailure \/ reply = ResponseUnparsable ->
     downloadToggleBtn_disabled st' = true /\ children st' = children st) /\
  (forall sceneData e,
     reply = ResponseJSON sceneData ->
     fst (buildSceneFromData sceneData st) = Throw e ->
     downloadToggleBtn_disabled st' = true) /\
  (Failed st' -> downloadToggleBtn_disabled st' = true) /\
  (downloadToggleBtn_disabled st' = false <->
     exists sceneData items,
       reply = ResponseJSON sceneData /\
       fst (buildSceneFromData sceneData st) = Normal tt /\
       getProp sceneData "objects" = Normal (JArr items) /\
       items <> []).
Proof.
  intros Hready Hd Hbetween. cbv zeta.
  pose proof (generation_failed_iff between reply p Hready Hd Hbetween) as Hfailed.
  rewrite (generation_settles between reply p Hready Hd Hbetween) in *.
  destruct (awaiting_page between p Hready Hd Hbetween)
    as (_ & Hx & _ & Hc & _).
  destruct (handleGenerateClick_resume_outcome reply (app_state (awaiting between p)))
    as (_ & Hfail & _ & Hkeep & Hscene).
  assert (Hnot : accepts reply = false ->
            downloadToggleBtn_disabled
              (handleGenerateClick_resume reply (app_state (awaiting between p))) = true).
  { intro Hacc. destruct (Hfail Hacc) as (_ & _ & ->). exact Hx. }
  split; [|split; [|split]].
  - intro Hreply. destruct (Hkeep Hreply) as [Hc' _].
    split; [|congruence].
    apply Hnot. destruct Hreply as [-> | ->]; reflexivity.
  - intros sceneData e Hreply Hthrow. apply Hnot. rewrite Hreply.
    apply (accepts_iff_returns sceneData (app_state p)). now exists e.
  - intro H. apply Hnot. now apply Hfailed.
  - split.
    + intro Hen. destruct reply as [| |sceneData].
      * rewrite Hnot in Hen by reflexivity. discriminate.
      * rewrite Hnot in Hen by reflexivity. discriminate.
      * destruct (Hscene sceneData eq_refl) as (_ & _ & Hexp).
        rewrite Hexp in Hen.
        apply (buildSceneFromData_export sceneData _ Hx) in Hen
          as (items & Hret & Hobjs & Hne).
        exists sceneData, items. split; [reflexivity|].
        split; [|split; assumption].
        destruct (buildSceneFromData_scene sceneData (app_state p)
                    (app_state (awaiting between p))) as (-> & _).
        exact Hret.
    + intros (sceneData & items & -> & Hret & Hobjs & Hne).
      destruct (Hscene sceneData eq_refl) as (_ & _ & ->).
      apply (buildSceneFromData_export sceneData _ Hx).
      exists items. split; [|split; assumption].
      destruct (buildSceneFromData_scene sceneData (app_state p)
                  (app_state (awaiting between p))) as (<- & _).
      exact Hret.
Qed.

(** X4. A generation that reaches the service ends in Failed exactly when
    the reply is not accepted: the call failed, the text is not JSON, or
    the payload's [objects] is not an array or has an element that makes
    the callback throw. When the reply is accepted the settling leaves the
    error box as it was just before: hidden when nothing came between the
    click and the settling, since the click hides it, and otherwise
    showing what an event in between may have written there. Either way
    the Generate button is released. *)
Theorem generation_succeeds_iff
    (between : list Event) (reply : ServiceReply) (p : Page) :
  ready (app_state p) ->
  generateBtn_disabled (app_state p) = false ->
  forallb (fun e => negb (settles e)) between = true ->
  let before := app_state (awaiting between p) in
  let st' := app_state (generation between reply p) in
  (Failed st' <-> accepts reply = false) /\
  (accepts reply = true ->
     errorMessage_display st' = errorMessage_display before /\
     errorMessage_textContent st' = errorMessage_textContent before /\
     (between = [] -> errorMessage_display st' = display_none)) /\
  generateBtn_disabled st' = false.
Proof.
  intros Hready Hd Hbetween. cbv zeta.
  split; [exact (generation_failed_iff between reply p Hready Hd Hbetween)|].
  rewrite (generation_settles between reply p Hready Hd Hbetween).
  destruct (awaiting_page between p Hready Hd Hbetween)
    as (_ & _ & _ & _ & _ & _ & Hnone).
  destruct (handleGenerateClick_resume_outcome reply (app_state (awaiting between p)))
    as (Hbtn & _ & Hok & _).
  split; [|exact Hbtn].
  intro Hacc. destruct (Hok Hacc) as [Hdisp Hmsg].
  split; [exact Hdisp|]. split; [exact Hmsg|].
  intro Hnil. rewrite Hdisp. now apply Hnone.
Qed.

(** ** Payloads that match the schema *)

Lemma includes_enum_has_case (s : string) :
  includes ["box"; "sphere"; "cone"; "cylinder"; "torus"] s = true ->
  has_case (JStr s) = true.
Proof.
  unfold includes, has_case, strict_equals_string. cbn [existsb].
  destruct (String.eqb s "box"), (String.eqb s "sphere"), (String.eqb s "cone"),
    (String.eqb s "cylinder"), (String.eqb s "torus"); cbn; congruence.
Qed.

Lemma conforms_vector_not_nullish (v : JSValue) :
  conforms vector_schema v = true -> nullish v = false.
Proof. destruct v; cbn; congruence. Qed.

Lemma conforms_vector_components (v : JSValue) :
  conforms vector_schema v = true ->
  exists a b c,
    prop v "x" = JNum a /\ prop v "y" = JNum b /\ prop v "z" = JNum c.
Proof.
  destruct v as [| |b|n|s|items|fields]; try discriminate.
  unfold vector_schema, prop. cbn [conforms forallb fst snd getProp].
  intro H. apply andb_true_iff in H as [R H].
  destruct (own_property "x" fields) as [| |?|a|?|?|?];
    cbn [negb is_undefined andb conforms] in R, H; try discriminate.
  destruct (own_property "y" fields) as [| |?|b|?|?|?];
    cbn [negb is_undefined andb conforms] in R, H; try discriminate.
  destruct (own_property "z" fields) as [| |?|c|?|?|?];
    cbn [negb is_undefined andb conforms] in R, H; try discriminate.
  now exists a, b, c.
Qed.

Lemma conforms_vector_no_throw (v shape : JSValue) :
  conforms vector_schema v = true ->
  existsb (fun k => ToPrimitive_throws (prop v k)) (used_components shape) = false.
Proof.
  intro H. destruct (conforms_vector_components v H) as (a & b & c & Hx & Hy & Hz).
  unfold used_components.
  destruct (strict_equals_string shape "cone" || strict_equals_string shape "torus");
    cbn [existsb]; rewrite ?Hx, ?Hy, ?Hz; reflexivity.
Qed.

Lemma conforms_object_adds (obj : JSValue) :
  conforms object_schema obj = true ->
  callback_throws obj = false /\ has_case (prop obj "shape") = true.
Proof.
  destruct obj as [| |b|n|s|items|fields]; try discriminate.
  unfold object_schema. cbn [conforms forallb fst snd]. intro H.
  apply andb_true_iff in H as [Hreq Hprops].
  apply andb_true_iff in Hreq as [Rshape Hreq].
  apply andb_true_iff in Hreq as [_ Hreq].
  apply andb_true_iff in Hreq as [Rposition Hreq].
  apply andb_true_iff in Hreq as [Rscale _].
  apply andb_true_iff in Hprops as [Pshape Hprops].
  apply andb_true_iff in Hprops as [_ Hprops].
  apply andb_true_iff in Hprops as [Pposition Hprops].
  apply andb_true_iff in Hprops as [Pscale _].
  assert (Hprop : forall k, prop (JObj fields) k = own_property k fields)
    by reflexivity.
  unfold callback_throws. rewrite !Hprop. cbn [nullish orb].
  destruct (own_property "shape" fields) as [| |b|n|s|items|fs];
    try discriminate.
  cbn [conforms] in Pshape. rewrite (includes_enum_has_case s Pshape).
  destruct (own_property "position" fields) as [| |b|n|s'|items|pfs];
    try discriminate.
  destruct (own_property "scale" fields) as [| |b|n|s'|items|sfs];
    try discriminate.
  rewrite (conforms_vector_no_throw (JObj sfs) (JStr s) Pscale).
  split; reflexivity.
Qed.

Lemma objects_meshes_all_added (items : list JSValue) :
  forallb (conforms object_schema) items = true ->
  fst (objects_meshes items) = Normal tt /\
  List.length (snd (objects_meshes items)) = List.length items.
Proof.
  induction items as [|obj rest IH]; [now split|].
  cbn [forallb]. intro H. apply andb_true_iff in H as [Hobj Hrest].
  destruct (IH Hrest) as [Hc Hl].
  destruct (conforms_object_adds obj Hobj) as [Hthrow Hcase].
  cbn [objects_meshes]. pose proof (object_mesh_cases obj) as Hm.
  destruct (object_mesh obj) as [[m|]|e].
  - destruct (objects_meshes rest) as [c ms]. cbn [fst snd] in *.
    split; [exact Hc|]. cbn [List.length]. now rewrite Hl.
  - destruct Hm; congruence.
  - destruct Hm; congruence.
Qed.

Lemma conforms_schema_objects (sceneData : JSValue) :
  conforms schema sceneData = true ->
  exists items,
    getProp sceneData "objects" = Normal (JArr items) /\
    forallb (conforms object_schema) items = true.
Proof.
  intro Hconf.
  destruct sceneData as [| |b|n|s|l|fields]; try discriminate.
  unfold schema in Hconf. cbn [conforms forallb fst snd] in Hconf.
  apply andb_true_iff in Hconf as [Hreq Hprops].
  apply andb_true_iff in Hreq as [_ Hreq].
  apply andb_true_iff in Hreq as [Hpresent _].
  apply andb_true_iff in Hprops as [_ Hprops].
  apply andb_true_iff in Hprops as [Hobjs _].
  cbn [getProp].
  destruct (own_property "objects" fields) as [| |b|n|s|items|fs] eqn:Hown;
    try discriminate.
  exists items. split; [reflexivity|exact Hobjs].
Qed.

(** X16. A response that matches the schema the request declares is
    always accepted, whatever happens on the page while the call is
    outstanding: the generation does not end in Failed and its settling
    leaves the error box as it was just before (hidden, when nothing came
    between the click and the settling); every object of the list gives
    exactly one mesh, none is skipped and none makes the callback throw;
    and export is enabled exactly when at least one mesh was added. *)
Theorem schema_conforming_payload_accepted
    (between : list Event) (sceneData : JSValue) (p : Page) :
  conforms schema sceneData = true ->
  ready (app_state p) ->
  generateBtn_disabled (app_state p) = false ->
  forallb (fun e => negb (settles e)) between = true ->
  let before := app_state (awaiting between p) in
  let st' := app_state (generation between (ResponseJSON sceneData) p) in
  exists items,
    getProp sceneData "objects" = Normal (JArr items) /\
    ~ Failed st' /\
    errorMessage_display st' = errorMessage_display before /\
    errorMessage_textContent st' = errorMessage_textContent before /\
    (between = [] -> errorMessage_display st' = display_none) /\
    List.length (children st') = List.length items /\
    (downloadToggleBtn_disabled st' = false <-> 1 <= List.length (children st')).
Proof.
  intros Hconf Hready Hd Hbetween. cbv zeta.
  destruct (conforms_schema_objects sceneData Hconf) as (items & Hobjs & Hall).
  destruct (objects_meshes_all_added items Hall) as [Hc Hl].
  assert (Hacc : accepts (ResponseJSON sceneData) = true).
  { unfold accepts. rewrite Hobjs.
    pose proof (objects_meshes_normal_iff items) as H. rewrite Hc in H.
    now rewrite H. }
  pose proof (generation_failed_iff between (ResponseJSON sceneData) p Hready Hd
                Hbetween) as Hfailed.
  rewrite (generation_settles between _ p Hready Hd Hbetween) in *.
  destruct (awaiting_page between p Hready Hd Hbetween)
    as (_ & Hx & _ & _ & _ & _ & Hnone).
  destruct (handleGenerateClick_resume_outcome (ResponseJSON sceneData)
              (app_state (awaiting between p))) as (_ & _ & Hok & _ & Hscene).
  destruct (Hok Hacc) as [Hdisp Hmsg].
  destruct (Hscene sceneData eq_refl) as (Hc' & _ & Hexp).
  exists items. split; [exact Hobjs|].
  split; [rewrite Hfailed, Hacc; discriminate|].
  split; [exact Hdisp|]. split; [exact Hmsg|].
  split; [intro Hnil; rewrite Hdisp; now apply Hnone|].
  rewrite Hc', Hexp. clear Hc' Hexp Hdisp Hmsg Hfailed Hok Hscene Hnone.
  remember (app_state (awaiting between p)) as mid eqn:Hmid. clear Hmid.
  rewrite buildSceneFromData_eq.
  assert (Hbg : exists bg, getProp sceneData "backgroundColor" = Normal bg).
  { destruct sceneData; try discriminate; cbn; eauto. }
  destruct Hbg as (bg & ->). rewrite Hobjs.
  destruct (objects_meshes items) as [c ms]. cbn [fst snd] in Hc, Hl. subst c.
  destruct items as [|obj rest]; cbn.
  - cbn in Hl. rewrite Hl. split; [reflexivity|].
    rewrite Hx. split; [discriminate|lia].
  - rewrite Hl. split; [reflexivity|].
    split; [intros _; cbn; lia|reflexivity].
Qed.

Lemma conforms_object_schema_encode (o : Schema.ObjectDescriptor) :
  conforms object_schema (encode_object o) = recognized o.
Proof.
  unfold object_schema, encode_object, recognized, shape_names.
  cbn [conforms forallb fst snd own_property String.eqb Ascii.eqb Bool.eqb
       is_undefined negb andb encode_vec vector_schema].
  now rewrite !andb_true_r.
Qed.

Lemma conforms_schema_encode (d : Schema.SceneDescription) :
  conforms schema (encode d) = forallb recognized (Schema.objects d).
Proof.
  unfold schema, encode. cbn [conforms forallb fst snd own_property String.eqb
    Ascii.eqb Bool.eqb is_undefined negb andb].
  rewrite andb_true_r.
  induction (Schema.objects d) as [|o os IH]; [reflexivity|].
  cbn [map forallb]. now rewrite IH, conforms_object_schema_encode.
Qed.

Lemma forallb_filter_length {A} (f : A -> bool) (l : list A) :
  forallb f l = true <-> List.length (filter f l) = List.length l.
Proof.
  induction l as [|a l IH]; [now split|].
  cbn [forallb filter]. pose proof (filter_length_le f l) as Hle.
  destruct (f a); cbn [andb List.length].
  - rewrite IH. split; [congruence|]. intro H. now injection H.
  - split; [discriminate|lia].
Qed.

(** X17. The schema's enumeration of shapes and the cases of the switch
    are the same five names: a descriptor of the contract matches the
    schema of an object exactly when the switch builds a geometry for it,
    and a description of the contract matches the schema exactly when the
    replacement gives every one of its objects a mesh. *)
Theorem schema_enum_is_the_switch :
  (forall o : Schema.ObjectDescriptor,
     conforms object_schema (encode_object o) = true <->
     exists g,
       switch_shape (JStr (Schema.shape o)) (encode_vec (Schema.scale o)) =
         Normal (Some g)) /\
  (forall (d : Schema.SceneDescription) (st : App),
     conforms schema (encode d) = true <->
     List.length (children (snd (buildSceneFromData (encode d) st))) =
       List.length (Schema.objects d)).
Proof.
  split.
  - intro o. rewrite conforms_object_schema_encode, switch_shape_encode,
      recognized_spec_geometry.
    destruct (spec_geometry o) as [g|].
    + split; [intros _; now exists g|reflexivity].
    + split; [discriminate|]. intros (g & H). discriminate.
  - intros d st. rewrite conforms_schema_encode, forallb_filter_length,
      buildSceneFromData_encode, <- spec_meshes_length. cbn [snd].
    destruct (Schema.objects d); reflexivity.
Qed.

(** ** When export opens *)

Lemma handleGenerateClick_resume_export (reply : ServiceReply) (st : App) :
  downloadToggleBtn_disabled st = true ->
  downloadToggleBtn_disabled (handleGenerateClick_resume reply st) = true \/
  enables_export reply = true.
Proof.
  intro Hd. unfold handleGenerateClick_resume.
  destruct reply as [| |sceneData]; cbn [try_block]; try (left; exact Hd).
  rewrite buildSceneFromData_eq. unfold enables_export.
  destruct (nullish sceneData) eqn:Hn.
  - rewrite !(getProp_nullish sceneData) by exact Hn. left. exact Hd.
  - rewrite !(getProp_not_nullish sceneData) by exact Hn. cbn iota beta.
    destruct (prop sceneData "objects") as [| |b|n|s|items|fields];
      try (left; exact Hd).
    pose proof (objects_meshes_normal_iff items) as H.
    destruct (objects_meshes items) as [[[]|e] ms]; cbn [fst] in H;
      [|left; exact Hd].
    destruct items as [|obj rest]; [left; exact Hd|].
    right. now rewrite H.
Qed.

Lemma step_export_closed (e : Event) (p : Page) :
  export_closed p ->
  export_closed (step e p) \/
  exists reply, e = service_settles reply /\ enables_export reply = true.
Proof.
  unfold export_closed. intros [Hd Hs].
  destruct e; cbn [step]; try (left; split; assumption).
  - left. destruct (generateBtn_disabled (app_state p)); [split; assumption|].
    unfold handleGenerateClick_request.
    destruct (ai (app_state p)); [|split; assumption].
    destruct (promptInput_value (app_state p)), (uploadedImage (app_state p));
      split; (exact Hd || exact Hs || reflexivity).
  - destruct (outstanding p) as [|n]; [left; split; assumption|].
    cbn [app_state with_app set_outstanding downloadOptions_show].
    destruct (handleGenerateClick_resume_export reply (app_state p) Hd) as [H|H].
    + left. split; assumption.
    + right. now exists reply.
  - left. unfold handleImageUpload. destruct file as [f|]; [|split; assumption].
    destruct (negb (includes accepted_types (file_type f))); split; assumption.
  - left. destruct (nth_error (reading p) k); split; assumption.
  - left. unfold handleSaveApiKey.
    destruct (trim (apiKeyInput_value p)); split; assumption.
  - left. unfold toggleDownloadOptions. rewrite Hd. split; assumption.
  - left. unfold window_click_listener.
    destruct (negb inside); split; (assumption || reflexivity).
  - left. unfold handleDownloadGLTF.
    destruct (GLTFExporter_parse (children (app_state p)));
      split; (assumption || reflexivity).
  - left. unfold handleDownloadOBJ.
    destruct (OBJExporter_parse (children (app_state p)));
      split; (assumption || reflexivity).
  - left. unfold handleDownloadSTL.
    destruct (STLExporter_parse (children (app_state p)));
      split; (assumption || reflexivity).
  - left. destruct (nth_error (exporting p) k);
      split; (assumption || reflexivity).
Qed.

(** X18. Export opens only after an accepted generation: on a page with
    export disabled and the download menu closed, whatever the sequence of
    events, export stays disabled and the menu stays closed unless a call
    settled with a payload that was accepted and lists at least one
    object; toggling the menu, clicking elsewhere and the failures of
    generations never open it. *)
Theorem export_opens_only_after_accepted_generation (events : list Event) (p : Page) :
  export_closed p ->
  export_closed (run events p) \/
  exists reply, In (service_settles reply) events /\ enables_export reply = true.
Proof.
  revert p. induction events as [|e rest IH]; intros p H; cbn [run].
  - now left.
  - destruct (step_export_closed e p H) as [Hstep | (reply & -> & Hen)].
    + destruct (IH (step e p) Hstep) as [Hc | (reply & Hin & Hen)].
      * now left.
      * right. exists reply. split; [now right|exact Hen].
    + right. exists reply. split; [now left|exact Hen].
Qed.

End Engine.

(** * Concrete runs *)

Lemma fresh_page_ready : ready fresh_page.
Proof. split; [discriminate|left; discriminate]. Qed.

Lemma page_with_scene_ready : ready page_with_scene.
Proof. split; [discriminate|left; discriminate]. Qed.

Example png_upload :
  uploadedImage (upload (Some png_file) fresh_page) =
    Some {| mimeType := "image/png"; data := Some "TWFuAQ==" |} /\
  previewImage_src (upload (Some png_file) fresh_page) = "data:image/png;base64,TWFuAQ==".
Proof. split; reflexivity. Qed.

Example gif_upload :
  upload (Some gif_file) fresh_page = showError invalid_image_message fresh_page.
Proof. reflexivity. Qed.

Example box_and_pyramid_scene :
  map geometry
    (children (snd (buildSceneFromData engine_nan (encode box_and_pyramid) page_with_scene)))
  = [BoxGeometry (JNum 2%float) (JNum 3%float) (JNum 4%float)].
Proof. reflexivity. Qed.

Abbreviation generation_visit :=
  (generation engine_nan trim_ascii (exporter_lines "g") (exporter_lines "o")
     (exporter_lines "s")).

Abbreviation awaiting_visit :=
  (awaiting engine_nan trim_ascii (exporter_lines "g") (exporter_lines "o")
     (exporter_lines "s")).

Lemma page_with_scene_enabled :
  generateBtn_disabled (app_state (page_around page_with_scene)) = false.
Proof. reflexivity. Qed.

Lemma rejected_upload_no_settling :
  forallb (fun e => negb (settles e)) rejected_upload = true.
Proof. reflexivity. Qed.

(** C1 fails both ways. On a payload without [objects] the generation ends
    in Failed, yet the mesh of the earlier scene is gone and the background
    is the payload's. On a description whose only shape is outside the
    enum, which does not match the contract either, the generation does
    not end in Failed at all, and the earlier scene is gone as well. *)
Lemma missing_objects_clears_scene :
  let p := page_around page_with_scene in
  let failed :=
    app_state (generation_visit [] (ResponseJSON payload_without_objects) p) in
  let skipped :=
    app_state (generation_visit [] (ResponseJSON (encode only_pyramid)) p) in
  ready (app_state p) /\
  generateBtn_disabled (app_state p) = false /\
  children (app_state p) = [old_mesh] /\
  conforms schema payload_without_objects = false /\
  Failed failed /\
  children failed = [] /\
  children failed <> children (app_state p) /\
  background failed = THREE_Color (JStr "#000000") /\
  background failed <> background (app_state p) /\
  conforms schema (encode only_pyramid) = false /\
  ~ Failed skipped /\
  errorMessage_display skipped = display_none /\
  children skipped = [] /\
  children skipped <> children (app_state p).
Proof.
  cbv zeta. split; [exact page_with_scene_ready|].
  vm_compute. repeat split; try reflexivity; try discriminate.
  intros (H & _). discriminate.
Qed.

Lemma failed_generation_scene_witness :
  let p := page_around page_with_scene in
  let st' := app_state (generation_visit rejected_upload ServiceFailure p) in
  ready (app_state p) /\
  generateBtn_disabled (app_state p) = false /\
  forallb (fun e => negb (settles e)) rejected_upload = true /\
  Failed st' /\
  children st' = children (app_state p) /\
  background st' = background (app_state p).
Proof.
  cbv zeta. split; [exact page_with_scene_ready|].
  split; [reflexivity|]. split; [reflexivity|].
  apply (failed_generation_scene engine_nan trim_ascii (exporter_lines "g")
           (exporter_lines "o") (exporter_lines "s") rejected_upload ServiceFailure
           (page_around page_with_scene) page_with_scene_ready
           page_with_scene_enabled rejected_upload_no_settling).
  left; reflexivity.
Defined.

(** C4 fails on a description whose only object has an unrecognised
    shape: no mesh is added, yet export is enabled. *)
Lemma unrecognized_shapes_enable_export :
  let st' := handleGenerateClick engine_nan (ResponseJSON (encode only_pyramid))
               fresh_page in
  ready fresh_page /\
  filter recognized (Schema.objects only_pyramid) = [] /\
  children st' = [] /\
  errorMessage_display st' = display_none /\
  downloadToggleBtn_disabled fresh_page = true /\
  downloadToggleBtn_disabled st' = false.
Proof.
  cbv zeta. split; [exact fresh_page_ready|].
  vm_compute. repeat split; reflexivity.
Qed.

Lemma export_enabled_iff_objects_listed_witness :
  ready fresh_page /\
  (downloadToggleBtn_disabled
     (handleGenerateClick engine_nan (ResponseJSON (encode box_and_pyramid)) fresh_page)
   = false <-> Schema.objects box_and_pyramid <> []).
Proof.
  split; [exact fresh_page_ready|].
  apply (export_enabled_iff_objects_listed engine_nan box_and_pyramid fresh_page
           fresh_page_ready).
Defined.

(** C5 fails on a background that is not a colour: the text goes to the
    colour constructor and the default is not used. *)
Lemma invalid_background_is_kept :
  let result := buildSceneFromData engine_nan (encode banana_background) fresh_page in
  fst result = Normal tt /\
  background (snd result) = THREE_Color (JStr "banana") /\
  background (snd result) <> THREE_Color default_background.
Proof.
  cbv zeta. vm_compute. repeat split; try reflexivity; discriminate.
Qed.

Lemma background_from_payload_witness :
  buildSceneFromData engine_nan payload_without_background fresh_page =
    (Normal tt, snd (buildSceneFromData engine_nan payload_without_background fresh_page)) /\
  exists bg,
    getProp payload_without_background "backgroundColor" = Normal bg /\
    background (snd (buildSceneFromData engine_nan payload_without_background fresh_page)) =
      THREE_Color (js_or bg default_background) /\
    (truthy bg = false ->
       background (snd (buildSceneFromData engine_nan payload_without_background fresh_page)) =
         THREE_Color default_background) /\
    (truthy bg = true ->
       background (snd (buildSceneFromData engine_nan payload_without_background fresh_page)) =
         THREE_Color bg).
Proof.
  split; [reflexivity|].
  apply (background_from_payload engine_nan payload_without_background fresh_page).
  reflexivity.
Defined.

Lemma empty_input_rejected_locally_witness :
  promptInput_value page_without_input = EmptyString /\
  uploadedImage page_without_input = None /\
  requests (handleGenerateClick engine_nan ServiceFailure page_without_input) =
    requests page_without_input /\
  errorMessage_display (handleGenerateClick engine_nan ServiceFailure page_without_input) =
    display_block.
Proof.
  split; [reflexivity|]. split; [reflexivity|].
  pose proof (empty_input_rejected_locally engine_nan ServiceFailure page_without_input
                eq_refl eq_refl) as H.
  cbv zeta in H. destruct H as (_ & Hreq & Herr & _).
  split; [exact Hreq|exact Herr].
Defined.

Lemma export_disabled_after_failure_witness :
  let p := page_around page_with_scene in
  let st' := app_state (generation_visit rejected_upload ResponseUnparsable p) in
  ready (app_state p) /\
  generateBtn_disabled (app_state p) = false /\
  forallb (fun e => negb (settles e)) rejected_upload = true /\
  downloadToggleBtn_disabled (app_state p) = false /\
  downloadToggleBtn_disabled st' = true /\
  children st' = children (app_state p).
Proof.
  cbv zeta. split; [exact page_with_scene_ready|].
  split; [reflexivity|]. split; [reflexivity|]. split; [reflexivity|].
  apply (export_disabled_after_failure engine_nan trim_ascii (exporter_lines "g")
           (exporter_lines "o") (exporter_lines "s") rejected_upload
           ResponseUnparsable (page_around page_with_scene) page_with_scene_ready
           page_with_scene_enabled rejected_upload_no_settling).
  right; reflexivity.
Defined.

(** * Concrete runs of the whole page *)

Abbreviation run_visit :=
  (run engine_nan trim_ascii (exporter_lines "g") (exporter_lines "o")
     (exporter_lines "s")).

Abbreviation exported_during_visit :=
  (exported_during engine_nan trim_ascii (exporter_lines "g") (exporter_lines "o")
     (exporter_lines "s")).

Example a_visit_run :
  let p := run_visit a_visit (main loaded_page) in
  requests (app_state p) =
    [[inlineData {| mimeType := "image/png"; data := Some "TWFuAQ==" |};
      text "a red box"]] /\
  localStorage_gemini_api_key p = Some "key-123" /\
  List.length (children (app_state p)) = 1 /\
  map download (downloads p) = ["CanvasAI-Scene.obj"; "CanvasAI-Scene.stl"] /\
  outstanding p = 0.
Proof. cbv zeta. repeat split; reflexivity. Qed.

Lemma main_loaded_page_in_flight_ok : in_flight_ok (main loaded_page).
Proof. reflexivity. Qed.

Lemma main_loaded_page_images_ok : images_ok [] (main loaded_page).
Proof. split; [discriminate|constructor]. Qed.

Lemma main_loaded_page_credential_ok : credential_ok (main loaded_page).
Proof. intros key H. discriminate. Qed.

Lemma main_loaded_page_no_image : no_image (main loaded_page).
Proof. repeat split; reflexivity. Qed.

Lemma png_accepted : In (file_type png_file) accepted_types.
Proof. right; left; reflexivity. Qed.

(** A scale component that cannot be converted to a number makes the
    callback throw, and the generation fail with the group emptied and
    export disabled. *)
Example toString_scale_fails :
  let p := generation_visit []
             (ResponseJSON (scene_payload (JStr "#000000") [box_with_toString_scale]))
             (page_around page_with_scene) in
  callback_throws box_with_toString_scale = true /\
  fst (addObject engine_nan box_with_toString_scale page_with_scene) = Throw TypeError /\
  Failed (app_state p) /\
  children (app_state p) = [] /\
  downloadToggleBtn_disabled (app_state p) = true.
Proof. cbv zeta. repeat split; reflexivity. Qed.

(** A position without [z] leaves the mesh at z = 0. *)
Example position_without_z :
  map position
    (children (snd (buildSceneFromData engine_nan
                      (scene_payload (JStr "#000000") [box_without_z]) fresh_page)))
  = [(JNum 1%float, JNum 2%float, JNum 0%float)].
Proof. reflexivity. Qed.

Lemma batch_stops_at_first_throw_witness :
  existsb callback_throws [encode_object red_box] = false /\
  callback_throws box_without_position = true /\
  fst (buildSceneFromData engine_nan
         (scene_payload (JStr "#000000")
            ([encode_object red_box] ++ box_without_position :: [encode_object pyramid]))
         page_with_scene) = Throw TypeError.
Proof.
  split; [reflexivity|]. split; [reflexivity|].
  apply (batch_stops_at_first_throw engine_nan (JStr "#000000") box_without_position
           [encode_object red_box] [encode_object pyramid] page_with_scene);
    reflexivity.
Defined.

(** An upload rejected while the call is outstanding leaves its message
    on a generation that is accepted. *)
Example rejected_upload_during_generation :
  let p := generation_visit rejected_upload (ResponseJSON (encode box_and_pyramid))
             (page_around fresh_page) in
  errorMessage_display (app_state p) = display_block /\
  errorMessage_textContent (app_state p) = invalid_image_message /\
  downloadToggleBtn_disabled (app_state p) = false /\
  List.length (children (app_state p)) = 1.
Proof. cbv zeta. repeat split; reflexivity. Qed.

Lemma fresh_page_enabled :
  generateBtn_disabled (app_state (page_around fresh_page)) = false.
Proof. reflexivity. Qed.

Lemma generation_succeeds_iff_witness :
  let p := page_around fresh_page in
  let reply := ResponseJSON (encode box_and_pyramid) in
  ready (app_state p) /\
  generateBtn_disabled (app_state p) = false /\
  forallb (fun e => negb (settles e)) rejected_upload = true /\
  (Failed (app_state (generation_visit rejected_upload reply p)) <->
   accepts reply = false).
Proof.
  cbv zeta. split; [exact fresh_page_ready|].
  split; [reflexivity|]. split; [reflexivity|].
  apply (generation_succeeds_iff engine_nan trim_ascii (exporter_lines "g")
           (exporter_lines "o") (exporter_lines "s") rejected_upload
           (ResponseJSON (encode box_and_pyramid)) (page_around fresh_page)
           fresh_page_ready fresh_page_enabled rejected_upload_no_settling).
Defined.

Lemma request_carries_image_then_prompt_witness :
  In (file_type png_file) accepted_types /\
  ai page_without_input <> None /\
  requests (handleGenerateClick engine_nan ServiceFailure
              (upload (Some png_file) page_without_input)) =
  requests page_without_input ++
    [[inlineData {| mimeType := file_type png_file;
                    data := Some (base64 (file_bytes png_file)) |};
      text (promptInput_value page_without_input)]].
Proof.
  split; [exact png_accepted|]. split; [discriminate|].
  apply (request_carries_image_then_prompt engine_nan ServiceFailure png_file
           page_without_input png_accepted).
  discriminate.
Defined.

Lemma single_request_in_flight_witness :
  in_flight_ok (main loaded_page) /\
  outstanding (run_visit a_visit (main loaded_page)) <= 1.
Proof.
  split; [exact main_loaded_page_in_flight_ok|].
  apply (single_request_in_flight engine_nan trim_ascii (exporter_lines "g")
           (exporter_lines "o") (exporter_lines "s") a_visit (main loaded_page)
           main_loaded_page_in_flight_ok).
Defined.

Lemma every_request_is_well_formed_witness :
  images_ok [] (main loaded_page) /\
  Forall (request_ok []) (requests (app_state (main loaded_page))) /\
  Forall (request_ok ([] ++ picked a_visit))
    (requests (app_state (run_visit a_visit (main loaded_page)))).
Proof.
  split; [exact main_loaded_page_images_ok|]. split; [constructor|].
  apply (every_request_is_well_formed engine_nan trim_ascii (exporter_lines "g")
           (exporter_lines "o") (exporter_lines "s") a_visit [] (main loaded_page)
           main_loaded_page_images_ok).
  constructor.
Defined.

Lemma no_request_without_credential_witness :
  credential_ok (main loaded_page) /\
  credential_ok (run_visit a_visit (main loaded_page)).
Proof.
  split; [exact main_loaded_page_credential_ok|].
  apply (no_request_without_credential engine_nan trim_ascii (exporter_lines "g")
           (exporter_lines "o") (exporter_lines "s") a_visit (main loaded_page)
           main_loaded_page_credential_ok).
Defined.

Lemma scene_written_only_when_call_settles_witness :
  forallb (fun e => negb (settles e)) no_settling = true /\
  children (app_state (run_visit no_settling (main loaded_page))) =
    children (app_state (main loaded_page)) /\
  background (app_state (run_visit no_settling (main loaded_page))) =
    background (app_state (main loaded_page)).
Proof.
  split; [reflexivity|].
  apply (scene_written_only_when_call_settles engine_nan trim_ascii
           (exporter_lines "g") (exporter_lines "o") (exporter_lines "s")
           no_settling (main loaded_page)).
  reflexivity.
Defined.

Lemma remove_undoes_upload_witness :
  In (file_type png_file) accepted_types /\
  no_image (main loaded_page) /\
  run_visit [image_change "C:\fakepath\cat.png" (Some png_file); reader_load 0;
             remove_image_click] (main loaded_page) = main loaded_page.
Proof.
  split; [exact png_accepted|]. split; [exact main_loaded_page_no_image|].
  apply (remove_undoes_upload engine_nan trim_ascii (exporter_lines "g")
           (exporter_lines "o") (exporter_lines "s") "C:\fakepath\cat.png" png_file
           (main loaded_page) png_accepted main_loaded_page_no_image).
Defined.


Lemma empty_payload_restores_startup_scene_witness :
  truthy (own_property "backgroundColor" [("objects", JArr [])]) = false /\
  own_property "objects" [("objects", JArr [])] = JArr [] /\
  children (snd (buildSceneFromData engine_nan (JObj [("objects", JArr [])])
                   page_with_scene)) = children (initScene fresh_page) /\
  background (snd (buildSceneFromData engine_nan (JObj [("objects", JArr [])])
                     page_with_scene)) = background (initScene fresh_page).
Proof.
  split; [reflexivity|]. split; [reflexivity|].
  destruct (empty_payload_restores_startup_scene engine_nan [("objects", JArr [])]
              page_with_scene fresh_page eq_refl eq_refl) as (_ & Hc & Hb & _).
  split; [exact Hc|exact Hb].
Defined.

(** The glTF file carries the one mesh the group held at the click, not
    the two it holds when the file is handed over. *)
Example late_gltf_run :
  let p := run_visit late_gltf (page_around page_with_scene) in
  downloads p =
    [{| download := "CanvasAI-Scene.gltf"; blob_type := "application/gltf-buffer";
        blob_text := "g" |}] /\
  List.length (children (app_state p)) = 2 /\
  exporting p = [].
Proof. cbv zeta. repeat split; reflexivity. Qed.

Lemma downloads_are_exports_witness :
  exporting (page_around page_with_scene) = [] /\
  exists new,
    downloads (run_visit late_gltf (page_around page_with_scene)) =
      downloads (page_around page_with_scene) ++ new /\
    Forall (exported_during_visit (page_around page_with_scene) late_gltf) new.
Proof.
  split; [reflexivity|].
  apply (downloads_are_exports engine_nan trim_ascii (exporter_lines "g")
           (exporter_lines "o") (exporter_lines "s") late_gltf
           (page_around page_with_scene)).
  reflexivity.
Defined.

Lemma schema_conforming_payload_accepted_witness :
  let p := page_around fresh_page in
  let st' := app_state (generation_visit rejected_upload
                          (ResponseJSON (encode banana_background)) p) in
  conforms schema (encode banana_background) = true /\
  ready (app_state p) /\
  generateBtn_disabled (app_state p) = false /\
  forallb (fun e => negb (settles e)) rejected_upload = true /\
  exists items,
    getProp (encode banana_background) "objects" = Normal (JArr items) /\
    ~ Failed st' /\
    errorMessage_display st' =
      errorMessage_display (app_state (awaiting_visit rejected_upload p)) /\
    errorMessage_textContent st' =
      errorMessage_textContent (app_state (awaiting_visit rejected_upload p)) /\
    (rejected_upload = [] -> errorMessage_display st' = display_none) /\
    List.length (children st') = List.length items /\
    (downloadToggleBtn_disabled st' = false <-> 1 <= List.length (children st')).
Proof.
  cbv zeta. split; [reflexivity|]. split; [exact fresh_page_ready|].
  split; [reflexivity|]. split; [reflexivity|].
  apply (schema_conforming_payload_accepted engine_nan trim_ascii
           (exporter_lines "g") (exporter_lines "o") (exporter_lines "s")
           rejected_upload (encode banana_background) (page_around fresh_page)
           eq_refl fresh_page_ready fresh_page_enabled rejected_upload_no_settling).
Defined.

Lemma export_opens_only_after_accepted_generation_witness :
  export_closed (main loaded_page) /\
  (export_closed (run_visit no_settling (main loaded_page)) \/
   exists reply, In (service_settles reply) no_settling /\ enables_export reply = true).
Proof.
  assert (H : export_closed (main loaded_page)) by (split; reflexivity).
  split; [exact H|].
  apply (export_opens_only_after_accepted_generation engine_nan trim_ascii
           (exporter_lines "g") (exporter_lines "o") (exporter_lines "s")
           no_settling (main loaded_page) H).
Defined.
